(** * The gallery of app.py: a shallow embedding and its properties

    The Flask application of [app.py] keeps a tree of cards and their images
    in a relational store, the uploaded bytes in a directory, and gates six
    mutating routes behind an [admin] session flag.  This file embeds the
    helpers ([allowed_file], [save_file]) and the gallery routes as functions
    over an explicit world (session, store, unit of work, upload directory,
    flashed messages) and proves the properties stated in the specification.

    Python [str] values are modelled as [string]; [lower], [split], [rsplit]
    and [os.path.splitext] are written out for one-byte characters. *)

From Stdlib Require Import ZArith Ascii String List.
From stdpp Require Import base tactics option list gmap strings pretty.

Local Open Scope string_scope.
Local Open Scope Z_scope.

Set Warnings "-clear-no-such-hyp".

(** ** Python string primitives *)

Module Py.

(** [c in s] for a one-character [c]. *)
Fixpoint contains (c : ascii) (s : string) : bool :=
  match s with
  | EmptyString => false
  | String a s' => if Ascii.eqb a c then true else contains c s'
  end.

(** [s.partition(c)] when [c] occurs: the text before the first [c] and the
    text after it. *)
Fixpoint partition (c : ascii) (s : string) : option (string * string) :=
  match s with
  | EmptyString => None
  | String a s' =>
      if Ascii.eqb a c then Some (EmptyString, s')
      else match partition c s' with
           | Some (h, t) => Some (String a h, t)
           | None => None
           end
  end.

(** [s.rpartition(c)] when [c] occurs: split at the last [c]. *)
Fixpoint rpartition (c : ascii) (s : string) : option (string * string) :=
  match s with
  | EmptyString => None
  | String a s' =>
      match rpartition c s' with
      | Some (h, t) => Some (String a h, t)
      | None => if Ascii.eqb a c then Some (EmptyString, s') else None
      end
  end.

(** [s.split(c, 1)] *)
Definition split1 (c : ascii) (s : string) : list string :=
  match partition c s with
  | Some (h, t) => [h; t]
  | None => [s]
  end.

(** [s.rsplit(c, 1)] *)
Definition rsplit1 (c : ascii) (s : string) : list string :=
  match rpartition c s with
  | Some (h, t) => [h; t]
  | None => [s]
  end.

Definition lower_char (a : ascii) : ascii :=
  let n := nat_of_ascii a in
  if (Nat.leb 65 n && Nat.leb n 90)%bool then ascii_of_nat (n + 32) else a.

(** [s.lower()] *)
Fixpoint lower (s : string) : string :=
  match s with
  | EmptyString => EmptyString
  | String a s' => String (lower_char a) (lower s')
  end.

(** [s.rfind(c)], with [-1] when [c] does not occur; [i] is the index of
    the first character of [s] in the whole string. *)
Fixpoint rfind_from (c : ascii) (s : string) (i : Z) : Z :=
  match s with
  | EmptyString => -1
  | String a s' =>
      let r := rfind_from c s' (i + 1) in
      if 0 <=? r then r else if Ascii.eqb a c then i else -1
  end.

Definition rfind (c : ascii) (s : string) : Z := rfind_from c s 0.

(** [s[:n]] and [s[n:]] for [0 <= n]. *)
Fixpoint take (n : nat) (s : string) : string :=
  match n, s with
  | S n', String a s' => String a (take n' s')
  | _, _ => EmptyString
  end.

Fixpoint drop (n : nat) (s : string) : string :=
  match n, s with
  | S n', String _ s' => drop n' s'
  | _, _ => s
  end.

(** The loop of [genericpath._splitext] that skips leading dots: it finds
    a character other than the dot in the slice it walks. *)
Fixpoint has_non_dot (s : string) : bool :=
  match s with
  | EmptyString => false
  | String a s' => if Ascii.eqb a "." then has_non_dot s' else true
  end.

(** [os.path.splitext(p)] of [posixpath]: [sep] is the slash, there is no
    [altsep], [extsep] is the dot. *)
Definition splitext (p : string) : string * string :=
  let sepIndex := rfind "/" p in
  let dotIndex := rfind "." p in
  if sepIndex <? dotIndex then
    let filenameIndex := sepIndex + 1 in
    let stem := take (Z.to_nat (dotIndex - filenameIndex))
                     (drop (Z.to_nat filenameIndex) p) in
    if has_non_dot stem
    then (take (Z.to_nat dotIndex) p, drop (Z.to_nat dotIndex) p)
    else (p, EmptyString)
  else (p, EmptyString).

(** [str(n)] for a non-negative integer, as an f-string prints it. *)
Definition str_nat (n : nat) : string := pretty n.

End Py.

(** ** Configuration *)

Definition ALLOWED_EXTENSIONS : gset string :=
  list_to_set ["png"; "jpg"; "jpeg"; "gif"; "webp"].

Definition GALLERY_PASSWORDS : gmap string string :=
  <["123" := "public"]> (<["admin123" := "admin"]> ∅).

(** ** Helper: [allowed_file] *)

Definition allowed_file (filename : string) : bool :=
  Py.contains "." filename
  && bool_decide (Py.lower (default "" (Py.rsplit1 "." filename !! 1%nat))
                    ∈ ALLOWED_EXTENSIONS).

(** [int(s)] on a string: surrounding whitespace is stripped, then an
    optional sign and decimal digits, where single underscores may separate
    digits.  [None] stands for the [ValueError]. *)
Module PyInt.

(** The white space that [int] skips at both ends of an ASCII text: tab,
    line feed, vertical tab, form feed, carriage return and the space.  The
    separators 28 to 31 are not skipped. *)
Definition is_space (a : ascii) : bool :=
  let n := nat_of_ascii a in
  (Nat.leb 9 n && Nat.leb n 13 || Nat.eqb n 32)%bool.

Fixpoint lstrip (s : string) : string :=
  match s with
  | String a s' => if is_space a then lstrip s' else s
  | EmptyString => EmptyString
  end.

Fixpoint rstrip (s : string) : string :=
  match s with
  | String a s' =>
      match rstrip s' with
      | EmptyString => if is_space a then EmptyString else String a EmptyString
      | r => String a r
      end
  | EmptyString => EmptyString
  end.

Definition digit (a : ascii) : option Z :=
  let n := nat_of_ascii a in
  if (Nat.leb 48 n && Nat.leb n 57)%bool then Some (Z.of_nat (n - 48)) else None.

(** [after_digit] records that the previous character was a digit, which
    is where an underscore or the end of the literal may stand. *)
Fixpoint digits (acc : Z) (after_digit : bool) (s : string) : option Z :=
  match s with
  | EmptyString => if after_digit then Some acc else None
  | String a s' =>
      match digit a with
      | Some d => digits (10 * acc + d) true s'
      | None =>
          if (Ascii.eqb a "_" && after_digit)%bool then digits acc false s'
          else None
      end
  end.

Definition int (s : string) : option Z :=
  match rstrip (lstrip s) with
  | String "-" s' => Z.opp <$> digits 0 false s'
  | String "+" s' => digits 0 false s'
  | s' => digits 0 false s'
  end.

End PyInt.

(** ** Data model *)

Module Card.
Record t := mk { id : Z; name : string; parent_id : option Z }.
End Card.

Module Image.
Record t := mk { id : Z; filename : string; card_id : Z }.
End Image.

#[global] Instance card_eq_dec : EqDecision Card.t.
Proof. solve_decision. Defined.
#[global] Instance image_eq_dec : EqDecision Image.t.
Proof. solve_decision. Defined.

(** The two tables, rows in insertion order. *)
Record database := Database { cards : list Card.t; images : list Image.t }.

(** An uploaded file as the routes see it: its client-side name, and whether
    writing it to disk fails ([file.save] raising an [OSError] with that
    text).  Python's truth value of a [FileStorage] is that of its name. *)
Record FileStorage := { filename : string; save_error : option string }.

Definition file_truthy (f : FileStorage) : bool :=
  negb (String.eqb (filename f) "").

(** What the storage engine does to the next [flush] and [commit]: [Some e]
    makes the call raise with text [e]. *)
Record faults := Faults { flush_error : option string; commit_error : option string }.

Definition no_faults : faults := Faults None None.

(** The unit of work of the ORM session: changes recorded by [add], by
    [delete] and by attribute assignment, written to the database by
    [flush]. *)
Inductive pending_op :=
| AddCard (name : string) (parent_id : option Z)
| AddImage (filename : string) (card_id : option Z)
| SetCardName (id : Z) (name : string)
| DeleteCard (id : Z)
| DeleteImage (id : Z).

Record world := World {
  gallery_access : option string;    (* session['gallery_access'] *)
  committed : database;              (* rows that survive the request *)
  txn : database;                    (* rows as the open transaction sees them *)
  pending : list pending_op;         (* unit of work not yet flushed *)
  uploads : gset string;             (* names present in UPLOAD_FOLDER *)
  flashed : list (string * string);  (* flash(message, category), oldest first *)
  engine : faults
}.

Definition set_access (a : option string) (w : world) : world :=
  World a (committed w) (txn w) (pending w) (uploads w) (flashed w) (engine w).
Definition set_committed (d : database) (w : world) : world :=
  World (gallery_access w) d (txn w) (pending w) (uploads w) (flashed w) (engine w).
Definition set_txn (d : database) (w : world) : world :=
  World (gallery_access w) (committed w) d (pending w) (uploads w) (flashed w) (engine w).
Definition set_pending (p : list pending_op) (w : world) : world :=
  World (gallery_access w) (committed w) (txn w) p (uploads w) (flashed w) (engine w).
Definition set_uploads (u : gset string) (w : world) : world :=
  World (gallery_access w) (committed w) (txn w) (pending w) u (flashed w) (engine w).
Definition set_flashed (f : list (string * string)) (w : world) : world :=
  World (gallery_access w) (committed w) (txn w) (pending w) (uploads w) f (engine w).
Definition set_engine (e : faults) (w : world) : world :=
  World (gallery_access w) (committed w) (txn w) (pending w) (uploads w) (flashed w) e.

(** ** Exceptions and the monad of route code *)

Inductive exn_class :=
  HTTPNotFound | OSError | ValueError | IndexError | OverflowError | StorageError
| CircularDependencyError.

Record exn := Exn { class_of : exn_class; str_of : string }.

(** How a piece of route code ends.  [OutOfFuel] is for the one loop of the
    application, in [save_file], should it use up the rounds it is given;
    [save_file_loop_total] shows that it never does. *)
Inductive outcome (A : Type) :=
| Return (a : A)
| Raise (e : exn)
| OutOfFuel.
Arguments Return {A} a.
Arguments Raise {A} e.
Arguments OutOfFuel {A}.

Definition M (A : Type) : Type := world → outcome A * world.

#[global] Instance M_ret : MRet M := λ A a w, (Return a, w).
#[global] Instance M_bind : MBind M := λ A B f m w,
  match m w with
  | (Return a, w') => f a w'
  | (Raise e, w') => (Raise e, w')
  | (OutOfFuel, w') => (OutOfFuel, w')
  end.

Definition raise {A} (c : exn_class) (msg : string) : M A :=
  λ w, (Raise (Exn c msg), w).
Definition get_world : M world := λ w, (Return w, w).
Definition modify (f : world → world) : M unit := λ w, (Return tt, f w).

(** [try: body  except <classes> as e: handler(e)] *)
Definition try_except {A} (body : M A) (catches : exn_class → bool)
    (handler : exn → M A) : M A := λ w,
  match body w with
  | (Raise e, w') => if catches (class_of e) then handler e w' else (Raise e, w')
  | r => r
  end.

Definition except_Exception (c : exn_class) : bool := true.
Definition except_OSError (c : exn_class) : bool :=
  match c with OSError => true | _ => false end.

(** [for x in xs: acc = body(acc, x)] *)
Fixpoint for_each {A B} (xs : list A) (acc : B) (body : B → A → M B) : M B :=
  match xs with
  | [] => mret acc
  | x :: xs' => acc' ← body acc x; for_each xs' acc' body
  end.

Definition flash (message category : string) : M unit :=
  modify (λ w, set_flashed (flashed w ++ [(message, category)]) w).

(** ** The storage layer *)

(** The key SQLite gives a new row: one more than the largest in the table. *)
Definition next_id (ids : list Z) : Z := 1 + foldr Z.max 0 ids.

(** An integer column holds a signed 64-bit value; binding a larger Python
    [int] raises [OverflowError]. *)
Definition sqlite_int (z : Z) : bool := (- 2 ^ 63 <=? z) && (z <? 2 ^ 63).

Definition sqlite_int_opt (o : option Z) : bool :=
  match o with Some z => sqlite_int z | None => true end.

(** Rows that the [children] relationship reaches from the cards already
    marked for deletion, and that are not marked yet. *)
Definition cascade_front (cs : list Card.t) (seen : list Z) : list Card.t :=
  filter (λ c, Card.parent_id c ∈ (Some <$> seen) ∧ Card.id c ∉ seen) cs.

(** The [cascade="all, delete-orphan"] of [Card.children]: deleting a card
    marks its children, theirs, and so on, until nothing new is reached.
    This is only the marking: on a cycle of parents it comes back to the
    card it started from, and [delete_card_rows] below then fails as the
    flush does. *)
Fixpoint cascade (fuel : nat) (cs : list Card.t) (seen : list Z) : list Z :=
  match fuel with
  | O => seen
  | S fuel' =>
      match cascade_front cs seen with
      | [] => seen
      | new => cascade fuel' cs (seen ++ (Card.id <$> new))
      end
  end.

Definition doomed (cs : list Card.t) (card_id : Z) : list Z :=
  cascade (length cs) cs [card_id].

Definition find_card (id : Z) (cs : list Card.t) : option Card.t :=
  List.find (λ c, bool_decide (Card.id c = id)) cs.

Definition find_image (id : Z) (rows : list Image.t) : option Image.t :=
  List.find (λ i, bool_decide (Image.id i = id)) rows.

(** The card is its own ancestor: its parent is the card itself or one of
    the cards that the cascade marks with it.  [add_card] stores any key as
    parent, so such rows can be in the table. *)
Definition own_ancestor (cs : list Card.t) (card_id : Z) : bool :=
  match find_card card_id cs ≫= Card.parent_id with
  | Some p => bool_decide (p ∈ doomed cs card_id)
  | None => false
  end.

(** Deleting a card deletes the marked cards and, by the cascade of
    [Card.images], the images that belong to them.  The unit of work deletes
    a child before its parent; for a card that is its own ancestor there is
    no such order, the flush raises [CircularDependencyError] and no row is
    deleted. *)
Definition delete_card_rows (d : database) (card_id : Z) : exn + database :=
  let dead := doomed (cards d) card_id in
  if own_ancestor (cards d) card_id then
    inl (Exn CircularDependencyError "Circular dependency detected.")
  else
    inr (Database (filter (λ c, Card.id c ∉ dead) (cards d))
                  (filter (λ i, Image.card_id i ∉ dead) (images d))).

Definition rename_card (id : Z) (name : string) (c : Card.t) : Card.t :=
  if decide (Card.id c = id) then Card.mk (Card.id c) name (Card.parent_id c) else c.

(** One statement of a flush: the new database and the key of the inserted
    row, or the exception the engine raises.  The [parent_id] of a new card
    is what the client sent and may not fit the column; the [card_id] of a
    new image is always the key of a row of the store. *)
Definition apply_op (d : database) (op : pending_op) : exn + database * list Z :=
  match op with
  | AddCard name parent_id =>
      if sqlite_int_opt parent_id then
        let k := next_id (Card.id <$> cards d) in
        inr (Database (cards d ++ [Card.mk k name parent_id]) (images d), [k])
      else inl (Exn OverflowError "Python int too large to convert to SQLite INTEGER")
  | AddImage filename card_id =>
      match card_id with
      | None => inl (Exn StorageError "NOT NULL constraint failed: image.card_id")
      | Some cid =>
          let k := next_id (Image.id <$> images d) in
          inr (Database (cards d) (images d ++ [Image.mk k filename cid]), [k])
      end
  | SetCardName id name =>
      inr (Database (rename_card id name <$> cards d) (images d), [])
  | DeleteCard id =>
      match delete_card_rows d id with
      | inl e => inl e
      | inr d' => inr (d', [])
      end
  | DeleteImage id =>
      inr (Database (cards d) (filter (λ i, Image.id i ≠ id) (images d)), [])
  end.

Fixpoint apply_ops (d : database) (keys : list Z) (ops : list pending_op)
  : exn + database * list Z :=
  match ops with
  | [] => inr (d, keys)
  | op :: ops' =>
      match apply_op d op with
      | inl e => inl e
      | inr (d', ks) => apply_ops d' (keys ++ ks) ops'
      end
  end.

(** [db.session.add], [db.session.delete] and attribute assignment. *)
Definition session_record (op : pending_op) : M unit :=
  modify (λ w, set_pending (pending w ++ [op]) w).

(** Writes the unit of work into the open transaction; answers the keys of
    the rows it inserted, by which [new_card.id] becomes known. *)
Definition write_pending (fault : option string) : M (list Z) := λ w,
  match fault with
  | Some e => (Raise (Exn StorageError e), w)
  | None =>
      match apply_ops (txn w) [] (pending w) with
      | inl e => (Raise e, w)
      | inr (d, keys) => (Return keys, set_pending [] (set_txn d w))
      end
  end.

(** [db.session.flush()] *)
Definition session_flush : M (list Z) :=
  w ← get_world; write_pending (flush_error (engine w)).

(** [db.session.commit()] *)
Definition session_commit : M unit :=
  w ← get_world;
  write_pending (commit_error (engine w));;
  modify (λ w, set_committed (txn w) w).

(** [db.session.rollback()] *)
Definition session_rollback : M unit :=
  modify (λ w, set_pending [] (set_txn (committed w) w)).

(** [Card.query.get(key)]; a key that names no integer finds nothing. *)
Definition Card_query_get (key : option Z) : M (option Card.t) :=
  w ← get_world; mret (key ≫= λ k, find_card k (cards (txn w))).

(** What a lookup by primary key answers when no row has the key.  The key
    is bound as a parameter of the query: one that does not fit the integer
    column raises [OverflowError]; one that fits selects nothing, which
    [get_or_404] turns into the 404 response.  The rows of the table have
    keys that fit, so a key that finds a row is one that could be bound. *)
Definition key_not_found {A} (key : Z) : M A :=
  if sqlite_int key then raise HTTPNotFound "404 Not Found"
  else raise OverflowError "Python int too large to convert to SQLite INTEGER".

(** [Card.query.get_or_404(card_id)] *)
Definition Card_query_get_or_404 (card_id : Z) : M Card.t :=
  w ← get_world;
  match find_card card_id (cards (txn w)) with
  | Some c => mret c
  | None => key_not_found card_id
  end.

(** [Image.query.get_or_404(image_id)] *)
Definition Image_query_get_or_404 (image_id : Z) : M Image.t :=
  w ← get_world;
  match find_image image_id (images (txn w)) with
  | Some i => mret i
  | None => key_not_found image_id
  end.

(** [card.images]: the rows whose [card_id] is the card's key. *)
Definition Card_images (c : Card.t) : M (list Image.t) :=
  w ← get_world;
  mret (filter (λ i, Image.card_id i = Card.id c) (images (txn w))).

(** ** The file store *)

(** [os.path.exists(os.path.join(UPLOAD_FOLDER, name))]; the empty name
    joins to the upload directory itself, which exists. *)
Definition path_exists (dir : gset string) (name : string) : bool :=
  bool_decide (name = "") || bool_decide (name ∈ dir).

(** [file.save(os.path.join(UPLOAD_FOLDER, name))] *)
Definition file_save (file : FileStorage) (name : string) : M unit :=
  match save_error file with
  | Some e => raise OSError e
  | None => modify (λ w, set_uploads ({[name]} ∪ uploads w) w)
  end.

(** [os.remove(os.path.join(UPLOAD_FOLDER, name))] *)
Definition os_remove (name : string) : M unit :=
  w ← get_world;
  if bool_decide (name ∈ uploads w)
  then modify (λ w, set_uploads (uploads w ∖ {[name]}) w)
  else raise OSError "No such file or directory".

(** The [while os.path.exists(filepath)] loop of [save_file].  The upload
    directory does not change while it runs. *)
Fixpoint save_file_loop (fuel : nat) (dir : gset string)
    (original_filename : string) (counter : nat) (filename : string)
  : option string :=
  if path_exists dir filename then
    match fuel with
    | O => None
    | S fuel' =>
        let '(name, ext) := Py.splitext original_filename in
        let filename := name +:+ "_" +:+ Py.str_nat counter +:+ ext in
        save_file_loop fuel' dir original_filename (S counter) filename
    end
  else Some filename.

(** ** Requests and responses *)

Record request := Request {
  form : gmap string string;                (* request.form *)
  files : gmap string (list FileStorage)    (* request.files *)
}.

Definition form_get (req : request) (key : string) : option string := form req !! key.
Definition files_getlist (req : request) (key : string) : list FileStorage :=
  default [] (files req !! key).

Inductive response :=
| Redirect (endpoint : string)         (* redirect(url_for(endpoint)) *)
| RenderTemplate (template : string)
| Abort (status : Z).

(** Truth value of a form field: present and not empty. *)
Definition truthy (o : option string) : bool :=
  match o with Some s => negb (String.eqb s "") | None => false end.

(** The double quote that the f-strings of the routes put around names. *)
Definition dq : string := String (ascii_of_nat 34) EmptyString.

Definition permission_denied : string * string :=
  ("You do not have permission to do that.", "error").

Section Gallery.

(** [werkzeug.utils.secure_filename], which the application imports. *)
Variable secure_filename : string → string.

(** How the storage engine reads the text of a form field as an integer
    key when [upload_image] looks a card up by it. *)
Variable key_of_text : string → option Z.

(** *** Helper: save a file under a unique name *)

Definition save_file (file : FileStorage) : M string :=
  w ← get_world;
  let filename := secure_filename (filename file) in
  match save_file_loop (S (size (uploads w))) (uploads w) filename 1 filename with
  | None => λ w, (OutOfFuel, w)
  | Some filename => file_save file filename;; mret filename
  end.

(** *** Gallery routes *)

Definition gallery_login (post : bool) (req : request) : M response :=
  if post then
    let password := form_get req "password" in
    let access_level := password ≫= λ p, GALLERY_PASSWORDS !! p in
    if truthy access_level then
      modify (set_access access_level);;
      flash ("Logged in with " +:+ default "" access_level +:+ " access.") "success";;
      mret (Redirect "gallery")
    else
      flash "Incorrect password." "error";;
      mret (RenderTemplate "gallery_login.html")
  else mret (RenderTemplate "gallery_login.html").

Definition gallery : M response :=
  w ← get_world;
  if negb (truthy (gallery_access w)) then mret (Redirect "gallery_login")
  else mret (RenderTemplate "gallery.html").

Definition gallery_logout : M response :=
  modify (set_access None);; mret (Redirect "home").

(** [session.get('gallery_access') != 'admin'] *)
Definition not_admin (w : world) : bool :=
  bool_decide (gallery_access w ≠ Some "admin").

(** The first three lines of every admin-only route. *)
Definition admin_only (view : M response) : M response :=
  w ← get_world;
  if not_admin w then
    flash permission_denied.1 permission_denied.2;;
    mret (Redirect "gallery")
  else view.

Definition add_card (req : request) : M response :=
  admin_only (
    let card_name := form_get req "card_name" in
    let parent_id := form_get req "parent_id" in
    (if truthy card_name then
       let card_name := default "" card_name in
       parent_id ←
         (if truthy parent_id && negb (bool_decide (parent_id = Some "None"))
          then match PyInt.int (default "" parent_id) with
               | Some n => mret (Some n)
               | None => raise ValueError "invalid literal for int() with base 10"
               end
          else mret None);
       session_record (AddCard card_name parent_id);;
       session_commit;;
       flash ("Card " +:+ dq +:+ card_name +:+ dq +:+ " created.") "success"
     else mret tt);;
    mret (Redirect "gallery")).

Definition edit_card (card_id : Z) (req : request) : M response :=
  admin_only (
    card ← Card_query_get_or_404 card_id;
    let new_name := form_get req "card_name" in
    (if truthy new_name then
       let new_name := default "" new_name in
       session_record (SetCardName (Card.id card) new_name);;
       session_commit;;
       flash ("Card renamed to " +:+ dq +:+ new_name +:+ dq +:+ ".") "success"
     else
       flash "New name cannot be empty." "error");;
    mret (Redirect "gallery")).

(** The body of the loop of [upload_image]. *)
Definition upload_image_step (card : Card.t) (uploaded_count : nat)
    (file : FileStorage) : M nat :=
  if file_truthy file && negb (String.eqb (filename file) "")
     && allowed_file (filename file)
  then
    filename ← save_file file;
    session_record (AddImage filename (Some (Card.id card)));;
    mret (S uploaded_count)
  else
    (if file_truthy file && negb (String.eqb (filename file) "")
     then flash ("File " +:+ dq +:+ filename file +:+ dq +:+ " is not an allowed type.")
                "error"
     else mret tt);;
    mret uploaded_count.

Definition upload_image (req : request) : M response :=
  admin_only (
    let card_id := form_get req "card_id" in
    let files := files_getlist req "image" in
    card ← Card_query_get (card_id ≫= key_of_text);
    match card with
    | None =>
        flash "Card not found." "error";;
        mret (Redirect "gallery")
    | Some card =>
        uploaded_count ← for_each files 0%nat (upload_image_step card);
        (if Nat.ltb 0 uploaded_count then
           session_commit;;
           flash (Py.str_nat uploaded_count +:+ " image(s) uploaded successfully.")
                 "success"
         else
           flash "No valid files were selected or uploaded." "error");;
        mret (Redirect "gallery")
    end).

(** The name [upload_folder] gives the new card. *)
Definition folder_card_name (first_file_path : string) : string :=
  let path_parts := Py.split1 "/" first_file_path in
  if Nat.ltb 1 (length path_parts) then default "" (path_parts !! 0%nat)
  else "Uploaded Files".

(** The body of the loop of [upload_folder]. *)
Definition upload_folder_step (new_card_id : option Z) (uploaded_count : nat)
    (file : FileStorage) : M nat :=
  if file_truthy file && allowed_file (filename file) then
    filename ← save_file file;
    session_record (AddImage filename new_card_id);;
    mret (S uploaded_count)
  else mret uploaded_count.

(** The [try] block of [upload_folder]. *)
Definition upload_folder_try (files : list FileStorage) : M unit :=
  first_file ← (match files !! 0%nat with
                | Some f => mret f
                | None => raise IndexError "list index out of range"
                end);
  let first_file_path := filename first_file in
  let card_name := folder_card_name first_file_path in
  session_record (AddCard card_name None);;
  keys ← session_flush;
  let new_card_id := head keys in
  uploaded_count ← for_each files 0%nat (upload_folder_step new_card_id);
  session_commit;;
  flash ("Folder " +:+ dq +:+ card_name +:+ dq +:+ " created with "
         +:+ Py.str_nat uploaded_count +:+ " images.") "success".

(** The [except Exception as e] block of [upload_folder]. *)
Definition upload_folder_except (e : exn) : M unit :=
  session_rollback;;
  flash ("An error occurred during folder upload: " +:+ str_of e) "error".

Definition upload_folder (req : request) : M response :=
  admin_only (
    let files := files_getlist req "folder_files" in
    match files with
    | [] =>
        flash "No folder or files selected." "error";;
        mret (Redirect "gallery")
    | _ =>
        try_except (upload_folder_try files) except_Exception upload_folder_except;;
        mret (Redirect "gallery")
    end).

(** [try: os.remove(...)  except OSError: pass] *)
Definition remove_quietly (name : string) : M unit :=
  try_except (os_remove name) except_OSError (λ _, mret tt).

Definition delete_card (card_id : Z) : M response :=
  admin_only (
    card_to_delete ← Card_query_get_or_404 card_id;
    images ← Card_images card_to_delete;
    for_each images tt (λ _ image, remove_quietly (Image.filename image));;
    session_record (DeleteCard (Card.id card_to_delete));;
    session_commit;;
    flash ("Card " +:+ dq +:+ Card.name card_to_delete +:+ dq
           +:+ " and all its contents deleted.") "success";;
    mret (Redirect "gallery")).

Definition delete_image (image_id : Z) : M response :=
  admin_only (
    image_to_delete ← Image_query_get_or_404 image_id;
    remove_quietly (Image.filename image_to_delete);;
    session_record (DeleteImage (Image.id image_to_delete));;
    session_commit;;
    flash "Image deleted." "success";;
    mret (Redirect "gallery")).

(** *** Dispatch *)

Inductive route :=
| GalleryLogin (post : bool)
| Gallery
| GalleryLogout
| AddCardR
| EditCardR (card_id : Z)
| UploadImageR
| UploadFolderR
| DeleteCardR (card_id : Z)
| DeleteImageR (image_id : Z).

Definition view (r : route) (req : request) : M response :=
  match r with
  | GalleryLogin post => gallery_login post req
  | Gallery => gallery
  | GalleryLogout => gallery_logout
  | AddCardR => add_card req
  | EditCardR card_id => edit_card card_id req
  | UploadImageR => upload_image req
  | UploadFolderR => upload_folder req
  | DeleteCardR card_id => delete_card card_id
  | DeleteImageR image_id => delete_image image_id
  end.

(** The six routes under the "Admin-Only Routes" heading. *)
Definition admin_route (r : route) : bool :=
  match r with
  | AddCardR | EditCardR _ | UploadImageR | UploadFolderR
  | DeleteCardR _ | DeleteImageR _ => true
  | _ => false
  end.

(** At the end of a request the session is removed, which drops whatever
    was not committed. *)
Definition teardown (w : world) : world :=
  set_pending [] (set_txn (committed w) w).

(** One request: the view runs, an exception that escapes it becomes an
    error response, and the session is torn down.  [None] only if the
    loop of [save_file] ran out of fuel. *)
Definition handle (r : route) (req : request) (w : world)
  : option response * world :=
  match view r req w with
  | (Return resp, w') => (Some resp, teardown w')
  | (Raise e, w') =>
      (Some (Abort (match class_of e with HTTPNotFound => 404 | _ => 500 end)),
       teardown w')
  | (OutOfFuel, w') => (None, teardown w')
  end.

End Gallery.

(** ** [secure_filename] on ASCII names

    The routes above are parametric in the sanitiser.  For the worked
    examples below this is what [werkzeug.utils.secure_filename] computes on
    a POSIX host for a name made of ASCII characters: separators become
    blanks, blank-separated words are joined by underscores, characters
    other than letters, digits, underscore, dot and dash are dropped, and
    leading and trailing dots and underscores are stripped. *)
Module Werkzeug.

Definition safe_char (a : ascii) : bool :=
  let n := nat_of_ascii a in
  (Nat.leb 48 n && Nat.leb n 57 || Nat.leb 65 n && Nat.leb n 90
   || Nat.leb 97 n && Nat.leb n 122
   || Nat.eqb n 95 || Nat.eqb n 46 || Nat.eqb n 45)%bool.

(** ["_".join(filename.replace("/", " ").split())]: [started] says that a
    word has been emitted, [gap] that blanks followed it. *)
Fixpoint join_words (started gap : bool) (s : string) : string :=
  match s with
  | EmptyString => EmptyString
  | String a s' =>
      if (PyInt.is_space a || Ascii.eqb a "/")%bool then join_words started started s'
      else if gap then String "_" (String a (join_words true false s'))
           else String a (join_words true false s')
  end.

Fixpoint keep_safe (s : string) : string :=
  match s with
  | EmptyString => EmptyString
  | String a s' => if safe_char a then String a (keep_safe s') else keep_safe s'
  end.

Definition dot_or_underscore (a : ascii) : bool :=
  (Ascii.eqb a "." || Ascii.eqb a "_")%bool.

Fixpoint lstrip (s : string) : string :=
  match s with
  | String a s' => if dot_or_underscore a then lstrip s' else s
  | EmptyString => EmptyString
  end.

Fixpoint rstrip (s : string) : string :=
  match s with
  | String a s' =>
      match rstrip s' with
      | EmptyString => if dot_or_underscore a then EmptyString else String a EmptyString
      | r => String a r
      end
  | EmptyString => EmptyString
  end.

Definition secure_filename (filename : string) : string :=
  rstrip (lstrip (keep_safe (join_words false false filename))).

End Werkzeug.

(** * Worked inputs

    Concrete worlds and requests on which the statements below are
    instantiated. *)

Definition empty_db : database := Database [] [].

Definition admin_world : world :=
  World (Some "admin") empty_db empty_db [] ∅ [] no_faults.

Definition public_world : world :=
  World (Some "public") empty_db empty_db [] ∅ [] no_faults.

Definition anonymous_world : world :=
  World None empty_db empty_db [] ∅ [] no_faults.

(** A card with a nested card, an unrelated card, and one image on each. *)
Definition nested_db : database :=
  Database [Card.mk 1 "Trip" None; Card.mk 2 "Day 1" (Some 1); Card.mk 3 "Other" None]
           [Image.mk 1 "a.jpg" 1; Image.mk 2 "b.jpg" 2; Image.mk 3 "c.jpg" 3].

Definition nested_world : world :=
  World (Some "admin") nested_db nested_db []
        (list_to_set ["a.jpg"; "b.jpg"; "c.jpg"]) [] no_faults.

(** A card that is its own parent: what [add_card] leaves in an empty store
    when [parent_id] is the key the new card is about to get. *)
Definition self_parent_world : world :=
  World (Some "admin")
        (Database [Card.mk 1 "Album" (Some 1)] [])
        (Database [Card.mk 1 "Album" (Some 1)] []) [] ∅ [] no_faults.

(** A store in which an image row of a nested card names the same file as
    an image row of the card above it. *)
Definition shared_name_db : database :=
  Database [Card.mk 1 "Trip" None; Card.mk 2 "Day 1" (Some 1)]
           [Image.mk 1 "a.jpg" 1; Image.mk 2 "a.jpg" 2].

Definition shared_name_world : world :=
  World (Some "admin") shared_name_db shared_name_db [] {["a.jpg"]} [] no_faults.

(** [nested_world] with a storage engine whose next commit fails. *)
Definition nested_world_commit_fails : world :=
  set_engine (Faults None (Some "disk I/O error")) nested_world.

Definition upload (name : string) : FileStorage := Build_FileStorage name None.

Definition trip_a : FileStorage := upload "Trip/a.jpg".
Definition trip_b : FileStorage := upload "Trip/b.png".
Definition trip_b_unwritable : FileStorage :=
  Build_FileStorage "Trip/b.png" (Some "No space left on device").

(** The world in which the second write of the batch [trip_a],
    [trip_b_unwritable] fails: the card is flushed, the first file is on
    disk and its row is recorded. *)
Definition trip_interrupted : world :=
  World (Some "admin") empty_db (Database [Card.mk 1 "Trip" None] [])
        [AddImage "Trip_a.jpg" (Some 1)] {["Trip_a.jpg"]} [] no_faults.

Definition folder_request (batch : list FileStorage) : request :=
  Request ∅ {[ "folder_files" := batch ]}.

Definition image_request (card_id : string) (batch : list FileStorage) : request :=
  Request {[ "card_id" := card_id ]} {[ "image" := batch ]}.

Definition card_form (fields : list (string * string)) : request :=
  Request (list_to_map fields) ∅.

(** * Vocabulary of the statements *)

(** A world whose store and upload directory are those of [w] and that has
    flashed [msgs] more: what a request that mutates nothing leaves. *)
Definition only_flashed (msgs : list (string * string)) (w w' : world) : Prop :=
  gallery_access w' = gallery_access w ∧
  committed w' = committed w ∧
  txn w' = txn w ∧
  pending w' = pending w ∧
  uploads w' = uploads w ∧
  engine w' = engine w ∧
  flashed w' = (flashed w ++ msgs)%list.

(** A request starts with a fresh session: nothing recorded, and the open
    transaction sees the committed rows. *)
Definition clean (w : world) : Prop := pending w = [] ∧ txn w = committed w.

(** The [counter]-th name the loop of [save_file] tries after the
    sanitised name itself: the counter goes before the extension. *)
Definition candidate (original_filename : string) (counter : nat) : string :=
  let '(name, ext) := Py.splitext original_filename in
  name +:+ "_" +:+ Py.str_nat counter +:+ ext.

(** The name [save_file] settles on in upload directory [dir] for a file
    whose sanitised name is [original_filename]. *)
Definition unique_name (dir : gset string) (original_filename : string) : string :=
  default original_filename
    (save_file_loop (S (size dir)) dir original_filename 1 original_filename).

(** The names a batch gets when its files are saved one after the other. *)
Fixpoint stored_names (dir : gset string) (originals : list string) : list string :=
  match originals with
  | [] => []
  | s :: rest =>
      let n := unique_name dir s in
      n :: stored_names ({[n]} ∪ dir) rest
  end.

(** The files of a batch that the upload loops store: those whose name
    passes [allowed_file]. *)
Definition accepted (files : list FileStorage) : list FileStorage :=
  filter (λ f, allowed_file (filename f) = true) files.

(** The warnings of [upload_image]: one for each file that has a name and
    is not accepted, in the order of the batch. *)
Definition rejection_warnings (files : list FileStorage) : list (string * string) :=
  omap (λ f, if negb (String.eqb (filename f) "") && negb (allowed_file (filename f))
             then Some ("File " +:+ dq +:+ filename f +:+ dq
                        +:+ " is not an allowed type.", "error")
             else None) files.

(** The image table after inserting, one by one, a row for each name. *)
Fixpoint insert_images (rows : list Image.t) (names : list string) (card_id : Z)
  : list Image.t :=
  match names with
  | [] => rows
  | n :: ns =>
      insert_images (rows ++ [Image.mk (next_id (Image.id <$> rows)) n card_id])
                    ns card_id
  end.

(** What an upload loop has done between [w] and [w']: stored files under
    [names], recorded an image row of card [card_id] for each, and flashed
    [msgs]; nothing is committed yet. *)
Definition batch_stored (card_id : option Z) (names : list string)
    (msgs : list (string * string)) (w w' : world) : Prop :=
  gallery_access w' = gallery_access w ∧
  committed w' = committed w ∧
  txn w' = txn w ∧
  engine w' = engine w ∧
  pending w' = (pending w ++ ((λ n, AddImage n card_id) <$> names))%list ∧
  uploads w' = list_to_set names ∪ uploads w ∧
  flashed w' = (flashed w ++ msgs)%list.

(** Card [x] is a child of card [p] in the table [cs]. *)
Definition child_of (cs : list Card.t) (p x : Z) : Prop :=
  ∃ c, c ∈ cs ∧ Card.id c = x ∧ Card.parent_id c = Some p.

(** Card [x] is [root] or one of its descendants. *)
Definition in_subtree (cs : list Card.t) (root x : Z) : Prop :=
  rtc (child_of cs) root x.

(** Between [w] and [w'] the files [names] were removed from the upload
    directory, where present, and nothing else changed. *)
Definition only_removed (names : list string) (w w' : world) : Prop :=
  gallery_access w' = gallery_access w ∧
  committed w' = committed w ∧
  txn w' = txn w ∧
  pending w' = pending w ∧
  engine w' = engine w ∧
  flashed w' = flashed w ∧
  uploads w' = uploads w ∖ list_to_set names.

(** The file names of the image rows are pairwise distinct, and each names
    a file of the upload directory. *)
Definition files_consistent (w : world) : Prop :=
  NoDup (Image.filename <$> images (committed w)) ∧
  ∀ i, i ∈ images (committed w) → Image.filename i ∈ uploads w.

(** The two routes that remove files before they commit. *)
Definition deleting (r : route) : bool :=
  match r with
  | DeleteCardR _ | DeleteImageR _ => true
  | _ => false
  end.

(** The worlds the application gets into from an empty store by serving
    requests, whatever the engine and the disk do to each of them, as long
    as no request to [delete_card] or [delete_image] ends in a server
    error: both remove files before they commit, and take for granted that
    the commit goes through. *)
Inductive reachable (secure_filename : string → string)
    (key_of_text : string → option Z) : world → Prop :=
| reachable_start (dir : gset string) (access : option string) :
    reachable secure_filename key_of_text
      (World access empty_db empty_db [] dir [] no_faults)
| reachable_request (w : world) (r : route) (req : request) (e : faults) :
    reachable secure_filename key_of_text w →
    (deleting r = true →
     (handle secure_filename key_of_text r req (set_engine e w)).1
     ≠ Some (Abort 500)) →
    reachable secure_filename key_of_text
      (handle secure_filename key_of_text r req (set_engine e w)).2.

(** * The gallery page and the children of a card *)


(** [card.children]: the rows whose [parent_id] is the card's key. *)
Definition Card_children (d : database) (c : Card.t) : list Card.t :=
  filter (λ x, Card.parent_id x = Some (Card.id c)) (cards d).

(** * Properties *)

(** ** The primitives on examples *)

Example allowed_file_ex1 : allowed_file "a.JPG" = true.
Proof. vm_compute. reflexivity. Qed.
Example allowed_file_ex2 : allowed_file "a.tar.gz" = false.
Proof. vm_compute. reflexivity. Qed.
Example splitext_ex1 : Py.splitext "a.tar.gz" = ("a.tar", ".gz").
Proof. vm_compute. reflexivity. Qed.
Example splitext_ex2 : Py.splitext "..bashrc" = ("..bashrc", "").
Proof. vm_compute. reflexivity. Qed.
Example splitext_ex3 : Py.splitext "x.d/abc" = ("x.d/abc", "").
Proof. vm_compute. reflexivity. Qed.
Example splitext_ex4 : Py.splitext "x.d/.a.c" = ("x.d/.a", ".c").
Proof. vm_compute. reflexivity. Qed.
Example str_nat_ex : Py.str_nat 12 = "12".
Proof. vm_compute. reflexivity. Qed.
Example int_ex1 : PyInt.int " 1_000 " = Some 1000.
Proof. vm_compute. reflexivity. Qed.
Example int_ex2 : PyInt.int "-07" = Some (-7).
Proof. vm_compute. reflexivity. Qed.
Example int_ex3 : PyInt.int "none" = None.
Proof. vm_compute. reflexivity. Qed.
Example int_ex4 : PyInt.int "1__0" = None.
Proof. vm_compute. reflexivity. Qed.
Example int_ex5 : PyInt.int (String (ascii_of_nat 28) "7") = None.
Proof. vm_compute. reflexivity. Qed.
Example int_ex6 : PyInt.int (String (ascii_of_nat 9) "7") = Some 7.
Proof. vm_compute. reflexivity. Qed.
Example secure_filename_ex1 : Werkzeug.secure_filename "Trip/a.jpg" = "Trip_a.jpg".
Proof. vm_compute. reflexivity. Qed.
Example secure_filename_ex2 :
  Werkzeug.secure_filename "../../../etc/passwd" = "etc_passwd".
Proof. vm_compute. reflexivity. Qed.
Example secure_filename_ex3 :
  Werkzeug.secure_filename "My cool movie.mov" = "My_cool_movie.mov".
Proof. vm_compute. reflexivity. Qed.

(** ** Strings *)

Lemma app_cons (a : ascii) (s t : string) : String a s +:+ t = String a (s +:+ t).
Proof. reflexivity. Qed.

Lemma app_nil_l (t : string) : "" +:+ t = t.
Proof. reflexivity. Qed.

Lemma length_app (s t : string) :
  String.length (s +:+ t) = (String.length s + String.length t)%nat.
Proof. induction s as [|a s IH]; [done|]. rewrite app_cons. simpl. by rewrite IH. Qed.

Lemma app_inj_r (s1 s2 t : string) : s1 +:+ t = s2 +:+ t → s1 = s2.
Proof.
  revert s2. induction s1 as [|a s1 IH]; intros [|b s2] H.
  - done.
  - apply (f_equal String.length) in H.
    rewrite app_nil_l, app_cons in H. simpl in H. rewrite length_app in H. lia.
  - apply (f_equal String.length) in H.
    rewrite app_nil_l, app_cons in H. simpl in H. rewrite length_app in H. lia.
  - rewrite !app_cons in H. injection H as -> H. f_equal. by apply IH.
Qed.

Lemma app_not_nil (s : string) (a : ascii) (t : string) : s +:+ String a t ≠ "".
Proof. destruct s; [done|]. by rewrite app_cons. Qed.

Lemma take_drop (n : nat) (s : string) : Py.take n s +:+ Py.drop n s = s.
Proof.
  revert s. induction n as [|n IH]; intros [|a s]; simpl; try done.
  rewrite app_cons. by rewrite IH.
Qed.

(** [splitext] cuts its argument in two: the second part is the extension
    and the first is what stands before it. *)
Lemma splitext_app (p : string) : (Py.splitext p).1 +:+ (Py.splitext p).2 = p.
Proof.
  unfold Py.splitext.
  destruct (Py.rfind "/" p <? Py.rfind "." p); simpl.
  - destruct (Py.has_non_dot _); simpl.
    + apply take_drop.
    + clear. induction p as [|a p IH]; [done|]. rewrite app_cons. by rewrite IH.
  - clear. induction p as [|a p IH]; [done|]. rewrite app_cons. by rewrite IH.
Qed.

Lemma partition_none (c : ascii) (s : string) :
  Py.contains c s = false → Py.partition c s = None.
Proof.
  induction s as [|a s IH]; [done|]. simpl.
  destruct (Ascii.eqb a c); [done|]. intros H. by rewrite IH.
Qed.

Lemma partition_first (c : ascii) (a b : string) :
  Py.contains c a = false → Py.partition c (a +:+ String c b) = Some (a, b).
Proof.
  induction a as [|x a IH].
  - intros _. rewrite app_nil_l. simpl. by rewrite Ascii.eqb_refl.
  - rewrite app_cons. simpl. destruct (Ascii.eqb x c); [done|].
    intros H. by rewrite IH.
Qed.

Lemma rpartition_none (c : ascii) (s : string) :
  Py.rpartition c s = None ↔ Py.contains c s = false.
Proof.
  induction s as [|a s IH]; [done|]. simpl.
  destruct (Py.rpartition c s) as [[h t]|].
  - split; [done|]. destruct (Ascii.eqb a c); [done|].
    intros H. apply IH in H. done.
  - destruct (Ascii.eqb a c); [done|]. by rewrite <-IH.
Qed.

Lemma rpartition_some (c : ascii) (s h t : string) :
  Py.rpartition c s = Some (h, t) →
  s = h +:+ String c t ∧ Py.contains c t = false.
Proof.
  revert h. induction s as [|a s IH]; intros h; [done|]. simpl.
  destruct (Py.rpartition c s) as [[h' t']|] eqn:Hr.
  - intros [= <- <-]. destruct (IH h' eq_refl) as [-> Hno].
    by rewrite app_cons.
  - destruct (Ascii.eqb a c) eqn:Hac; [|done].
    intros [= <- <-]. apply Ascii.eqb_eq in Hac as ->.
    split; [done|]. by apply rpartition_none.
Qed.

Lemma rpartition_last (c : ascii) (h t : string) :
  Py.contains c t = false → Py.rpartition c (h +:+ String c t) = Some (h, t).
Proof.
  intros Hno. induction h as [|a h IH].
  - rewrite app_nil_l. simpl.
    apply rpartition_none in Hno. by rewrite Hno, Ascii.eqb_refl.
  - rewrite app_cons. simpl. by rewrite IH.
Qed.

(** ** [allowed_file] in terms of the extension *)

(** A name passes [allowed_file] exactly when it ends in a dot followed by
    an extension that has no further dot and that, in lower case, is one of
    the allowed ones. *)
Lemma allowed_file_extension (s : string) :
  allowed_file s = true ↔
  ∃ base ext, s = base +:+ "." +:+ ext ∧
              Py.contains "." ext = false ∧
              Py.lower ext ∈ ALLOWED_EXTENSIONS.
Proof.
  unfold allowed_file, Py.rsplit1. rewrite andb_true_iff, bool_decide_eq_true.
  split.
  - intros [Hdot Hext].
    destruct (Py.rpartition "." s) as [[h t]|] eqn:Hr.
    + apply rpartition_some in Hr as [-> Hno]. by exists h, t.
    + apply rpartition_none in Hr. congruence.
  - intros (base & ext & -> & Hno & Hext).
    change ("." +:+ ext) with (String "." ext).
    rewrite rpartition_last by done. split; [|done].
    destruct (Py.contains "." (base +:+ String "." ext)) eqn:Hc; [done|].
    apply rpartition_none in Hc. by rewrite rpartition_last in Hc.
Qed.

Lemma allowed_file_not_nil (s : string) : allowed_file s = true → s ≠ "".
Proof. intros H ->. vm_compute in H. discriminate. Qed.

Lemma folder_guard (f : FileStorage) :
  file_truthy f && allowed_file (filename f) = allowed_file (filename f).
Proof.
  unfold file_truthy. destruct (allowed_file (filename f)) eqn:Ha.
  - apply allowed_file_not_nil, String.eqb_neq in Ha. by rewrite Ha.
  - apply andb_false_r.
Qed.

Lemma image_guard (f : FileStorage) :
  file_truthy f && negb (String.eqb (filename f) "") && allowed_file (filename f)
  = allowed_file (filename f).
Proof.
  unfold file_truthy. rewrite andb_diag. apply folder_guard.
Qed.

Lemma image_warn_guard (f : FileStorage) :
  file_truthy f && negb (String.eqb (filename f) "")
  = negb (String.eqb (filename f) "").
Proof. unfold file_truthy. apply andb_diag. Qed.

(** ** The loop of [save_file] *)

Lemma candidate_eq (orig : string) (k : nat) :
  candidate orig k =
  (Py.splitext orig).1 +:+ "_" +:+ Py.str_nat k +:+ (Py.splitext orig).2.
Proof. unfold candidate. by destruct (Py.splitext orig). Qed.

Lemma candidate_not_nil (orig : string) (k : nat) : candidate orig k ≠ "".
Proof. rewrite candidate_eq. apply app_not_nil. Qed.

#[global] Instance candidate_inj (orig : string) : Inj (=) (=) (candidate orig).
Proof.
  intros j k H. rewrite !candidate_eq in H.
  apply (inj (String.app _)) in H.
  apply (inj (String.app _)) in H.
  apply app_inj_r in H. by apply (inj pretty) in H.
Qed.

Lemma candidate_ne_original (orig : string) (k : nat) : candidate orig k ≠ orig.
Proof.
  rewrite candidate_eq. intros H.
  pose proof (eq_trans H (eq_sym (splitext_app orig))) as Heq. clear H.
  apply (inj (String.app _)) in Heq. rename Heq into H.
  apply (f_equal String.length) in H.
  rewrite !length_app in H. simpl in H. lia.
Qed.

Lemma path_exists_true (dir : gset string) (name : string) :
  path_exists dir name = true ↔ name = "" ∨ name ∈ dir.
Proof.
  unfold path_exists. rewrite orb_true_iff, !bool_decide_eq_true. done.
Qed.

Lemma path_exists_false (dir : gset string) (name : string) :
  path_exists dir name = false ↔ name ≠ "" ∧ name ∉ dir.
Proof.
  unfold path_exists. rewrite orb_false_iff, !bool_decide_eq_false. done.
Qed.

Lemma save_file_loop_unfold (fuel : nat) (dir : gset string) (orig : string)
    (c : nat) (x : string) :
  save_file_loop fuel dir orig c x =
  if path_exists dir x then
    match fuel with
    | O => None
    | S fuel' => save_file_loop fuel' dir orig (S c) (candidate orig c)
    end
  else Some x.
Proof.
  destruct fuel; simpl; [done|].
  unfold candidate. by destruct (Py.splitext orig).
Qed.

(** If the loop gives up, every name it tried is taken. *)
Lemma save_file_loop_none (fuel : nat) (dir : gset string) (orig : string)
    (c : nat) (x : string) :
  save_file_loop fuel dir orig c x = None →
  path_exists dir x = true ∧
  ∀ j, (c ≤ j < c + fuel)%nat → candidate orig j ∈ dir.
Proof.
  revert c x. induction fuel as [|n IH]; intros c x;
    rewrite save_file_loop_unfold; destruct (path_exists dir x) eqn:Hx; try done.
  - intros _. split; [done|]. intros j ?. lia.
  - intros Hn. apply IH in Hn as [Hc Hrest]. split; [done|].
    intros j Hj. destruct (decide (j = c)) as [->|Hne].
    + apply path_exists_true in Hc as [Hc|Hc]; [|done].
      by apply candidate_not_nil in Hc.
    + apply Hrest. lia.
Qed.

(** The name the loop returns is free; it is the name it started from, or
    the first free candidate from [c] on. *)
Lemma save_file_loop_some (fuel : nat) (dir : gset string) (orig : string)
    (c : nat) (x name : string) :
  save_file_loop fuel dir orig c x = Some name →
  path_exists dir name = false ∧
  ((path_exists dir x = false ∧ name = x) ∨
   (path_exists dir x = true ∧
    ∃ k, (c ≤ k)%nat ∧ name = candidate orig k ∧
         ∀ j, (c ≤ j < k)%nat → candidate orig j ∈ dir)).
Proof.
  revert c x. induction fuel as [|n IH]; intros c x;
    rewrite save_file_loop_unfold; destruct (path_exists dir x) eqn:Hx; try done.
  - intros [= <-]. split; [done|]. by left.
  - intros Hs. apply IH in Hs as [Hfree Hs]. split; [done|]. right.
    split; [done|].
    destruct Hs as [[_ ->]|(Hc & k & Hk & -> & Hbelow)].
    + exists c. split; [lia|]. split; [done|]. intros j ?. lia.
    + exists k. split; [lia|]. split; [done|].
      intros j Hj. destruct (decide (j = c)) as [->|Hne].
      * apply path_exists_true in Hc as [Hc|Hc]; [|done].
        by apply candidate_not_nil in Hc.
      * apply Hbelow. lia.
  - intros [= <-]. split; [done|]. by left.
Qed.

(** The loop of [save_file] ends: with one more round than there are files
    in the directory it finds a free name. *)
Lemma save_file_loop_total (dir : gset string) (orig : string) :
  ∃ name, save_file_loop (S (size dir)) dir orig 1 orig = Some name.
Proof.
  destruct (save_file_loop (S (size dir)) dir orig 1 orig) as [name|] eqn:Hl;
    [by exists name|].
  exfalso. apply save_file_loop_none in Hl as [_ Hall].
  set (l := candidate orig <$> seq 1 (S (size dir))).
  assert (NoDup l) as Hnd.
  { apply (NoDup_fmap_2 _). apply NoDup_seq. }
  assert (list_to_set l ⊆ dir) as Hsub.
  { intros y Hy. apply elem_of_list_to_set in Hy.
    apply list_elem_of_fmap in Hy as (j & -> & Hj).
    apply elem_of_seq in Hj. apply Hall. lia. }
  apply subseteq_size in Hsub.
  rewrite size_list_to_set in Hsub by done.
  unfold l in Hsub. rewrite length_fmap, length_seq in Hsub. lia.
Qed.

Lemma unique_name_loop (dir : gset string) (orig : string) :
  save_file_loop (S (size dir)) dir orig 1 orig = Some (unique_name dir orig).
Proof.
  unfold unique_name. by destruct (save_file_loop_total dir orig) as [name ->].
Qed.

Lemma unique_name_free (dir : gset string) (orig : string) :
  unique_name dir orig ≠ "" ∧ unique_name dir orig ∉ dir.
Proof.
  pose proof (unique_name_loop dir orig) as H.
  apply save_file_loop_some in H as [H _]. by apply path_exists_false.
Qed.

Lemma stored_names_length (dir : gset string) (originals : list string) :
  length (stored_names dir originals) = length originals.
Proof.
  revert dir. induction originals as [|s rest IH]; intros dir; [done|].
  simpl. by rewrite IH.
Qed.

(** The names of a batch are new to the directory and pairwise distinct. *)
Lemma stored_names_fresh (dir : gset string) (originals : list string) :
  NoDup (stored_names dir originals) ∧
  ∀ n, n ∈ stored_names dir originals → n ∉ dir.
Proof.
  revert dir. induction originals as [|s rest IH]; intros dir; simpl.
  - split; [constructor|]. intros n Hn. by apply elem_of_nil in Hn.
  - destruct (IH ({[unique_name dir s]} ∪ dir)) as [Hnd Hfresh].
    destruct (unique_name_free dir s) as [_ Hfree].
    split.
    + constructor; [|done]. intros Hin. apply Hfresh in Hin. set_solver.
    + intros n Hn. apply elem_of_cons in Hn as [->|Hn]; [done|].
      apply Hfresh in Hn. set_solver.
Qed.

(** ** Inserting image rows *)

Lemma insert_images_app (rows : list Image.t) (names : list string) (cid : Z) :
  ∃ new, insert_images rows names cid = (rows ++ new)%list ∧
         (λ i, (Image.filename i, Image.card_id i)) <$> new = (λ n, (n, cid)) <$> names.
Proof.
  revert rows. induction names as [|n ns IH]; intros rows; simpl.
  - exists []. by rewrite app_nil_r.
  - destruct (IH (rows ++ [Image.mk (next_id (Image.id <$> rows)) n cid])%list)
      as (new & -> & Hnew).
    eexists (_ :: new). rewrite <-(assoc_L (++)). split; [done|].
    rewrite !fmap_cons. by f_equal.
Qed.

Lemma insert_images_filenames (rows : list Image.t) (names : list string) (cid : Z) :
  Image.filename <$> insert_images rows names cid
  = ((Image.filename <$> rows) ++ names)%list.
Proof.
  revert rows. induction names as [|n ns IH]; intros rows; simpl.
  - by rewrite app_nil_r.
  - rewrite IH, fmap_app. simpl. by rewrite <-(assoc_L (++)).
Qed.

Lemma apply_ops_add_images (d : database) (keys : list Z) (names : list string)
    (cid : Z) :
  ∃ ks, apply_ops d keys ((λ n, AddImage n (Some cid)) <$> names)
        = inr (Database (cards d) (insert_images (images d) names cid), ks).
Proof.
  revert d keys. induction names as [|n ns IH]; intros d keys; simpl.
  - exists keys. by destruct d.
  - apply IH.
Qed.

Lemma NoDup_fmap_inj_on {A B} (f : A → B) (l : list A) (x y : A) :
  NoDup (f <$> l) → x ∈ l → y ∈ l → f x = f y → x = y.
Proof.
  induction l as [|a l IH]; [by intros _ ?%elem_of_nil|].
  rewrite fmap_cons, NoDup_cons. intros [Ha Hnd] Hx Hy Hf.
  apply elem_of_cons in Hx as [->|Hx]; apply elem_of_cons in Hy as [->|Hy].
  - done.
  - exfalso. apply Ha. rewrite Hf. by apply list_elem_of_fmap_2.
  - exfalso. apply Ha. rewrite <-Hf. by apply list_elem_of_fmap_2.
  - by apply IH.
Qed.

(** ** The delete cascade *)

Lemma cascade_front_elem (cs : list Card.t) (seen : list Z) (c : Card.t) :
  c ∈ cascade_front cs seen ↔
  c ∈ cs ∧ (∃ p, p ∈ seen ∧ Card.parent_id c = Some p) ∧ Card.id c ∉ seen.
Proof.
  unfold cascade_front. rewrite list_elem_of_filter, list_elem_of_fmap.
  split.
  - intros [[(p & Hp & Hin) Hid] Hc]. split; [done|]. split; [|done]. by exists p.
  - intros (Hc & (p & Hin & Hp) & Hid). split; [|done]. split; [|done]. by exists p.
Qed.

Lemma cascade_unfold (fuel : nat) (cs : list Card.t) (seen : list Z) :
  cascade (S fuel) cs seen =
  match cascade_front cs seen with
  | [] => seen
  | new => cascade fuel cs (seen ++ (Card.id <$> new))
  end.
Proof. reflexivity. Qed.

Lemma cascade_grows (fuel : nat) (cs : list Card.t) (seen : list Z) (x : Z) :
  x ∈ seen → x ∈ cascade fuel cs seen.
Proof.
  revert seen. induction fuel as [|n IH]; intros seen Hx; [done|].
  rewrite cascade_unfold. destruct (cascade_front cs seen) as [|c new]; [done|].
  apply IH. apply elem_of_app. by left.
Qed.

(** Everything the cascade marks is in the subtree of the card it started
    from. *)
Lemma cascade_sound (fuel : nat) (cs : list Card.t) (seen : list Z) (root : Z) :
  (∀ y, y ∈ seen → in_subtree cs root y) →
  ∀ x, x ∈ cascade fuel cs seen → in_subtree cs root x.
Proof.
  revert seen. induction fuel as [|n IH]; intros seen Hseen x; [apply Hseen|].
  rewrite cascade_unfold.
  destruct (cascade_front cs seen) as [|c new] eqn:Hfront; [apply Hseen|].
  apply IH. intros y Hy. apply elem_of_app in Hy as [Hy|Hy]; [by apply Hseen|].
  apply list_elem_of_fmap in Hy as (c' & -> & Hc').
  rewrite <-Hfront in Hc'. apply cascade_front_elem in Hc' as (Hcs & (p & Hp & Hpar) & _).
  eapply rtc_r; [by apply Hseen|]. by exists c'.
Qed.

(** With as many rounds as there are unmarked rows, the cascade stops only
    when no child of a marked card is left unmarked. *)
Lemma cascade_saturated (fuel : nat) (cs : list Card.t) (seen : list Z) :
  (length (filter (λ c, Card.id c ∉ seen) cs) ≤ fuel)%nat →
  cascade_front cs (cascade fuel cs seen) = [].
Proof.
  revert seen. induction fuel as [|n IH]; intros seen Hlen.
  - simpl. destruct (cascade_front cs seen) as [|c new] eqn:Hfront; [done|].
    assert (c ∈ cascade_front cs seen) as Hc by (rewrite Hfront; by left).
    apply cascade_front_elem in Hc as (Hcs & _ & Hid).
    assert (c ∈ filter (λ c, Card.id c ∉ seen) cs) as Hin
      by (by apply list_elem_of_filter).
    destruct (filter (λ c, Card.id c ∉ seen) cs); [by apply elem_of_nil in Hin|].
    simpl in Hlen. lia.
  - rewrite cascade_unfold.
    destruct (cascade_front cs seen) as [|c new] eqn:Hfront; [done|].
    apply IH.
    assert (c ∈ cascade_front cs seen) as Hc by (rewrite Hfront; by left).
    apply cascade_front_elem in Hc as (Hcs & _ & Hid).
    set (seen' := (seen ++ (Card.id <$> c :: new))%list).
    assert (filter (λ c, Card.id c ∉ seen') cs
            = filter (λ c, Card.id c ∉ seen') (filter (λ c, Card.id c ∉ seen) cs)) as ->.
    { symmetry. apply list_filter_filter_l. intros y Hy Hin. apply Hy.
      apply elem_of_app. by left. }
    assert (length (filter (λ c, Card.id c ∉ seen')
                      (filter (λ c, Card.id c ∉ seen) cs))
            < length (filter (λ c, Card.id c ∉ seen) cs))%nat; [|lia].
    apply (length_filter_lt _ _ c).
    + by apply list_elem_of_filter.
    + intros Hn. apply Hn. apply elem_of_app. right. rewrite fmap_cons. by left.
Qed.

(** The cards a delete takes with it are exactly the card and its
    descendants. *)
Lemma doomed_subtree (cs : list Card.t) (root x : Z) :
  x ∈ doomed cs root ↔ in_subtree cs root x.
Proof.
  unfold doomed. split.
  - apply cascade_sound. intros y Hy. apply list_elem_of_singleton in Hy as ->.
    apply rtc_refl.
  - unfold in_subtree. revert x.
    apply (rtc_ind_r (λ z, z ∈ cascade (length cs) cs [root]) root).
    + apply cascade_grows. by apply list_elem_of_singleton.
    + intros y z Hy [c (Hc & Hid & Hpar)] IH.
      destruct (decide (z ∈ cascade (length cs) cs [root])) as [|Hz]; [done|].
      exfalso.
      assert (c ∈ cascade_front cs (cascade (length cs) cs [root])) as Hin.
      { apply cascade_front_elem. split; [done|]. split; [by exists y|].
        by rewrite Hid. }
      rewrite cascade_saturated in Hin; [by apply elem_of_nil in Hin|].
      apply length_filter.
Qed.

(** A card is its own ancestor when its parent is in its own subtree. *)
Lemma own_ancestor_false (cs : list Card.t) (card_id : Z) (c : Card.t) :
  find_card card_id cs = Some c →
  (∀ p, Card.parent_id c = Some p → ¬ in_subtree cs card_id p) →
  own_ancestor cs card_id = false.
Proof.
  intros Hc Hfree. unfold own_ancestor. rewrite Hc. simpl.
  destruct (Card.parent_id c) as [p|] eqn:Hp; [|done].
  apply bool_decide_eq_false. intros Hin. apply (Hfree p eq_refl).
  by apply doomed_subtree.
Qed.

Lemma own_ancestor_true (cs : list Card.t) (card_id p : Z) (c : Card.t) :
  find_card card_id cs = Some c →
  Card.parent_id c = Some p →
  in_subtree cs card_id p →
  own_ancestor cs card_id = true.
Proof.
  intros Hc Hp Hsub. unfold own_ancestor. rewrite Hc. simpl. rewrite Hp.
  apply bool_decide_eq_true. by apply doomed_subtree.
Qed.

Lemma apply_op_delete_card (d : database) (card_id : Z) :
  own_ancestor (cards d) card_id = false →
  apply_op d (DeleteCard card_id)
  = inr (Database
           (filter (λ c, Card.id c ∉ doomed (cards d) card_id) (cards d))
           (filter (λ i, Image.card_id i ∉ doomed (cards d) card_id) (images d)),
         []).
Proof. intros H. unfold apply_op, delete_card_rows. by rewrite H. Qed.

Lemma apply_op_delete_card_cycle (d : database) (card_id : Z) :
  own_ancestor (cards d) card_id = true →
  apply_op d (DeleteCard card_id)
  = inl (Exn CircularDependencyError "Circular dependency detected.").
Proof. intros H. unfold apply_op, delete_card_rows. by rewrite H. Qed.

(** ** What a batch and a delete leave behind *)

Lemma batch_stored_refl (cid : option Z) (w : world) : batch_stored cid [] [] w w.
Proof.
  unfold batch_stored. rewrite !app_nil_r. repeat split; try done.
  simpl. set_solver.
Qed.

Lemma batch_stored_trans (cid : option Z) (ns1 ns2 : list string)
    (m1 m2 : list (string * string)) (w w1 w2 : world) :
  batch_stored cid ns1 m1 w w1 →
  batch_stored cid ns2 m2 w1 w2 →
  batch_stored cid (ns1 ++ ns2) (m1 ++ m2) w w2.
Proof.
  intros (Ha1 & Hc1 & Ht1 & He1 & Hp1 & Hu1 & Hf1) (Ha2 & Hc2 & Ht2 & He2 & Hp2 & Hu2 & Hf2).
  unfold batch_stored.
  rewrite Ha2, Hc2, Ht2, He2, Hp2, Hu2, Hf2, Hp1, Hu1, Hf1.
  rewrite fmap_app, <-!(assoc_L (++)).
  repeat split; try done.
  rewrite list_to_set_app_L. set_solver.
Qed.

Lemma rejection_warnings_cons (f : FileStorage) (files : list FileStorage) :
  rejection_warnings (f :: files) =
  ((if negb (String.eqb (filename f) "") && negb (allowed_file (filename f))
    then [("File " +:+ dq +:+ filename f +:+ dq +:+ " is not an allowed type.", "error")]
    else []) ++ rejection_warnings files)%list.
Proof.
  unfold rejection_warnings. simpl.
  by destruct (negb (String.eqb (filename f) "") && negb (allowed_file (filename f))).
Qed.

Lemma only_removed_refl (w : world) : only_removed [] w w.
Proof. unfold only_removed. repeat split; try done. simpl. set_solver. Qed.

Lemma only_removed_trans (n1 n2 : list string) (w w1 w2 : world) :
  only_removed n1 w w1 → only_removed n2 w1 w2 → only_removed (n1 ++ n2) w w2.
Proof.
  intros (Ha1 & Hc1 & Ht1 & Hp1 & He1 & Hf1 & Hu1) (Ha2 & Hc2 & Ht2 & Hp2 & He2 & Hf2 & Hu2).
  unfold only_removed.
  rewrite Ha2, Hc2, Ht2, Hp2, He2, Hf2, Hu2, Ha1, Hc1, Ht1, Hp1, He1, Hf1, Hu1.
  repeat split; try done.
  rewrite list_to_set_app_L. set_solver.
Qed.

Lemma files_consistent_same (w w' : world) :
  images (committed w') = images (committed w) →
  uploads w ⊆ uploads w' →
  files_consistent w → files_consistent w'.
Proof.
  intros Hi Hu [Hnd Hin]. unfold files_consistent. rewrite Hi.
  split; [done|]. intros i Hi'. apply Hu. by apply Hin.
Qed.

(** Rows inserted for files that [save_file] has just named keep the file
    names distinct. *)
Lemma files_consistent_stored (w w' : world) (originals : list string) (cid : Z) :
  files_consistent w →
  images (committed w')
    = insert_images (images (committed w)) (stored_names (uploads w) originals) cid →
  uploads w' = list_to_set (stored_names (uploads w) originals) ∪ uploads w →
  files_consistent w'.
Proof.
  intros [Hnd Hin] Hi Hu.
  destruct (stored_names_fresh (uploads w) originals) as [Hnames Hfresh].
  unfold files_consistent. rewrite Hi, Hu, insert_images_filenames.
  split.
  - apply NoDup_app. split; [done|]. split; [|done].
    intros n Hn Hn'. apply list_elem_of_fmap in Hn as (i & -> & Hi').
    apply Hfresh in Hn'. by apply Hn', Hin.
  - intros i Hi'.
    assert (Image.filename i ∈ Image.filename
              <$> insert_images (images (committed w))
                    (stored_names (uploads w) originals) cid) as Hf
      by (by apply list_elem_of_fmap_2).
    rewrite insert_images_filenames in Hf.
    apply elem_of_app in Hf as [Hf|Hf].
    + apply list_elem_of_fmap in Hf as (j & -> & Hj). apply elem_of_union. right.
      by apply Hin.
    + apply elem_of_union. left. by apply elem_of_list_to_set.
Qed.

(** Rows may go together with their files: as long as every removed file
    belongs to a removed row, the remaining rows keep theirs. *)
Lemma files_consistent_removed (keep : Image.t → Prop) `{!∀ i, Decision (keep i)}
    (gone : list Image.t) (w w' : world) :
  files_consistent w →
  images (committed w') = filter keep (images (committed w)) →
  uploads w' = uploads w ∖ list_to_set (Image.filename <$> gone) →
  (∀ i, i ∈ gone → i ∈ images (committed w) ∧ ¬ keep i) →
  files_consistent w'.
Proof.
  intros [Hnd Hin] Hi Hu Hgone. unfold files_consistent. rewrite Hi, Hu.
  split.
  - eapply sublist_NoDup; [exact Hnd|]. apply fmap_sublist, sublist_filter.
  - intros i Hi'. apply list_elem_of_filter in Hi' as [Hkeep Hi'].
    apply elem_of_difference. split; [by apply Hin|].
    intros Hf. apply elem_of_list_to_set, list_elem_of_fmap in Hf as (j & Hname & Hj).
    destruct (Hgone j Hj) as [Hj' Hnk].
    assert (i = j) as -> by (eapply NoDup_fmap_inj_on; eauto).
    done.
Qed.

(** ** Running route code *)

Lemma for_each_cons {A B} (x : A) (xs : list A) (acc : B) (body : B → A → M B)
    (w : world) :
  for_each (x :: xs) acc body w = (body acc x ≫= λ acc', for_each xs acc' body) w.
Proof. reflexivity. Qed.

Lemma run_bind {A B} (m : M A) (f : A → M B) (w : world) :
  (m ≫= f) w =
  match m w with
  | (Return a, w') => f a w'
  | (Raise e, w') => (Raise e, w')
  | (OutOfFuel, w') => (OutOfFuel, w')
  end.
Proof. reflexivity. Qed.

Lemma run_bind_return {A B} (m : M A) (f : A → M B) (w w' : world) (a : A) :
  m w = (Return a, w') → (m ≫= f) w = f a w'.
Proof. intros H. rewrite run_bind, H. reflexivity. Qed.

Lemma run_bind_raise {A B} (m : M A) (f : A → M B) (w w' : world) (e : exn) :
  m w = (Raise e, w') → (m ≫= f) w = (Raise e, w').
Proof. intros H. rewrite run_bind, H. reflexivity. Qed.

Lemma run_ret {A} (a : A) (w : world) : (mret a : M A) w = (Return a, w).
Proof. reflexivity. Qed.

Lemma run_flash (message category : string) (w : world) :
  flash message category w =
  (Return tt, set_flashed (flashed w ++ [(message, category)]) w).
Proof. reflexivity. Qed.

Section GalleryProperties.

Variable secure_filename : string → string.
Variable key_of_text : string → option Z.

Set Default Proof Using "Type".

Lemma admin_only_denied (v : M response) (w : world) :
  gallery_access w ≠ Some "admin" →
  admin_only v w =
  (Return (Redirect "gallery"),
   set_flashed (flashed w ++ [permission_denied]) w).
Proof.
  intros Hna. unfold admin_only.
  rewrite run_bind. simpl.
  unfold not_admin. rewrite bool_decide_eq_true_2 by done.
  reflexivity.
Qed.

Lemma admin_only_granted (v : M response) (w : world) :
  gallery_access w = Some "admin" → admin_only v w = v w.
Proof.
  intros Ha. unfold admin_only.
  rewrite run_bind. simpl.
  unfold not_admin. rewrite bool_decide_eq_false_2; [done|].
  intros Hn. by apply Hn.
Qed.

(** C1.  Each of the six admin-only routes ([add_card], [edit_card],
    [upload_image], [upload_folder], [delete_card], [delete_image]), run in
    a session whose stored access level is anything but ["admin"] (so for
    ["public"] and for no level at all), answers a redirect to the gallery,
    flashes the permission error, and leaves the store, the open
    transaction, the unit of work and the upload directory as they were. *)
Theorem admin_routes_reject_other_levels (r : route) (req : request) (w : world) :
  admin_route r = true →
  gallery_access w ≠ Some "admin" →
  ∃ w', view secure_filename key_of_text r req w = (Return (Redirect "gallery"), w') ∧
        only_flashed [("You do not have permission to do that.", "error")] w w' ∧
        handle secure_filename key_of_text r req w
          = (Some (Redirect "gallery"), teardown w') ∧
        committed (teardown w') = committed w ∧
        uploads (teardown w') = uploads w.
Proof.
  intros Hr Hna.
  exists (set_flashed (flashed w ++ [permission_denied]) w).
  assert (view secure_filename key_of_text r req w =
          (Return (Redirect "gallery"),
           set_flashed (flashed w ++ [permission_denied]) w)) as Hv.
  { destruct r; try discriminate Hr; simpl;
      [unfold add_card|unfold edit_card|unfold upload_image
      |unfold upload_folder|unfold delete_card|unfold delete_image];
      by apply admin_only_denied. }
  split; [exact Hv|].
  split; [by repeat split|].
  split; [|done].
  unfold handle. rewrite Hv. reflexivity.
Qed.

Lemma teardown_clean (w : world) : clean (teardown w).
Proof. by split. Qed.

Lemma truthy_false (o : option string) :
  truthy o = false ↔ o = None ∨ o = Some "".
Proof.
  destruct o as [s|]; simpl.
  - rewrite negb_false_iff, String.eqb_eq. split.
    + intros ->. by right.
    + intros [?|[= ->]]; done.
  - split; [by left|done].
Qed.

Lemma truthy_true (o : option string) :
  truthy o = true ↔ ∃ s, o = Some s ∧ s ≠ "".
Proof.
  destruct o as [s|]; simpl.
  - rewrite negb_true_iff, String.eqb_neq. split.
    + intros ?. by exists s.
    + by intros (s' & [= ->] & ?).
  - split; [done|]. by intros (s' & ? & _).
Qed.

Lemma rename_card_id (id : Z) (name : string) (c : Card.t) :
  Card.id (rename_card id name c) = Card.id c.
Proof. unfold rename_card. by destruct (decide _). Qed.

Lemma find_card_id (id : Z) (cs : list Card.t) (c : Card.t) :
  find_card id cs = Some c → Card.id c = id ∧ c ∈ cs.
Proof.
  unfold find_card. intros H. apply find_some in H as [Hin Hc].
  split; [by apply bool_decide_eq_true in Hc|by apply list_elem_of_In].
Qed.

Lemma find_card_rename (id : Z) (name : string) (cs : list Card.t) (c : Card.t) :
  find_card id cs = Some c →
  find_card id (rename_card id name <$> cs)
    = Some (Card.mk id name (Card.parent_id c)).
Proof.
  unfold find_card. induction cs as [|x xs IH]; [done|].
  simpl. rewrite rename_card_id.
  destruct (decide (Card.id x = id)) as [Hx|Hx].
  - rewrite !bool_decide_eq_true_2 by done. intros [= ->].
    unfold rename_card. rewrite decide_True by done. by rewrite Hx.
  - rewrite !bool_decide_eq_false_2 by done. apply IH.
Qed.

Lemma run_session_record (op : pending_op) (w : world) :
  session_record op w = (Return tt, set_pending (pending w ++ [op]) w).
Proof. reflexivity. Qed.

(** A commit that the engine lets through writes the unit of work and
    makes the transaction's rows the committed ones. *)
Lemma run_commit_ok (w : world) (d : database) (ks : list Z) :
  commit_error (engine w) = None →
  apply_ops (txn w) [] (pending w) = inr (d, ks) →
  session_commit w =
  (Return tt, set_committed d (set_pending [] (set_txn d w))).
Proof.
  intros Hc Hops.
  unfold session_commit, modify, get_world, write_pending.
  rewrite !run_bind. simpl. rewrite Hc, Hops. reflexivity.
Qed.

Lemma run_commit_fault (w : world) (e : string) :
  commit_error (engine w) = Some e →
  session_commit w = (Raise (Exn StorageError e), w).
Proof.
  intros Hc. unfold session_commit, get_world, write_pending.
  rewrite !run_bind. simpl. rewrite Hc. reflexivity.
Qed.

Lemma run_commit_raise (w : world) (e : exn) :
  commit_error (engine w) = None →
  apply_ops (txn w) [] (pending w) = inl e →
  session_commit w = (Raise e, w).
Proof.
  intros Hc Hops. unfold session_commit, get_world, write_pending.
  rewrite !run_bind. simpl. rewrite Hc, Hops. reflexivity.
Qed.

Lemma run_flush_fault (w : world) (e : string) :
  flush_error (engine w) = Some e →
  session_flush w = (Raise (Exn StorageError e), w).
Proof.
  intros Hc. unfold session_flush, get_world, write_pending.
  rewrite !run_bind. simpl. rewrite Hc. reflexivity.
Qed.

Lemma run_flush_ok (w : world) (d : database) (ks : list Z) :
  flush_error (engine w) = None →
  apply_ops (txn w) [] (pending w) = inr (d, ks) →
  session_flush w = (Return ks, set_pending [] (set_txn d w)).
Proof.
  intros Hc Hops. unfold session_flush, get_world, write_pending.
  rewrite !run_bind. simpl. rewrite Hc, Hops. reflexivity.
Qed.

(** C9.  [add_card] run by an admin with a missing or empty [card_name]
    changes nothing, flashes nothing, and redirects to the gallery; on the
    same form [edit_card] of an existing card flashes its validation
    error. *)
Theorem add_card_empty_name_silent (req : request) (w : world) :
  gallery_access w = Some "admin" →
  form_get req "card_name" = None ∨ form_get req "card_name" = Some "" →
  add_card req w = (Return (Redirect "gallery"), w) ∧
  handle secure_filename key_of_text AddCardR req w
    = (Some (Redirect "gallery"), teardown w) ∧
  flashed (teardown w) = flashed w ∧
  committed (teardown w) = committed w ∧
  uploads (teardown w) = uploads w ∧
  ∀ card_id c,
    find_card card_id (cards (txn w)) = Some c →
    edit_card card_id req w =
    (Return (Redirect "gallery"),
     set_flashed (flashed w ++ [("New name cannot be empty.", "error")]) w).
Proof.
  intros Ha Hname. apply truthy_false in Hname.
  assert (add_card req w = (Return (Redirect "gallery"), w)) as Hadd.
  { unfold add_card. rewrite admin_only_granted by done.
    rewrite run_bind. rewrite Hname. reflexivity. }
  split; [done|]. split.
  { unfold handle; simpl. by rewrite Hadd. }
  do 3 (split; [done|]).
  intros card_id c Hc. unfold edit_card.
  rewrite admin_only_granted by done.
  unfold Card_query_get_or_404, get_world. rewrite !run_bind. simpl.
  rewrite Hc. simpl. rewrite !run_bind. rewrite Hname. reflexivity.
Qed.

(** C8.  [edit_card] of an existing card, run by an admin: with a missing
    or empty new name every row keeps its name and the validation error is
    flashed; with a non-empty new name, when the commit goes through, the
    row of that card is renamed where it stands (same key, same parent, all
    other rows untouched) and the change is committed. *)
Theorem edit_card_renames_or_rejects (card_id : Z) (c : Card.t) (req : request) (w : world) :
  gallery_access w = Some "admin" →
  clean w →
  find_card card_id (cards (committed w)) = Some c →
  (form_get req "card_name" = None ∨ form_get req "card_name" = Some "" →
   edit_card card_id req w =
   (Return (Redirect "gallery"),
    set_flashed (flashed w ++ [("New name cannot be empty.", "error")]) w)) ∧
  (∀ new_name,
     form_get req "card_name" = Some new_name → new_name ≠ "" →
     commit_error (engine w) = None →
     ∃ w', edit_card card_id req w = (Return (Redirect "gallery"), w') ∧
           cards (committed w') = rename_card card_id new_name <$> cards (committed w) ∧
           images (committed w') = images (committed w) ∧
           find_card card_id (cards (committed w'))
             = Some (Card.mk card_id new_name (Card.parent_id c)) ∧
           uploads w' = uploads w ∧
           flashed w' = (flashed w ++
             [("Card renamed to " +:+ dq +:+ new_name +:+ dq +:+ ".", "success")])%list).
Proof.
  intros Ha Hclean Hc.
  assert (find_card card_id (cards (txn w)) = Some c) as Hc'.
  { destruct Hclean as [_ ->]. done. }
  assert (Card.id c = card_id) as Hid by (by apply find_card_id in Hc as [? _]).
  split.
  - intros Hname. apply truthy_false in Hname.
    unfold edit_card. rewrite admin_only_granted by done.
    unfold Card_query_get_or_404, get_world. rewrite !run_bind. simpl.
    rewrite Hc'. simpl. rewrite !run_bind. rewrite Hname. reflexivity.
  - intros new_name Hname Hne Hcommit.
    assert (truthy (form_get req "card_name") = true) as Ht.
    { apply truthy_true. eauto. }
    unfold edit_card. rewrite admin_only_granted by done.
    unfold Card_query_get_or_404, get_world. rewrite !run_bind. simpl.
    rewrite Hc'. simpl. rewrite !run_bind. rewrite Ht, Hname. simpl.
    destruct Hclean as [Hp Ht'].
    rewrite run_bind, run_session_record; cbv beta iota.
    rewrite run_bind.
    erewrite run_commit_ok; [|done|simpl; rewrite Hp; reflexivity].
    cbv beta iota. rewrite run_flash. simpl. rewrite Ht'.
    eexists. split; [reflexivity|]. simpl.
    rewrite Hid. repeat split; try done.
    by apply find_card_rename.
Qed.

(** *** [save_file] *)

Lemma run_save_file_ok (file : FileStorage) (w : world) :
  save_error file = None →
  save_file secure_filename file w =
  (Return (unique_name (uploads w) (secure_filename (filename file))),
   set_uploads ({[unique_name (uploads w) (secure_filename (filename file))]}
                ∪ uploads w) w).
Proof.
  intros Hs. unfold save_file, get_world. rewrite run_bind. cbv beta iota.
  rewrite unique_name_loop. unfold file_save. rewrite Hs. reflexivity.
Qed.

Lemma run_save_file_fail (file : FileStorage) (w : world) (e : string) :
  save_error file = Some e →
  save_file secure_filename file w = (Raise (Exn OSError e), w).
Proof.
  intros Hs. unfold save_file, get_world. rewrite run_bind. cbv beta iota.
  rewrite unique_name_loop. unfold file_save. rewrite Hs. reflexivity.
Qed.

(** C5.  [save_file] sanitises the name of the upload and, when writing
    succeeds, stores the file under a name that no file of the upload
    directory had: the sanitised name itself when that is free, otherwise
    the sanitised name with [_k] put before its extension, for the least
    [k >= 1] that gives a free name.  A second file with the same sanitised
    name saved right after gets a different name, and these are [name.ext]
    and [name_1.ext] when both were free. *)
Theorem save_file_returns_free_name (file : FileStorage) (w : world) :
  save_error file = None →
  let original := secure_filename (filename file) in
  ∃ name,
    save_file secure_filename file w
      = (Return name, set_uploads ({[name]} ∪ uploads w) w) ∧
    (name ∉ uploads w) ∧
    (path_exists (uploads w) original = false → name = original) ∧
    (path_exists (uploads w) original = true →
     ∃ k, (1 ≤ k)%nat ∧
          name = (Py.splitext original).1 +:+ "_" +:+ Py.str_nat k
                   +:+ (Py.splitext original).2 ∧
          (Py.splitext original).1 +:+ (Py.splitext original).2 = original ∧
          ∀ j, (1 ≤ j < k)%nat → candidate original j ∈ uploads w) ∧
    (∀ file2,
       save_error file2 = None →
       secure_filename (filename file2) = original →
       ∃ name2,
         save_file secure_filename file2 (set_uploads ({[name]} ∪ uploads w) w)
           = (Return name2, set_uploads ({[name2]} ∪ ({[name]} ∪ uploads w)) w) ∧
         name2 ≠ name ∧
         (path_exists (uploads w) original = false →
          candidate original 1 ∉ uploads w →
          name = original ∧ name2 = candidate original 1)).
Proof.
  intros Hs original.
  exists (unique_name (uploads w) original).
  pose proof (unique_name_loop (uploads w) original) as Hloop.
  apply save_file_loop_some in Hloop as [Hfree Hcases].
  apply path_exists_false in Hfree as [Hne Hnotin].
  split; [by apply run_save_file_ok|].
  split; [done|].
  assert (path_exists (uploads w) original = false →
          unique_name (uploads w) original = original) as Hsame.
  { intros Hx. destruct Hcases as [[_ ?]|[Hy _]]; [done|congruence]. }
  split; [done|].
  split.
  { intros Hx. destruct Hcases as [[Hy _]|(_ & k & Hk & Hname & Hbelow)];
      [congruence|].
    exists k. split; [done|]. split; [by rewrite <-candidate_eq|].
    split; [apply splitext_app|done]. }
  intros file2 Hs2 Horig2.
  set (w1 := set_uploads ({[unique_name (uploads w) original]} ∪ uploads w) w).
  exists (unique_name (uploads w1) original).
  pose proof (unique_name_loop (uploads w1) original) as Hloop2.
  apply save_file_loop_some in Hloop2 as [Hfree2 Hcases2].
  apply path_exists_false in Hfree2 as [Hne2 Hnotin2].
  split.
  { rewrite run_save_file_ok by done. rewrite Horig2. reflexivity. }
  split.
  { intros Heq. apply Hnotin2. rewrite Heq. simpl. set_solver. }
  intros Hx Hc1. specialize (Hsame Hx). split; [done|].
  destruct Hcases2 as [[Hy _]|(_ & k & Hk & Hname & Hbelow)].
  { apply path_exists_false in Hy as [_ Hy]. exfalso. apply Hy.
    simpl. rewrite Hsame. set_solver. }
  destruct (decide (k = 1%nat)) as [->|Hk1]; [done|].
  exfalso. assert (candidate original 1 ∈ uploads w1) as Hin by (apply Hbelow; lia).
  simpl in Hin. rewrite Hsame in Hin.
  apply elem_of_union in Hin as [Hin|Hin]; [|done].
  apply elem_of_singleton in Hin. by apply candidate_ne_original in Hin.
Qed.

(** *** The upload loops *)

Lemma run_folder_step_stored (cid : option Z) (n : nat) (f : FileStorage) (w : world) :
  allowed_file (filename f) = true →
  save_error f = None →
  ∃ w', upload_folder_step secure_filename cid n f w = (Return (S n), w') ∧
        batch_stored cid [unique_name (uploads w) (secure_filename (filename f))] [] w w'.
Proof.
  clear key_of_text.
  intros Ha Hs. unfold upload_folder_step. rewrite folder_guard, Ha.
  rewrite run_bind, run_save_file_ok by done. cbv beta iota.
  rewrite run_bind, run_session_record. cbv beta iota.
  eexists. split; [reflexivity|].
  unfold batch_stored. simpl. rewrite app_nil_r. repeat split; try done.
  set_solver.
Qed.

Lemma run_folder_step_failed (cid : option Z) (n : nat) (f : FileStorage) (w : world)
    (e : string) :
  allowed_file (filename f) = true →
  save_error f = Some e →
  upload_folder_step secure_filename cid n f w = (Raise (Exn OSError e), w).
Proof.
  intros Ha Hs. unfold upload_folder_step. rewrite folder_guard, Ha.
  rewrite run_bind. erewrite run_save_file_fail by done. reflexivity.
Qed.

Lemma run_folder_step_skipped (cid : option Z) (n : nat) (f : FileStorage) (w : world) :
  allowed_file (filename f) = false →
  upload_folder_step secure_filename cid n f w = (Return n, w).
Proof.
  intros Ha. unfold upload_folder_step. rewrite folder_guard, Ha. reflexivity.
Qed.

(** However the loop of [upload_folder] ends, it has only stored files,
    each under the name [save_file] chose when its turn came, and recorded
    their image rows. *)
Lemma folder_loop_any (cid : option Z) (files : list FileStorage) (n : nat)
    (w w' : world) (r : outcome nat) :
  for_each files n (upload_folder_step secure_filename cid) w = (r, w') →
  r ≠ OutOfFuel ∧
  ∃ originals, batch_stored cid (stored_names (uploads w) originals) [] w w'.
Proof.
  clear key_of_text.
  revert n w. induction files as [|f files IH]; intros n w.
  - intros [= <- <-]. split; [done|]. exists []. apply batch_stored_refl.
  - rewrite for_each_cons, run_bind.
    destruct (allowed_file (filename f)) eqn:Ha.
    + destruct (save_error f) as [e|] eqn:Hs.
      * rewrite (run_folder_step_failed _ _ _ _ e) by done.
        intros [= <- <-]. split; [done|]. exists []. apply batch_stored_refl.
      * destruct (run_folder_step_stored cid n f w Ha Hs) as (w1 & -> & H1).
        intros Hrest. apply IH in Hrest as [Hr (originals & H2)].
        split; [done|]. exists (secure_filename (filename f) :: originals).
        assert (uploads w1 = {[unique_name (uploads w) (secure_filename (filename f))]}
                             ∪ uploads w) as Hu.
        { destruct H1 as (_ & _ & _ & _ & _ & Hu1 & _). simpl in Hu1. set_solver. }
        rewrite Hu in H2.
        apply (batch_stored_trans _ [_] _ [] [] w w1 w' H1 H2).
    + rewrite run_folder_step_skipped by done. apply IH.
Qed.

(** When no write fails, the loop of [upload_folder] stores every accepted
    file, in order, and counts them. *)
Lemma folder_loop_ok (cid : option Z) (files : list FileStorage) (n : nat) (w : world) :
  (∀ f, f ∈ accepted files → save_error f = None) →
  ∃ w',
    for_each files n (upload_folder_step secure_filename cid) w
      = (Return (n + length (accepted files))%nat, w') ∧
    batch_stored cid
      (stored_names (uploads w) ((λ f, secure_filename (filename f)) <$> accepted files))
      [] w w'.
Proof.
  clear key_of_text.
  revert n w. induction files as [|f files IH]; intros n w Hok.
  - exists w. split; [simpl; by rewrite Nat.add_0_r|]. apply batch_stored_refl.
  - rewrite for_each_cons, run_bind. unfold accepted in *.
    destruct (allowed_file (filename f)) eqn:Ha.
    + rewrite filter_cons_True in * by done.
      destruct (run_folder_step_stored cid n f w Ha) as (w1 & -> & H1).
      { apply Hok. by left. }
      destruct (IH (S n) w1) as (w2 & -> & H2).
      { intros g Hg. apply Hok. by right. }
      exists w2. split; [simpl; f_equal; f_equal; lia|].
      simpl. destruct H1 as (? & ? & ? & ? & ? & Hu1 & ?).
      simpl in Hu1.
      assert (uploads w1 = {[unique_name (uploads w) (secure_filename (filename f))]}
                           ∪ uploads w) as Hu by set_solver.
      rewrite Hu in H2.
      apply (batch_stored_trans _ [_] _ [] [] w w1 w2); [|done].
      by repeat split.
    + rewrite filter_cons_False in * by (by rewrite Ha).
      rewrite run_folder_step_skipped by done. by apply IH.
Qed.

(** *** The transaction of [upload_folder] *)

(** The key and the row of the card that [upload_folder] inserts. *)
Lemma folder_flush (name : string) (w : world) :
  clean w →
  flush_error (engine w) = None →
  session_flush (set_pending (pending w ++ [AddCard name None]) w) =
  (Return [next_id (Card.id <$> cards (committed w))],
   set_pending []
     (set_txn (Database (cards (committed w)
                         ++ [Card.mk (next_id (Card.id <$> cards (committed w))) name None])
                        (images (committed w)))
        (set_pending (pending w ++ [AddCard name None]) w))).
Proof.
  intros [Hp Ht] Hf. erewrite run_flush_ok; [reflexivity|done|].
  simpl. rewrite Hp, Ht. reflexivity.
Qed.

(** However the [try] block ends: an exception leaves the committed rows
    and the flashed messages as they were, a normal end has committed
    exactly one new top-level card and the image rows of the files it
    stored; files are only ever added. *)
Lemma upload_folder_try_any (first : FileStorage) (rest : list FileStorage)
    (w w1 : world) (r : outcome unit) :
  clean w →
  upload_folder_try secure_filename (first :: rest) w = (r, w1) →
  uploads w ⊆ uploads w1 ∧
  gallery_access w1 = gallery_access w ∧
  engine w1 = engine w ∧
  match r with
  | Raise e => committed w1 = committed w ∧ flashed w1 = flashed w
  | Return _ =>
      ∃ originals,
        committed w1 =
          Database
            (cards (committed w)
             ++ [Card.mk (next_id (Card.id <$> cards (committed w)))
                         (folder_card_name (filename first)) None])
            (insert_images (images (committed w))
               (stored_names (uploads w) originals)
               (next_id (Card.id <$> cards (committed w)))) ∧
        uploads w1 = list_to_set (stored_names (uploads w) originals) ∪ uploads w
  | OutOfFuel => False
  end.
Proof.
  clear key_of_text.
  intros Hclean. unfold upload_folder_try.
  change ((first :: rest) !! 0%nat) with (Some first).
  rewrite run_bind, run_ret. cbv beta iota.
  rewrite run_bind, run_session_record. cbv beta iota.
  rewrite run_bind.
  destruct (flush_error (engine w)) as [e|] eqn:Hflush.
  { rewrite (run_flush_fault _ e) by done. intros [= <- <-]. by repeat split. }
  rewrite folder_flush by done. cbv beta iota.
  change (head [?k]) with (Some k).
  rewrite run_bind.
  match goal with |- context [for_each ?fs ?n ?b ?w0] =>
    destruct (for_each fs n b w0) as [r3 w3] eqn:Hloop end.
  apply folder_loop_any in Hloop
    as [Hr3 (originals & Ha & Hc & Ht & He & Hp & Hu & Hf)].
  simpl in Ha, Hc, Ht, He, Hp, Hu, Hf. rewrite app_nil_r in Hf.
  destruct r3 as [n|e|]; [|intros [= <- <-]; split; [set_solver|done]|done].
  rewrite run_bind.
  destruct (commit_error (engine w3)) as [e|] eqn:Hcommit.
  { rewrite (run_commit_fault _ e) by done. intros [= <- <-].
    split; [set_solver|done]. }
  destruct (apply_ops_add_images (txn w3) [] (stored_names (uploads w) originals)
              (next_id (Card.id <$> cards (committed w)))) as [ks Hops].
  erewrite run_commit_ok; [|done|by rewrite Hp].
  cbv beta iota. rewrite run_flash. intros [= <- <-]. simpl.
  split; [set_solver|]. split; [done|]. split; [done|].
  exists originals. rewrite Ht. done.
Qed.

(** When neither the engine nor a write fails, the [try] block commits the
    new card with one image row per accepted file. *)
Lemma upload_folder_try_ok (first : FileStorage) (rest : list FileStorage) (w : world) :
  clean w →
  engine w = no_faults →
  (∀ f, f ∈ accepted (first :: rest) → save_error f = None) →
  let k := next_id (Card.id <$> cards (committed w)) in
  let card_name := folder_card_name (filename first) in
  let names := stored_names (uploads w)
                 ((λ f, secure_filename (filename f)) <$> accepted (first :: rest)) in
  ∃ w1,
    upload_folder_try secure_filename (first :: rest) w = (Return tt, w1) ∧
    gallery_access w1 = gallery_access w ∧
    committed w1 = Database (cards (committed w) ++ [Card.mk k card_name None])
                            (insert_images (images (committed w)) names k) ∧
    txn w1 = committed w1 ∧
    pending w1 = [] ∧
    uploads w1 = list_to_set names ∪ uploads w ∧
    flashed w1 = (flashed w ++
      [("Folder " +:+ dq +:+ card_name +:+ dq +:+ " created with "
        +:+ Py.str_nat (length (accepted (first :: rest))) +:+ " images.",
        "success")])%list.
Proof.
  intros Hclean Hengine Hok. cbv zeta. unfold upload_folder_try.
  change ((first :: rest) !! 0%nat) with (Some first).
  rewrite run_bind, run_ret. cbv beta iota.
  rewrite run_bind, run_session_record. cbv beta iota.
  rewrite run_bind.
  rewrite folder_flush by (done || by rewrite Hengine). cbv beta iota.
  change (head [?k]) with (Some k).
  rewrite run_bind.
  match goal with |- context [for_each ?fs ?n (upload_folder_step _ ?c) ?w0] =>
    destruct (folder_loop_ok c fs n w0 Hok)
      as (w3 & -> & Ha & Hc & Ht & He & Hp & Hu & Hf) end.
  simpl in Ha, Hc, Ht, He, Hp, Hu, Hf. rewrite app_nil_r in Hf.
  cbv beta iota. rewrite run_bind.
  destruct (apply_ops_add_images (txn w3) []
              (stored_names (uploads w)
                 ((λ f, secure_filename (filename f)) <$> accepted (first :: rest)))
              (next_id (Card.id <$> cards (committed w)))) as [ks Hops].
  erewrite run_commit_ok; [|by rewrite He, Hengine|by rewrite Hp].
  cbv beta iota. rewrite run_flash.
  eexists. split; [reflexivity|]. simpl.
  rewrite Ht, Ha, Hu, Hf. simpl. done.
Qed.

Lemma folder_card_name_plain (path : string) :
  Py.contains "/" path = false → folder_card_name path = "Uploaded Files".
Proof.
  intros H. unfold folder_card_name, Py.split1. by rewrite partition_none.
Qed.

Lemma folder_card_name_folder (a b : string) :
  Py.contains "/" a = false → folder_card_name (a +:+ "/" +:+ b) = a.
Proof.
  intros H. unfold folder_card_name, Py.split1.
  change ("/" +:+ b) with (String "/" b). by rewrite partition_first.
Qed.

Lemma run_upload_folder_raise (req : request) (first : FileStorage)
    (rest : list FileStorage) (w w1 : world) (e : exn) :
  gallery_access w = Some "admin" →
  files_getlist req "folder_files" = first :: rest →
  upload_folder_try secure_filename (first :: rest) w = (Raise e, w1) →
  upload_folder secure_filename req w =
  (Return (Redirect "gallery"),
   set_flashed
     (flashed w1 ++ [("An error occurred during folder upload: " +:+ str_of e, "error")])
     (set_pending [] (set_txn (committed w1) w1))).
Proof.
  intros Ha Hfiles Htry. unfold upload_folder.
  rewrite admin_only_granted by done. rewrite Hfiles.
  rewrite run_bind. unfold try_except. rewrite Htry. reflexivity.
Qed.

Lemma run_upload_folder_return (req : request) (first : FileStorage)
    (rest : list FileStorage) (w w1 : world) :
  gallery_access w = Some "admin" →
  files_getlist req "folder_files" = first :: rest →
  upload_folder_try secure_filename (first :: rest) w = (Return tt, w1) →
  upload_folder secure_filename req w = (Return (Redirect "gallery"), w1).
Proof.
  intros Ha Hfiles Htry. unfold upload_folder.
  rewrite admin_only_granted by done. rewrite Hfiles.
  rewrite run_bind. unfold try_except. rewrite Htry. reflexivity.
Qed.

(** C3.  When the [try] block of [upload_folder] raises an exception, the
    route rolls the session back, so that the committed rows are those from
    before the request (neither the new card nor any image of the batch),
    and flashes the text of the exception; the upload directory stays as it
    was when the exception was raised, so every file written until then,
    and every file that was there before, is still on disk. *)
Theorem upload_folder_exception_rolls_back (req : request) (first : FileStorage)
    (rest : list FileStorage) (w w1 : world) (e : exn) :
  gallery_access w = Some "admin" →
  clean w →
  files_getlist req "folder_files" = first :: rest →
  upload_folder_try secure_filename (first :: rest) w = (Raise e, w1) →
  ∃ w2,
    upload_folder secure_filename req w = (Return (Redirect "gallery"), w2) ∧
    committed w2 = committed w ∧
    txn w2 = committed w ∧
    pending w2 = [] ∧
    flashed w2 = (flashed w ++
      [("An error occurred during folder upload: " +:+ str_of e, "error")])%list ∧
    uploads w2 = uploads w1 ∧
    uploads w ⊆ uploads w1.
Proof.
  intros Ha Hclean Hfiles Htry.
  pose proof (upload_folder_try_any _ _ _ _ _ Hclean Htry) as (Hsub & _ & _ & Hc & Hf).
  eexists. split; [by eapply run_upload_folder_raise|].
  simpl. rewrite Hc, Hf. done.
Qed.

(** C4.  [upload_folder] names its card after the first file's path: the
    text before the first slash when the path has one, ["Uploaded Files"]
    otherwise.  Whatever the batch and whatever fails, the committed cards
    afterwards are the old ones or the old ones followed by exactly one
    card of that name with no parent; and when nothing fails it is the
    latter. *)
Theorem upload_folder_card_is_top_level (req : request) (first : FileStorage)
    (rest : list FileStorage) (w : world) :
  gallery_access w = Some "admin" →
  clean w →
  files_getlist req "folder_files" = first :: rest →
  let card_name := folder_card_name (filename first) in
  let new_card :=
    Card.mk (next_id (Card.id <$> cards (committed w))) card_name None in
  (Py.contains "/" (filename first) = false → card_name = "Uploaded Files") ∧
  (∀ a b, filename first = a +:+ "/" +:+ b → Py.contains "/" a = false →
          card_name = a) ∧
  (∃ w', upload_folder secure_filename req w = (Return (Redirect "gallery"), w') ∧
         (cards (committed w') = cards (committed w) ∨
          cards (committed w') = (cards (committed w) ++ [new_card])%list)) ∧
  (engine w = no_faults →
   (∀ f, f ∈ accepted (first :: rest) → save_error f = None) →
   ∃ w', upload_folder secure_filename req w = (Return (Redirect "gallery"), w') ∧
         cards (committed w') = (cards (committed w) ++ [new_card])%list).
Proof.
  intros Ha Hclean Hfiles. cbv zeta.
  split; [apply folder_card_name_plain|].
  split.
  { intros a b -> Hno. by apply folder_card_name_folder. }
  split.
  - destruct (upload_folder_try secure_filename (first :: rest) w) as [r w1] eqn:Htry.
    pose proof (upload_folder_try_any _ _ _ _ _ Hclean Htry) as (_ & _ & _ & Hr).
    destruct r as [[]|e|]; [| |done].
    + exists w1. split; [by eapply run_upload_folder_return|].
      right. by destruct Hr as (originals & -> & _).
    + eexists. split; [by eapply run_upload_folder_raise|].
      left. simpl. by destruct Hr as [-> _].
  - intros Hengine Hok.
    destruct (upload_folder_try_ok first rest w Hclean Hengine Hok)
      as (w1 & Htry & _ & Hc & _).
    exists w1. split; [by eapply run_upload_folder_return|]. by rewrite Hc.
Qed.

Lemma accepted_none (files : list FileStorage) :
  (∀ f, f ∈ files → allowed_file (filename f) = false) → accepted files = [].
Proof.
  intros H. unfold accepted. induction files as [|f files IH]; [done|].
  rewrite filter_cons_False.
  - apply IH. intros g Hg. apply H. by right.
  - rewrite H; [done|by left].
Qed.

(** C10.  [upload_folder] with a batch of at least one file, none of which
    passes the extension check, still commits the new top-level card when
    the engine does not fail: the image table and the upload directory are
    unchanged, and the success message reports 0 images. *)
Theorem upload_folder_all_rejected_keeps_card (req : request) (first : FileStorage)
    (rest : list FileStorage) (w : world) :
  gallery_access w = Some "admin" →
  clean w →
  files_getlist req "folder_files" = first :: rest →
  engine w = no_faults →
  (∀ f, f ∈ first :: rest → allowed_file (filename f) = false) →
  let card_name := folder_card_name (filename first) in
  ∃ w',
    upload_folder secure_filename req w = (Return (Redirect "gallery"), w') ∧
    committed w' =
      Database (cards (committed w)
                ++ [Card.mk (next_id (Card.id <$> cards (committed w))) card_name None])
               (images (committed w)) ∧
    uploads w' = uploads w ∧
    flashed w' = (flashed w ++
      [("Folder " +:+ dq +:+ card_name +:+ dq +:+ " created with 0 images.",
        "success")])%list.
Proof.
  clear key_of_text.
  intros Ha Hclean Hfiles Hengine Hrej. cbv zeta.
  pose proof (accepted_none _ Hrej) as Hacc.
  destruct (upload_folder_try_ok first rest w Hclean Hengine)
    as (w1 & Htry & _ & Hc & _ & _ & Hu & Hf).
  { rewrite Hacc. intros f Hf. by apply elem_of_nil in Hf. }
  rewrite Hacc in Hc, Hu, Hf. simpl in Hc, Hu, Hf.
  exists w1. split; [by eapply run_upload_folder_return|].
  split; [done|]. split; [set_solver|]. exact Hf.
Qed.

(** *** [upload_image] *)

Lemma run_image_step_stored (card : Card.t) (n : nat) (f : FileStorage) (w : world) :
  allowed_file (filename f) = true →
  save_error f = None →
  ∃ w', upload_image_step secure_filename card n f w = (Return (S n), w') ∧
        batch_stored (Some (Card.id card))
          [unique_name (uploads w) (secure_filename (filename f))] [] w w'.
Proof.
  clear key_of_text.
  intros Ha Hs. unfold upload_image_step. rewrite image_guard, Ha.
  rewrite run_bind, run_save_file_ok by done. cbv beta iota.
  rewrite run_bind, run_session_record. cbv beta iota.
  eexists. split; [reflexivity|].
  unfold batch_stored. simpl. rewrite app_nil_r. repeat split; try done.
  set_solver.
Qed.

Lemma run_image_step_rejected (card : Card.t) (n : nat) (f : FileStorage) (w : world) :
  allowed_file (filename f) = false →
  ∃ w', upload_image_step secure_filename card n f w = (Return n, w') ∧
        batch_stored (Some (Card.id card)) []
          (if negb (String.eqb (filename f) "") && negb (allowed_file (filename f))
           then [("File " +:+ dq +:+ filename f +:+ dq +:+ " is not an allowed type.",
                  "error")]
           else []) w w'.
Proof.
  clear key_of_text.
  intros Ha. unfold upload_image_step. rewrite image_guard, image_warn_guard, Ha.
  destruct (String.eqb (filename f) "") eqn:Hname; simpl.
  - exists w. split; [reflexivity|]. apply batch_stored_refl.
  - rewrite run_bind, run_flash. cbv beta iota.
    eexists. split; [reflexivity|].
    unfold batch_stored. simpl. rewrite app_nil_r. repeat split; try done.
    set_solver.
Qed.

Lemma image_loop_ok (card : Card.t) (files : list FileStorage) (n : nat) (w : world) :
  (∀ f, f ∈ accepted files → save_error f = None) →
  ∃ w',
    for_each files n (upload_image_step secure_filename card) w
      = (Return (n + length (accepted files))%nat, w') ∧
    batch_stored (Some (Card.id card))
      (stored_names (uploads w) ((λ f, secure_filename (filename f)) <$> accepted files))
      (rejection_warnings files) w w'.
Proof.
  clear key_of_text.
  revert n w. induction files as [|f files IH]; intros n w Hok.
  - exists w. split; [simpl; by rewrite Nat.add_0_r|]. apply batch_stored_refl.
  - rewrite for_each_cons, run_bind, rejection_warnings_cons. unfold accepted in *.
    destruct (allowed_file (filename f)) eqn:Ha.
    + rewrite filter_cons_True in * by done.
      destruct (run_image_step_stored card n f w Ha) as (w1 & -> & H1).
      { apply Hok. by left. }
      destruct (IH (S n) w1) as (w2 & -> & H2).
      { intros g Hg. apply Hok. by right. }
      exists w2. split; [simpl; f_equal; f_equal; lia|].
      rewrite andb_false_r. simpl.
      assert (uploads w1 = {[unique_name (uploads w) (secure_filename (filename f))]}
                           ∪ uploads w) as Hu.
      { destruct H1 as (_ & _ & _ & _ & _ & Hu1 & _). simpl in Hu1. set_solver. }
      rewrite Hu in H2.
      apply (batch_stored_trans _ [_] _ [] _ w w1 w2 H1 H2).
    + rewrite filter_cons_False in * by (by rewrite Ha).
      destruct (run_image_step_rejected card n f w Ha) as (w1 & -> & H1).
      destruct (IH n w1 Hok) as (w2 & -> & H2).
      exists w2. split; [done|].
      assert (uploads w1 = uploads w) as Hu.
      { destruct H1 as (_ & _ & _ & _ & _ & Hu1 & _). simpl in Hu1. set_solver. }
      rewrite Hu in H2. rewrite Ha in *.
      apply (batch_stored_trans _ [] _ _ _ w w1 w2 H1 H2).
Qed.

(** C6.  [upload_image] on an existing card treats each file of the batch
    on its own.  A file is stored, and gets an image row of the card, when
    and only when its name passes [allowed_file] (see
    [allowed_file_extension]); the stored names are new and distinct.  A
    rejected file that has a name is answered by one warning, a file with
    no name by none.  After the batch one more message is flashed: the
    number of stored files, or the generic failure when there is none.
    Rejected files never keep the accepted ones from being stored. *)
Theorem upload_image_per_file (req : request) (card : Card.t) (w : world) :
  gallery_access w = Some "admin" →
  clean w →
  (form_get req "card_id" ≫= key_of_text) ≫= (λ k, find_card k (cards (committed w)))
    = Some card →
  commit_error (engine w) = None →
  let files := files_getlist req "image" in
  (∀ f, f ∈ accepted files → save_error f = None) →
  let names := stored_names (uploads w)
                 ((λ f, secure_filename (filename f)) <$> accepted files) in
  ∃ w',
    upload_image secure_filename key_of_text req w = (Return (Redirect "gallery"), w') ∧
    cards (committed w') = cards (committed w) ∧
    (∃ new, images (committed w') = (images (committed w) ++ new)%list ∧
            (λ i, (Image.filename i, Image.card_id i)) <$> new
              = (λ n, (n, Card.id card)) <$> names) ∧
    uploads w' = list_to_set names ∪ uploads w ∧
    length names = length (accepted files) ∧
    NoDup names ∧
    (∀ n, n ∈ names → n ∉ uploads w) ∧
    flashed w' = (flashed w ++ rejection_warnings files ++
      [if Nat.ltb 0 (length (accepted files))
       then (Py.str_nat (length (accepted files)) +:+ " image(s) uploaded successfully.",
             "success")
       else ("No valid files were selected or uploaded.", "error")])%list.
Proof.
  intros Ha [Hp Ht] Hcard Hcommit files Hok names.
  unfold upload_image. rewrite admin_only_granted by done.
  unfold Card_query_get, get_world. rewrite !run_bind. cbv beta iota.
  rewrite run_ret. cbv beta iota. rewrite Ht, Hcard.
  rewrite run_bind.
  destruct (image_loop_ok card files 0 w Hok)
    as (w1 & Hloop & Hacc & Hc & Htx & He & Hpe & Hu & Hf).
  fold files. rewrite Hloop. cbv beta iota. fold names in Hpe, Hu.
  rewrite Nat.add_0_l.
  destruct (stored_names_fresh (uploads w)
              ((λ f, secure_filename (filename f)) <$> accepted files)) as [Hnd Hfresh].
  assert (length names = length (accepted files)) as Hlen.
  { unfold names. by rewrite stored_names_length, length_fmap. }
  destruct (Nat.ltb 0 (length (accepted files))) eqn:Hcount.
  - rewrite run_bind. rewrite run_bind.
    destruct (apply_ops_add_images (txn w1) [] names (Card.id card)) as [ks Hops].
    erewrite run_commit_ok; [|by rewrite He|by rewrite Hpe, Hp].
    cbv beta iota. rewrite run_flash. cbv beta iota. rewrite run_ret.
    eexists. split; [reflexivity|]. simpl.
    rewrite Htx, Ht, Hu, Hf. split; [done|].
    split; [apply insert_images_app|].
    rewrite <-(assoc_L (++)). done.
  - rewrite run_bind, run_flash. cbv beta iota. rewrite run_ret.
    eexists. split; [reflexivity|]. simpl.
    rewrite Hc, Hu, Hf. split; [done|].
    apply Nat.ltb_ge in Hcount.
    assert (names = []) as Hnil by (apply length_zero_iff_nil; lia).
    split.
    { exists []. rewrite app_nil_r. split; [done|]. by rewrite Hnil. }
    rewrite <-(assoc_L (++)). done.
Qed.

(** *** [add_card] *)



(** *** [delete_card] *)

(** Removing a file never fails the request: a missing file is passed
    over. *)
Lemma run_remove_quietly (name : string) (w : world) :
  ∃ w', remove_quietly name w = (Return tt, w') ∧ only_removed [name] w w'.
Proof.
  clear secure_filename key_of_text.
  unfold remove_quietly, try_except, os_remove, get_world.
  rewrite run_bind. cbv beta iota.
  destruct (bool_decide (name ∈ uploads w)) eqn:Hin.
  - eexists. split; [reflexivity|].
    unfold only_removed. simpl. repeat split; try done. set_solver.
  - exists w. split; [reflexivity|].
    apply bool_decide_eq_false in Hin.
    unfold only_removed. simpl. repeat split; try done. set_solver.
Qed.

Lemma run_remove_loop (imgs : list Image.t) (w : world) :
  ∃ w', for_each imgs tt (λ _ image, remove_quietly (Image.filename image)) w
        = (Return tt, w') ∧
        only_removed (Image.filename <$> imgs) w w'.
Proof.
  revert w. induction imgs as [|i imgs IH]; intros w.
  - exists w. split; [done|]. apply only_removed_refl.
  - rewrite for_each_cons, run_bind.
    destruct (run_remove_quietly (Image.filename i) w) as (w1 & -> & H1).
    destruct (IH w1) as (w2 & -> & H2).
    exists w2. split; [done|].
    apply (only_removed_trans [_] _ w w1 w2 H1 H2).
Qed.

(** C2.  [delete_card] of an existing card that is not its own ancestor,
    run by an admin with a commit that goes through: the committed card
    table loses exactly the card and its descendants, the image table
    exactly the images of those cards; the upload directory loses exactly
    the files named by the card's own images, a missing one being passed
    over.  So the file of an image of a descendant card stays in the upload
    directory although its row is gone, unless one of the card's own images
    has the same file name. *)
Theorem delete_card_cascades_rows_not_files (card_id : Z) (c : Card.t) (w : world) :
  gallery_access w = Some "admin" →
  clean w →
  commit_error (engine w) = None →
  find_card card_id (cards (committed w)) = Some c →
  (∀ p, Card.parent_id c = Some p → ¬ in_subtree (cards (committed w)) card_id p) →
  let cs := cards (committed w) in
  let direct := filter (λ i, Image.card_id i = card_id) (images (committed w)) in
  ∃ w',
    delete_card card_id w = (Return (Redirect "gallery"), w') ∧
    (∀ x, x ∈ doomed cs card_id ↔ in_subtree cs card_id x) ∧
    cards (committed w') = filter (λ x, Card.id x ∉ doomed cs card_id) cs ∧
    images (committed w')
      = filter (λ i, Image.card_id i ∉ doomed cs card_id) (images (committed w)) ∧
    (c ∉ cards (committed w')) ∧
    uploads w' = uploads w ∖ list_to_set (Image.filename <$> direct) ∧
    (∀ i, i ∈ images (committed w) →
          Image.card_id i ≠ card_id →
          in_subtree cs card_id (Image.card_id i) →
          (i ∉ images (committed w')) ∧
          (Image.filename i ∈ uploads w →
           (∀ j, j ∈ direct → Image.filename j ≠ Image.filename i) →
           Image.filename i ∈ uploads w')) ∧
    flashed w' = (flashed w ++
      [("Card " +:+ dq +:+ Card.name c +:+ dq +:+ " and all its contents deleted.",
        "success")])%list.
Proof.
  intros Ha [Hp Ht] Hcommit Hc Hfree. cbv zeta.
  destruct (find_card_id _ _ _ Hc) as [Hid Hin].
  pose proof (own_ancestor_false _ _ _ Hc Hfree) as Hacyclic.
  unfold delete_card. rewrite admin_only_granted by done.
  unfold Card_query_get_or_404, Card_images, get_world.
  rewrite !run_bind. cbv beta iota. rewrite Ht, Hc.
  cbv beta iota delta [mret M_ret]. rewrite !run_bind.
  cbv beta iota delta [mret M_ret]. rewrite Ht, Hid.
  destruct (run_remove_loop
              (filter (λ i, Image.card_id i = card_id) (images (committed w))) w)
    as (w1 & -> & Ha1 & Hc1 & Ht1 & Hp1 & He1 & Hf1 & Hu1).
  cbv beta iota.
  rewrite run_bind, run_session_record. cbv beta iota.
  rewrite run_bind.
  erewrite run_commit_ok;
    [|by rewrite <-He1 in Hcommit
     |cbn [pending txn set_pending]; rewrite Hp1, Hp, Ht1, Ht;
      cbn [app apply_ops]; rewrite (apply_op_delete_card _ _ Hacyclic);
      reflexivity].
  cbv beta iota. rewrite run_bind, run_flash. cbv beta iota.
  eexists. split; [reflexivity|]. simpl.
  split; [apply doomed_subtree|].
  split; [done|]. split; [done|].
  split.
  { intros Hc'. apply list_elem_of_filter in Hc' as [Hn _]. apply Hn.
    rewrite Hid. apply doomed_subtree. apply rtc_refl. }
  split; [done|].
  split; [|by rewrite Hf1].
  intros i Hi Hne Hsub. split.
  { intros Hi'. apply list_elem_of_filter in Hi' as [Hn _]. apply Hn.
    by apply doomed_subtree. }
  intros Hfile Hnames. rewrite Hu1. apply elem_of_difference. split; [done|].
  intros Hdirect. apply elem_of_list_to_set, list_elem_of_fmap in Hdirect
    as (j & Hname & Hj).
  by apply (Hnames j Hj).
Qed.

(** *** Every request keeps rows and files consistent *)

Lemma admin_only_cases (v : M response) (w w' : world) (o : outcome response) :
  admin_only v w = (o, w') →
  (o = Return (Redirect "gallery") ∧
   w' = set_flashed (flashed w ++ [permission_denied]) w) ∨
  (gallery_access w = Some "admin" ∧ v w = (o, w')).
Proof.
  destruct (decide (gallery_access w = Some "admin")) as [Ha|Hna].
  - rewrite admin_only_granted by done. intros Hv. by right.
  - rewrite admin_only_denied by done. intros [= <- <-]. by left.
Qed.

Lemma session_commit_any (w w' : world) (o : outcome unit) :
  session_commit w = (o, w') →
  o ≠ OutOfFuel ∧
  uploads w' = uploads w ∧
  ((∃ e, o = Raise e ∧ committed w' = committed w) ∨
   (∃ ks, o = Return tt ∧ apply_ops (txn w) [] (pending w) = inr (committed w', ks))).
Proof.
  destruct (commit_error (engine w)) as [e|] eqn:Hc.
  { rewrite (run_commit_fault _ e) by done. intros [= <- <-].
    split; [done|]. split; [done|]. left. eauto. }
  destruct (apply_ops (txn w) [] (pending w)) as [e|[d ks]] eqn:Hops.
  - unfold session_commit, get_world, write_pending. rewrite !run_bind.
    cbv beta iota. rewrite Hc, Hops. intros [= <- <-].
    split; [done|]. split; [done|]. left. eauto.
  - rewrite (run_commit_ok _ d ks) by done. intros [= <- <-].
    split; [done|]. split; [done|]. right. eauto.
Qed.

(** Recording one statement on a fresh session, committing and flashing. *)
Lemma record_commit_flash_any (op : pending_op) (msg cat : string) (w w' : world)
    (o : outcome unit) :
  pending w = [] →
  (session_record op;; session_commit;; flash msg cat) w = (o, w') →
  o ≠ OutOfFuel ∧
  uploads w' = uploads w ∧
  ((∃ e, o = Raise e ∧ committed w' = committed w) ∨
   (∃ d ks, o = Return tt ∧ apply_op (txn w) op = inr (d, ks) ∧ committed w' = d)).
Proof.
  intros Hp. rewrite run_bind, run_session_record. cbv beta iota.
  rewrite run_bind.
  destruct (session_commit (set_pending (pending w ++ [op]) w)) as [o1 w1] eqn:Hcommit.
  apply session_commit_any in Hcommit as (_ & Hu & [(e & -> & Hc)|(ks & -> & Hops)]).
  - intros [= <- <-]. split; [done|]. split; [done|]. left. eauto.
  - rewrite run_flash. intros [= <- <-]. split; [done|]. split; [done|].
    right. simpl in Hops. rewrite Hp in Hops. simpl in Hops.
    destruct (apply_op (txn w) op) as [e|[d ks']]; [done|].
    exists d, ks'. by simplify_eq/=.
Qed.

Lemma add_card_any (req : request) (w w' : world) (o : outcome response) :
  clean w →
  add_card req w = (o, w') →
  o ≠ OutOfFuel ∧ images (committed w') = images (committed w) ∧ uploads w' = uploads w.
Proof.
  intros [Hp Ht] Hrun. unfold add_card in Hrun.
  apply admin_only_cases in Hrun as [[-> ->]|[_ Hrun]]; [done|].
  rewrite run_bind in Hrun.
  destruct (truthy (form_get req "card_name"));
    [|cbv beta iota delta [mret M_ret] in Hrun; by simplify_eq].
  cbv zeta in Hrun. rewrite run_bind in Hrun.
  match type of Hrun with context [(if ?c then _ else _) w] =>
    destruct c; [destruct (PyInt.int (default "" (form_get req "parent_id")))|] end;
    cbv beta iota delta [mret M_ret raise] in Hrun; try by simplify_eq.
  all: match type of Hrun with context [?m ?w0] =>
         lazymatch m with
         | mbind _ (session_record _) =>
             destruct (m w0) as [o1 w1] eqn:Htail;
             apply record_commit_flash_any in Htail
               as (Ho & Hu & [(e & -> & Hc)|(d & ks & -> & Hop & Hc)]); [| |done]
         end
       end.
  all: simplify_eq/=; try done.
  all: try (split; [done|]; split; [congruence|done]).
  all: repeat case_match; simplify_eq/=.
  all: match goal with H : _ = committed _ |- _ => rewrite <-H end.
  all: simpl; by rewrite Ht.
Qed.

Lemma record_commit_ok {A} (op : pending_op) (k : M A) (w : world)
    (d : database) (ks : list Z) :
  pending w = [] →
  commit_error (engine w) = None →
  apply_op (txn w) op = inr (d, ks) →
  (session_record op;; session_commit;; k) w =
  k (set_committed d (set_pending [] (set_txn d (set_pending (pending w ++ [op]) w)))).
Proof.
  intros Hp Hc Hop. rewrite run_bind, run_session_record. cbv beta iota.
  rewrite run_bind.
  erewrite run_commit_ok; [|done|simpl; rewrite Hp; simpl; rewrite Hop; reflexivity].
  reflexivity.
Qed.

Lemma edit_card_any (card_id : Z) (req : request) (w w' : world)
    (o : outcome response) :
  clean w →
  edit_card card_id req w = (o, w') →
  o ≠ OutOfFuel ∧ images (committed w') = images (committed w) ∧ uploads w' = uploads w.
Proof.
  intros [Hp Ht] Hrun. unfold edit_card in Hrun.
  apply admin_only_cases in Hrun as [[-> ->]|[_ Hrun]]; [done|].
  unfold Card_query_get_or_404, get_world in Hrun. rewrite !run_bind in Hrun.
  cbv beta iota in Hrun.
  destruct (find_card card_id (cards (txn w))) as [c|];
    cbv beta iota delta [mret M_ret raise key_not_found] in Hrun;
    [|destruct (sqlite_int _); by simplify_eq/=].
  rewrite run_bind in Hrun.
  destruct (truthy (form_get req "card_name")).
  - cbv zeta in Hrun.
    match type of Hrun with context [?m ?w0] =>
      lazymatch m with
      | mbind _ (session_record _) =>
          destruct (m w0) as [o1 w1] eqn:Htail;
          apply record_commit_flash_any in Htail
            as (Ho & Hu & [(e & -> & Hc)|(d & ks & -> & Hop & Hc)]); [| |done]
      end
    end.
    + simplify_eq/=. split; [done|]. split; [congruence|done].
    + simplify_eq/=.
      match goal with H : _ = committed _ |- _ => rewrite <-H end.
      simpl. by rewrite Ht.
  - rewrite run_flash in Hrun. by simplify_eq/=.
Qed.

Lemma delete_image_any (image_id : Z) (w w' : world) (o : outcome response) :
  clean w →
  files_consistent w →
  delete_image image_id w = (o, w') →
  (∀ e, o = Raise e → class_of e = HTTPNotFound) →
  o ≠ OutOfFuel ∧ files_consistent w'.
Proof.
  intros [Hp Ht] Hinv Hrun Hok. unfold delete_image in Hrun.
  apply admin_only_cases in Hrun as [[-> ->]|[_ Hrun]].
  { split; [done|]. by apply (files_consistent_same w). }
  unfold Image_query_get_or_404, get_world in Hrun. rewrite !run_bind in Hrun.
  cbv beta iota in Hrun.
  destruct (find_image image_id (images (txn w))) as [i|] eqn:Hfind;
    cbv beta iota delta [mret M_ret raise key_not_found] in Hrun;
    [|destruct (sqlite_int _); by simplify_eq/=].
  rewrite run_bind in Hrun.
  destruct (run_remove_quietly (Image.filename i) w)
    as (w1 & Hrm & _ & Hc1 & Ht1 & Hp1 & He1 & _ & Hu1).
  rewrite Hrm in Hrun. cbv beta iota in Hrun.
  destruct (commit_error (engine w)) as [e0|] eqn:Hcommit.
  { rewrite run_bind, run_session_record in Hrun. cbv beta iota in Hrun.
    rewrite run_bind, (run_commit_fault _ e0) in Hrun by (simpl; by rewrite He1).
    injection Hrun as <- <-. by specialize (Hok _ eq_refl). }
  erewrite record_commit_ok in Hrun;
    [|by rewrite Hp1|by rewrite He1|reflexivity].
  rewrite run_bind, run_flash in Hrun. cbv beta iota delta [mret M_ret] in Hrun.
  injection Hrun as <- <-. split; [done|].
  rewrite Ht in Hfind. unfold find_image in Hfind.
  apply find_some in Hfind as [Hin Hid]. apply list_elem_of_In in Hin.
  apply bool_decide_eq_true in Hid.
  apply (files_consistent_removed (λ j, Image.id j ≠ Image.id i) [i] w);
    [done|simpl; by rewrite Ht1, Ht|simpl; by rewrite Hu1|].
  intros j Hj. apply list_elem_of_singleton in Hj as ->. split; [done|]. by intros ?.
Qed.

Lemma delete_card_any (card_id : Z) (w w' : world) (o : outcome response) :
  clean w →
  files_consistent w →
  delete_card card_id w = (o, w') →
  (∀ e, o = Raise e → class_of e = HTTPNotFound) →
  o ≠ OutOfFuel ∧ files_consistent w'.
Proof.
  intros [Hp Ht] Hinv Hrun Hok. unfold delete_card in Hrun.
  apply admin_only_cases in Hrun as [[-> ->]|[_ Hrun]].
  { split; [done|]. by apply (files_consistent_same w). }
  unfold Card_query_get_or_404, Card_images, get_world in Hrun.
  rewrite !run_bind in Hrun. cbv beta iota in Hrun.
  destruct (find_card card_id (cards (txn w))) as [c|] eqn:Hfind;
    cbv beta iota delta [mret M_ret raise key_not_found] in Hrun;
    [|destruct (sqlite_int _); by simplify_eq/=].
  rewrite !run_bind in Hrun. cbv beta iota delta [mret M_ret] in Hrun.
  destruct (run_remove_loop
              (filter (λ i, Image.card_id i = Card.id c) (images (txn w))) w)
    as (w1 & Hrm & _ & Hc1 & Ht1 & Hp1 & He1 & _ & Hu1).
  rewrite Hrm in Hrun. cbv beta iota in Hrun.
  destruct (commit_error (engine w)) as [e0|] eqn:Hcommit.
  { rewrite run_bind, run_session_record in Hrun. cbv beta iota in Hrun.
    rewrite run_bind, (run_commit_fault _ e0) in Hrun by (simpl; by rewrite He1).
    injection Hrun as <- <-. by specialize (Hok _ eq_refl). }
  destruct (own_ancestor (cards (txn w)) (Card.id c)) eqn:Hown.
  { rewrite run_bind, run_session_record in Hrun. cbv beta iota in Hrun.
    rewrite run_bind in Hrun.
    erewrite run_commit_raise in Hrun;
      [|simpl; by rewrite He1
       |cbn [pending txn set_pending]; rewrite Hp1, Hp, Ht1; cbn [app apply_ops];
        rewrite (apply_op_delete_card_cycle _ _ Hown); reflexivity].
    injection Hrun as <- <-. by specialize (Hok _ eq_refl). }
  erewrite record_commit_ok in Hrun;
    [|by rewrite Hp1|by rewrite He1
     |rewrite Ht1; apply (apply_op_delete_card _ _ Hown)].
  rewrite run_bind, run_flash in Hrun. cbv beta iota delta [mret M_ret] in Hrun.
  injection Hrun as <- <-. split; [done|].
  apply (files_consistent_removed
           (λ i, Image.card_id i ∉ doomed (cards (committed w)) (Card.id c))
           (filter (λ i, Image.card_id i = Card.id c) (images (committed w))) w);
    [done|simpl; by rewrite Ht|simpl; by rewrite Hu1, Ht|].
  intros i Hi. apply list_elem_of_filter in Hi as [Hcid Hi]. split; [done|].
  intros Hn. apply Hn. rewrite Hcid. apply cascade_grows.
  by apply list_elem_of_singleton.
Qed.

Lemma image_loop_any (card : Card.t) (files : list FileStorage) (n : nat)
    (w w' : world) (r : outcome nat) :
  for_each files n (upload_image_step secure_filename card) w = (r, w') →
  r ≠ OutOfFuel ∧
  ∃ originals msgs,
    batch_stored (Some (Card.id card)) (stored_names (uploads w) originals) msgs w w'.
Proof.
  clear key_of_text.
  revert n w. induction files as [|f files IH]; intros n w.
  - intros [= <- <-]. split; [done|]. exists [], []. apply batch_stored_refl.
  - rewrite for_each_cons, run_bind.
    destruct (allowed_file (filename f)) eqn:Ha.
    + destruct (save_error f) as [e|] eqn:Hs.
      * unfold upload_image_step. rewrite image_guard, Ha, run_bind.
        rewrite (run_save_file_fail _ _ e) by done.
        intros [= <- <-]. split; [done|]. exists [], []. apply batch_stored_refl.
      * destruct (run_image_step_stored card n f w Ha Hs) as (w1 & -> & H1).
        intros Hrest. apply IH in Hrest as [Hr (originals & msgs & H2)].
        split; [done|]. exists (secure_filename (filename f) :: originals), msgs.
        assert (uploads w1 = {[unique_name (uploads w) (secure_filename (filename f))]}
                             ∪ uploads w) as Hu.
        { destruct H1 as (_ & _ & _ & _ & _ & Hu1 & _). simpl in Hu1. set_solver. }
        rewrite Hu in H2.
        apply (batch_stored_trans _ [_] _ [] msgs w w1 w' H1 H2).
    + destruct (run_image_step_rejected card n f w Ha) as (w1 & -> & H1).
      intros Hrest. apply IH in Hrest as [Hr (originals & msgs & H2)].
      split; [done|]. exists originals. eexists.
      assert (uploads w1 = uploads w) as Hu.
      { destruct H1 as (_ & _ & _ & _ & _ & Hu1 & _). simpl in Hu1. set_solver. }
      rewrite Hu in H2.
      apply (batch_stored_trans _ [] _ _ msgs w w1 w' H1 H2).
Qed.

Lemma upload_image_any (req : request) (w w' : world) (o : outcome response) :
  clean w →
  files_consistent w →
  upload_image secure_filename key_of_text req w = (o, w') →
  o ≠ OutOfFuel ∧ files_consistent w'.
Proof.
  intros [Hp Ht] Hinv Hrun. unfold upload_image in Hrun.
  apply admin_only_cases in Hrun as [[-> ->]|[_ Hrun]].
  { split; [done|]. by apply (files_consistent_same w). }
  unfold Card_query_get, get_world in Hrun. rewrite !run_bind in Hrun.
  cbv beta iota delta [mret M_ret] in Hrun.
  match type of Hrun with context [match ?x with Some _ => _ | None => _ end] =>
    destruct x as [card|] end.
  2: { rewrite run_bind, run_flash in Hrun. injection Hrun as <- <-.
       split; [done|]. by apply (files_consistent_same w). }
  rewrite run_bind in Hrun.
  destruct (for_each (files_getlist req "image") 0%nat
              (upload_image_step secure_filename card) w) as [o1 w1] eqn:Hloop.
  apply image_loop_any in Hloop
    as [Ho1 (originals & msgs & Ha1 & Hc1 & Ht1 & He1 & Hp1 & Hu1 & Hf1)].
  destruct o1 as [n|e|]; [| |done].
  2: { injection Hrun as <- <-. split; [done|].
       apply (files_consistent_same w); [by rewrite Hc1| |done].
       rewrite Hu1. set_solver. }
  rewrite run_bind in Hrun. destruct (Nat.ltb 0 n).
  - rewrite run_bind in Hrun.
    destruct (session_commit w1) as [o2 w2] eqn:Hcommit.
    apply session_commit_any in Hcommit as (_ & Hu2 & [(e & -> & Hc2)|(ks & -> & Hops)]).
    + injection Hrun as <- <-. split; [done|].
      apply (files_consistent_same w); [by rewrite Hc2, Hc1| |done].
      rewrite Hu2, Hu1. set_solver.
    + rewrite run_flash in Hrun. injection Hrun as <- <-. split; [done|].
      rewrite Hp1, Hp, Ht1, Ht in Hops. simpl in Hops.
      destruct (apply_ops_add_images (committed w) []
                  (stored_names (uploads w) originals) (Card.id card)) as [ks' Hops'].
      rewrite Hops' in Hops. injection Hops as Hcm _.
      apply (files_consistent_stored w _ originals (Card.id card)); [done| |].
      * simpl. by rewrite <-Hcm.
      * simpl. by rewrite Hu2, Hu1.
  - rewrite run_flash in Hrun. injection Hrun as <- <-. split; [done|].
    apply (files_consistent_same w); [simpl; by rewrite Hc1| |done].
    simpl. rewrite Hu1. set_solver.
Qed.

Lemma upload_folder_any (req : request) (w w' : world) (o : outcome response) :
  clean w →
  files_consistent w →
  upload_folder secure_filename req w = (o, w') →
  o ≠ OutOfFuel ∧ files_consistent w'.
Proof.
  clear key_of_text.
  intros Hclean Hinv Hrun. unfold upload_folder in Hrun.
  apply admin_only_cases in Hrun as [[-> ->]|[_ Hrun]].
  { split; [done|]. by apply (files_consistent_same w). }
  destruct (files_getlist req "folder_files") as [|first rest].
  { rewrite run_bind, run_flash in Hrun. injection Hrun as <- <-.
    split; [done|]. by apply (files_consistent_same w). }
  rewrite run_bind in Hrun. unfold try_except in Hrun.
  destruct (upload_folder_try secure_filename (first :: rest) w) as [o1 w1] eqn:Htry.
  apply upload_folder_try_any in Htry as (Hsub & _ & _ & Hcases); [|done].
  destruct o1 as [[]|e|]; [| |done].
  - destruct Hcases as (originals & Hc & Hu).
    injection Hrun as <- <-. split; [done|].
    apply (files_consistent_stored w _ originals
             (next_id (Card.id <$> cards (committed w)))); [done| |done].
    by rewrite Hc.
  - destruct Hcases as [Hc _].
    cbv beta iota delta [upload_folder_except session_rollback modify flash
                         mbind M_bind mret M_ret class_of except_Exception] in Hrun.
    injection Hrun as <- <-. split; [done|].
    apply (files_consistent_same w); [simpl; by rewrite Hc|done|done].
Qed.

Lemma gallery_routes_any (r : route) (req : request) (w w' : world)
    (o : outcome response) :
  admin_route r = false →
  view secure_filename key_of_text r req w = (o, w') →
  o ≠ OutOfFuel ∧ committed w' = committed w ∧ uploads w' = uploads w.
Proof.
  intros Hr. destruct r; try discriminate Hr; simpl.
  - unfold gallery_login. destruct post; [|by intros [= <- <-]].
    cbv zeta. destruct (truthy _).
    + rewrite !run_bind. cbv beta iota delta [modify flash mret M_ret].
      by intros [= <- <-].
    + rewrite run_bind, run_flash. by intros [= <- <-].
  - unfold gallery, get_world. rewrite run_bind. cbv beta iota.
    destruct (negb _); by intros [= <- <-].
  - unfold gallery_logout. rewrite run_bind. by intros [= <- <-].
Qed.

(** One request, whatever fails in it, keeps file names and rows
    consistent and never exhausts the fuel of [save_file]; for the two
    deleting routes this needs that the request does not end in a server
    error. *)
Lemma view_keeps_files_consistent (r : route) (req : request) (w w' : world)
    (o : outcome response) :
  clean w →
  files_consistent w →
  view secure_filename key_of_text r req w = (o, w') →
  (deleting r = true → ∀ e, o = Raise e → class_of e = HTTPNotFound) →
  o ≠ OutOfFuel ∧ files_consistent w'.
Proof.
  intros Hclean Hinv Hrun Hdel.
  destruct (admin_route r) eqn:Hr.
  - destruct r; try discriminate Hr; simpl in Hrun.
    + apply add_card_any in Hrun as (Ho & Hi & Hu); [|done].
      split; [done|]. apply (files_consistent_same w); [done| |done]. by rewrite Hu.
    + apply edit_card_any in Hrun as (Ho & Hi & Hu); [|done].
      split; [done|]. apply (files_consistent_same w); [done| |done]. by rewrite Hu.
    + by eapply upload_image_any.
    + by eapply upload_folder_any.
    + eapply delete_card_any; eauto.
    + eapply delete_image_any; eauto.
  - apply gallery_routes_any in Hrun as (Ho & Hc & Hu); [|done].
    split; [done|]. apply (files_consistent_same w); [by rewrite Hc| |done].
    by rewrite Hu.
Qed.

(** In every reachable world the session is fresh, the file names of the
    image rows are pairwise distinct, and each of them names a file of the
    upload directory. *)
Lemma reachable_files_consistent (w : world) :
  reachable secure_filename key_of_text w → clean w ∧ files_consistent w.
Proof.
  induction 1 as [dir access|w r req e Hreach [Hclean Hinv] Hdel].
  - split; [by split|]. split; [constructor|].
    intros i Hi. by apply elem_of_nil in Hi.
  - unfold handle in *.
    destruct (view secure_filename key_of_text r req (set_engine e w))
      as [o w'] eqn:Hrun.
    apply view_keeps_files_consistent in Hrun as [Ho Hinv']; [|done..|].
    + destruct o; [| |done]; (split; [apply teardown_clean|done]).
    + intros Hr e0 ->. specialize (Hdel Hr). simpl in Hdel.
      by destruct (class_of e0).
Qed.

End GalleryProperties.

(** * The statements on the worked inputs *)

Ltac in_list H :=
  repeat (apply elem_of_cons in H as [->|H]; [try reflexivity|]);
  try (by apply elem_of_nil in H).

Lemma admin_routes_reject_other_levels_witness :
  admin_route (DeleteCardR 1) = true ∧
  gallery_access public_world ≠ Some "admin" ∧
  ∃ w', view Werkzeug.secure_filename PyInt.int (DeleteCardR 1) (card_form []) public_world
          = (Return (Redirect "gallery"), w') ∧
        only_flashed [("You do not have permission to do that.", "error")]
          public_world w' ∧
        handle Werkzeug.secure_filename PyInt.int (DeleteCardR 1) (card_form []) public_world
          = (Some (Redirect "gallery"), teardown w') ∧
        committed (teardown w') = committed public_world ∧
        uploads (teardown w') = uploads public_world.
Proof.
  split; [reflexivity|]. split; [discriminate|].
  apply (admin_routes_reject_other_levels Werkzeug.secure_filename PyInt.int
           (DeleteCardR 1) (card_form []) public_world);
    [reflexivity|discriminate].
Defined.

Example anonymous_upload_folder_rejected :
  handle Werkzeug.secure_filename PyInt.int UploadFolderR
    (folder_request [trip_a; trip_b]) anonymous_world
  = (Some (Redirect "gallery"),
     set_flashed [("You do not have permission to do that.", "error")] anonymous_world).
Proof. vm_compute. reflexivity. Qed.

Lemma add_card_empty_name_silent_witness :
  gallery_access admin_world = Some "admin" ∧
  (form_get (card_form [("card_name", "")]) "card_name" = None ∨
   form_get (card_form [("card_name", "")]) "card_name" = Some "") ∧
  add_card (card_form [("card_name", "")]) admin_world
    = (Return (Redirect "gallery"), admin_world).
Proof.
  split; [reflexivity|]. split; [right; vm_compute; reflexivity|].
  apply (add_card_empty_name_silent Werkzeug.secure_filename PyInt.int
           (card_form [("card_name", "")]) admin_world);
    [reflexivity|right; vm_compute; reflexivity].
Defined.

Lemma edit_card_renames_or_rejects_witness :
  gallery_access nested_world = Some "admin" ∧
  clean nested_world ∧
  find_card 2 (cards (committed nested_world)) = Some (Card.mk 2 "Day 1" (Some 1)) ∧
  form_get (card_form [("card_name", "Day one")]) "card_name" = Some "Day one" ∧
  "Day one" ≠ "" ∧
  commit_error (engine nested_world) = None ∧
  ∃ w', edit_card 2 (card_form [("card_name", "Day one")]) nested_world
          = (Return (Redirect "gallery"), w') ∧
        cards (committed w')
          = rename_card 2 "Day one" <$> cards (committed nested_world) ∧
        images (committed w') = images (committed nested_world) ∧
        find_card 2 (cards (committed w')) = Some (Card.mk 2 "Day one" (Some 1)) ∧
        uploads w' = uploads nested_world ∧
        flashed w' = (flashed nested_world ++
          [("Card renamed to " +:+ dq +:+ "Day one" +:+ dq +:+ ".", "success")])%list.
Proof.
  split; [reflexivity|]. split; [by split|]. split; [reflexivity|].
  split; [vm_compute; reflexivity|]. split; [discriminate|]. split; [reflexivity|].
  apply (edit_card_renames_or_rejects 2 (Card.mk 2 "Day 1" (Some 1))
           (card_form [("card_name", "Day one")]) nested_world);
    [reflexivity|by split|reflexivity|vm_compute; reflexivity|discriminate|reflexivity].
Defined.

Example edit_card_empty_name_keeps_name :
  handle Werkzeug.secure_filename PyInt.int (EditCardR 2)
    (card_form [("card_name", "")]) nested_world
  = (Some (Redirect "gallery"),
     set_flashed [("New name cannot be empty.", "error")] nested_world).
Proof. vm_compute. reflexivity. Qed.



Example add_card_None_sentinel_is_top_level :
  committed (handle Werkzeug.secure_filename PyInt.int AddCardR
               (card_form [("card_name", "Album"); ("parent_id", "None")])
               admin_world).2
  = Database [Card.mk 1 "Album" None] [].
Proof. vm_compute. reflexivity. Qed.

Lemma upload_folder_exception_rolls_back_witness :
  gallery_access admin_world = Some "admin" ∧
  clean admin_world ∧
  files_getlist (folder_request [trip_a; trip_b_unwritable]) "folder_files"
    = trip_a :: [trip_b_unwritable] ∧
  upload_folder_try Werkzeug.secure_filename [trip_a; trip_b_unwritable] admin_world
    = (Raise (Exn OSError "No space left on device"), trip_interrupted) ∧
  ∃ w2,
    upload_folder Werkzeug.secure_filename (folder_request [trip_a; trip_b_unwritable])
      admin_world = (Return (Redirect "gallery"), w2) ∧
    committed w2 = committed admin_world ∧
    txn w2 = committed admin_world ∧
    pending w2 = [] ∧
    flashed w2 = (flashed admin_world ++
      [("An error occurred during folder upload: "
        +:+ str_of (Exn OSError "No space left on device"), "error")])%list ∧
    uploads w2 = uploads trip_interrupted ∧
    uploads admin_world ⊆ uploads trip_interrupted.
Proof.
  split; [reflexivity|]. split; [by split|]. split; [vm_compute; reflexivity|].
  split; [vm_compute; reflexivity|].
  apply (upload_folder_exception_rolls_back Werkzeug.secure_filename
           (folder_request [trip_a; trip_b_unwritable]) trip_a [trip_b_unwritable]
           admin_world trip_interrupted (Exn OSError "No space left on device"));
    [reflexivity|by split|vm_compute; reflexivity|vm_compute; reflexivity].
Defined.

Example upload_folder_interrupted_leaves_file :
  handle Werkzeug.secure_filename PyInt.int UploadFolderR
    (folder_request [trip_a; trip_b_unwritable]) admin_world
  = (Some (Redirect "gallery"),
     World (Some "admin") empty_db empty_db [] {["Trip_a.jpg"]}
       [("An error occurred during folder upload: No space left on device", "error")]
       no_faults).
Proof. vm_compute. reflexivity. Qed.

Lemma upload_folder_card_is_top_level_witness :
  gallery_access nested_world = Some "admin" ∧
  clean nested_world ∧
  files_getlist (folder_request [trip_a; trip_b]) "folder_files" = trip_a :: [trip_b] ∧
  engine nested_world = no_faults ∧
  (∀ f, f ∈ accepted (trip_a :: [trip_b]) → save_error f = None) ∧
  filename trip_a = "Trip" +:+ "/" +:+ "a.jpg" ∧
  Py.contains "/" "Trip" = false ∧
  folder_card_name (filename trip_a) = "Trip" ∧
  ∃ w', upload_folder Werkzeug.secure_filename (folder_request [trip_a; trip_b])
          nested_world = (Return (Redirect "gallery"), w') ∧
        cards (committed w')
          = (cards (committed nested_world) ++ [Card.mk 4 "Trip" None])%list.
Proof.
  assert (∀ f, f ∈ accepted (trip_a :: [trip_b]) → save_error f = None) as Hok.
  { intros f Hf. apply list_elem_of_filter in Hf as [_ Hf]. in_list Hf. }
  split; [reflexivity|]. split; [by split|]. split; [vm_compute; reflexivity|].
  split; [reflexivity|]. split; [exact Hok|]. split; [reflexivity|].
  split; [reflexivity|].
  destruct (upload_folder_card_is_top_level Werkzeug.secure_filename
              (folder_request [trip_a; trip_b]) trip_a [trip_b] nested_world)
    as (_ & Hname & _ & Hcreated);
    [reflexivity|by split|vm_compute; reflexivity|].
  split; [exact (Hname "Trip" "a.jpg" eq_refl eq_refl)|].
  exact (Hcreated eq_refl Hok).
Defined.

Example upload_folder_plain_files_label :
  folder_card_name "a.jpg" = "Uploaded Files".
Proof. reflexivity. Qed.

Example upload_folder_trip :
  committed (handle Werkzeug.secure_filename PyInt.int UploadFolderR
               (folder_request [trip_a; trip_b]) admin_world).2
  = Database [Card.mk 1 "Trip" None]
             [Image.mk 1 "Trip_a.jpg" 1; Image.mk 2 "Trip_b.png" 1].
Proof. vm_compute. reflexivity. Qed.

Lemma upload_folder_all_rejected_keeps_card_witness :
  gallery_access admin_world = Some "admin" ∧
  clean admin_world ∧
  files_getlist (folder_request [upload "Notes/todo.txt"; upload "Notes/plan.md"])
    "folder_files" = upload "Notes/todo.txt" :: [upload "Notes/plan.md"] ∧
  engine admin_world = no_faults ∧
  (∀ f, f ∈ upload "Notes/todo.txt" :: [upload "Notes/plan.md"] →
        allowed_file (filename f) = false) ∧
  ∃ w',
    upload_folder Werkzeug.secure_filename
      (folder_request [upload "Notes/todo.txt"; upload "Notes/plan.md"]) admin_world
      = (Return (Redirect "gallery"), w') ∧
    committed w' =
      Database (cards (committed admin_world)
                ++ [Card.mk (next_id (Card.id <$> cards (committed admin_world)))
                            (folder_card_name (filename (upload "Notes/todo.txt"))) None])
               (images (committed admin_world)) ∧
    uploads w' = uploads admin_world ∧
    flashed w' = (flashed admin_world ++
      [("Folder " +:+ dq +:+ folder_card_name (filename (upload "Notes/todo.txt")) +:+ dq
        +:+ " created with 0 images.", "success")])%list.
Proof.
  assert (∀ f, f ∈ upload "Notes/todo.txt" :: [upload "Notes/plan.md"] →
               allowed_file (filename f) = false) as Hrej.
  { intros f Hf. in_list Hf. }
  split; [reflexivity|]. split; [by split|]. split; [vm_compute; reflexivity|].
  split; [reflexivity|]. split; [exact Hrej|].
  apply (upload_folder_all_rejected_keeps_card Werkzeug.secure_filename
           (folder_request [upload "Notes/todo.txt"; upload "Notes/plan.md"])
           (upload "Notes/todo.txt") [upload "Notes/plan.md"] admin_world);
    [reflexivity|by split|vm_compute; reflexivity|reflexivity|exact Hrej].
Defined.

Example upload_folder_all_rejected :
  handle Werkzeug.secure_filename PyInt.int UploadFolderR
    (folder_request [upload "Notes/todo.txt"; upload "Notes/plan.md"]) admin_world
  = (Some (Redirect "gallery"),
     World (Some "admin") (Database [Card.mk 1 "Notes" None] [])
       (Database [Card.mk 1 "Notes" None] []) [] ∅
       [("Folder " +:+ dq +:+ "Notes" +:+ dq +:+ " created with 0 images.", "success")]
       no_faults).
Proof. vm_compute. reflexivity. Qed.

Lemma save_file_returns_free_name_witness :
  save_error (upload "a.jpg") = None ∧
  ∃ name,
    save_file Werkzeug.secure_filename (upload "a.jpg") nested_world
      = (Return name, set_uploads ({[name]} ∪ uploads nested_world) nested_world) ∧
    (name ∉ uploads nested_world).
Proof.
  split; [reflexivity|].
  destruct (save_file_returns_free_name Werkzeug.secure_filename (upload "a.jpg")
              nested_world eq_refl) as (name & Hrun & Hfree & _).
  exists name. by split.
Defined.

Example save_file_same_name_twice :
  ∃ w1 w2,
    save_file Werkzeug.secure_filename (upload "pic.jpg") admin_world
      = (Return "pic.jpg", w1) ∧
    save_file Werkzeug.secure_filename (upload "pic.jpg") w1
      = (Return "pic_1.jpg", w2) ∧
    save_file Werkzeug.secure_filename (upload "pic.jpg") w2
      = (Return "pic_2.jpg",
         set_uploads (list_to_set ["pic.jpg"; "pic_1.jpg"; "pic_2.jpg"]) admin_world).
Proof. do 2 eexists. split; [|split]; vm_compute; reflexivity. Qed.

Lemma upload_image_per_file_witness :
  let req := image_request "2"
               [upload "a.jpg"; upload ""; upload "virus.exe"; upload "new.PNG"] in
  let card := Card.mk 2 "Day 1" (Some 1) in
  let files := files_getlist req "image" in
  let names := stored_names (uploads nested_world)
                 ((λ f, Werkzeug.secure_filename (filename f)) <$> accepted files) in
  gallery_access nested_world = Some "admin" ∧
  clean nested_world ∧
  (form_get req "card_id" ≫= PyInt.int)
    ≫= (λ k, find_card k (cards (committed nested_world))) = Some card ∧
  commit_error (engine nested_world) = None ∧
  (∀ f, f ∈ accepted files → save_error f = None) ∧
  names = ["a_1.jpg"; "new.PNG"] ∧
  ∃ w',
    upload_image Werkzeug.secure_filename PyInt.int req nested_world
      = (Return (Redirect "gallery"), w') ∧
    cards (committed w') = cards (committed nested_world) ∧
    (∃ new, images (committed w') = (images (committed nested_world) ++ new)%list ∧
            (λ i, (Image.filename i, Image.card_id i)) <$> new
              = (λ n, (n, Card.id card)) <$> names) ∧
    uploads w' = list_to_set names ∪ uploads nested_world ∧
    length names = length (accepted files) ∧
    NoDup names ∧
    (∀ n, n ∈ names → n ∉ uploads nested_world) ∧
    flashed w' = (flashed nested_world ++ rejection_warnings files ++
      [if Nat.ltb 0 (length (accepted files))
       then (Py.str_nat (length (accepted files)) +:+ " image(s) uploaded successfully.",
             "success")
       else ("No valid files were selected or uploaded.", "error")])%list.
Proof.
  intros req card files names.
  assert (accepted files = [upload "a.jpg"; upload "new.PNG"]) as Hacc
    by (vm_compute; reflexivity).
  assert (∀ f, f ∈ accepted files → save_error f = None) as Hok.
  { intros f Hf. rewrite Hacc in Hf. in_list Hf. }
  split; [reflexivity|]. split; [by split|]. split; [vm_compute; reflexivity|].
  split; [reflexivity|]. split; [exact Hok|]. split; [vm_compute; reflexivity|].
  apply (upload_image_per_file Werkzeug.secure_filename PyInt.int req card nested_world);
    [reflexivity|by split|vm_compute; reflexivity|reflexivity|exact Hok].
Defined.

Example upload_image_mixed_batch :
  let r := handle Werkzeug.secure_filename PyInt.int UploadImageR
             (image_request "2"
                [upload "a.jpg"; upload ""; upload "virus.exe"; upload "new.PNG"])
             nested_world in
  r.1 = Some (Redirect "gallery") ∧
  images (committed r.2)
    = [Image.mk 1 "a.jpg" 1; Image.mk 2 "b.jpg" 2; Image.mk 3 "c.jpg" 3;
       Image.mk 4 "a_1.jpg" 2; Image.mk 5 "new.PNG" 2] ∧
  flashed r.2
    = [("File " +:+ dq +:+ "virus.exe" +:+ dq +:+ " is not an allowed type.", "error");
       ("2 image(s) uploaded successfully.", "success")].
Proof. vm_compute. repeat split; reflexivity. Qed.

Example upload_image_nothing_valid :
  let r := handle Werkzeug.secure_filename PyInt.int UploadImageR
             (image_request "2" [upload ""; upload "virus.exe"]) nested_world in
  committed r.2 = committed nested_world ∧
  uploads r.2 = uploads nested_world ∧
  flashed r.2
    = [("File " +:+ dq +:+ "virus.exe" +:+ dq +:+ " is not an allowed type.", "error");
       ("No valid files were selected or uploaded.", "error")].
Proof. vm_compute. repeat split; reflexivity. Qed.

Lemma delete_card_cascades_rows_not_files_witness :
  let c := Card.mk 1 "Trip" None in
  let cs := cards (committed nested_world) in
  let direct := filter (λ i, Image.card_id i = 1) (images (committed nested_world)) in
  gallery_access nested_world = Some "admin" ∧
  clean nested_world ∧
  commit_error (engine nested_world) = None ∧
  find_card 1 cs = Some c ∧
  (∀ p, Card.parent_id c = Some p → ¬ in_subtree cs 1 p) ∧
  ∃ w',
    delete_card 1 nested_world = (Return (Redirect "gallery"), w') ∧
    (∀ x, x ∈ doomed cs 1 ↔ in_subtree cs 1 x) ∧
    cards (committed w') = filter (λ x, Card.id x ∉ doomed cs 1) cs ∧
    images (committed w')
      = filter (λ i, Image.card_id i ∉ doomed cs 1) (images (committed nested_world)) ∧
    (c ∉ cards (committed w')) ∧
    uploads w' = uploads nested_world ∖ list_to_set (Image.filename <$> direct) ∧
    (∀ i, i ∈ images (committed nested_world) →
          Image.card_id i ≠ 1 →
          in_subtree cs 1 (Image.card_id i) →
          (i ∉ images (committed w')) ∧
          (Image.filename i ∈ uploads nested_world →
           (∀ j, j ∈ direct → Image.filename j ≠ Image.filename i) →
           Image.filename i ∈ uploads w')) ∧
    flashed w' = (flashed nested_world ++
      [("Card " +:+ dq +:+ Card.name c +:+ dq +:+ " and all its contents deleted.",
        "success")])%list.
Proof.
  intros c cs direct.
  split; [reflexivity|]. split; [by split|]. split; [reflexivity|].
  split; [reflexivity|].
  split; [intros p Hp; discriminate Hp|].
  apply (delete_card_cascades_rows_not_files 1 c nested_world);
    [reflexivity|by split|reflexivity|reflexivity|intros p Hp; discriminate Hp].
Defined.

(** C2 as stated fails in two places.  A card that is its own parent is an
    existing card, yet [delete_card] on it ends in a server error and
    deletes no row.  And where an image row of a nested card names the same
    file as an image row of the card itself, deleting the card removes the
    file that the nested card's image refers to. *)
Lemma delete_card_own_parent_or_shared_name :
  (find_card 1 (cards (committed self_parent_world))
     = Some (Card.mk 1 "Album" (Some 1)) ∧
   handle Werkzeug.secure_filename PyInt.int (DeleteCardR 1) (card_form [])
     self_parent_world = (Some (Abort 500), self_parent_world)) ∧
  (Image.mk 2 "a.jpg" 2 ∈ images (committed shared_name_world) ∧
   Image.card_id (Image.mk 2 "a.jpg" 2) ≠ 1 ∧
   "a.jpg" ∈ uploads shared_name_world ∧
   (handle Werkzeug.secure_filename PyInt.int (DeleteCardR 1) (card_form [])
      shared_name_world).1 = Some (Redirect "gallery") ∧
   "a.jpg" ∉ uploads (handle Werkzeug.secure_filename PyInt.int (DeleteCardR 1)
                        (card_form []) shared_name_world).2).
Proof.
  split; [split; [reflexivity|vm_compute; reflexivity]|].
  split; [simpl; set_solver|]. split; [discriminate|].
  split; [simpl; set_solver|]. split; [vm_compute; reflexivity|].
  assert (uploads (handle Werkzeug.secure_filename PyInt.int (DeleteCardR 1)
                     (card_form []) shared_name_world).2 = ∅) as ->
    by (vm_compute; reflexivity).
  set_solver.
Qed.

(** [add_card] makes such a card when it is given, as [parent_id], the key
    that the new card is about to get. *)
Example add_card_own_key_is_own_parent :
  committed (handle Werkzeug.secure_filename PyInt.int AddCardR
               (card_form [("card_name", "Album"); ("parent_id", "1")])
               admin_world).2
  = committed self_parent_world.
Proof. vm_compute. reflexivity. Qed.

(** The same on a cycle of two cards. *)
Example delete_card_on_cycle_of_two :
  let db := Database [Card.mk 1 "A" (Some 2); Card.mk 2 "B" (Some 1)] [] in
  let w := World (Some "admin") db db [] ∅ [] no_faults in
  handle Werkzeug.secure_filename PyInt.int (DeleteCardR 1) (card_form []) w
  = (Some (Abort 500), w).
Proof. vm_compute. reflexivity. Qed.

(** The asymmetry on the nested album: the rows of the card, of the nested
    card and of their images are gone, the file of the card's own image is
    removed, the file of the nested card's image is left behind. *)
Example delete_card_orphans_nested_file :
  let r := handle Werkzeug.secure_filename PyInt.int (DeleteCardR 1) (card_form [])
             nested_world in
  r.1 = Some (Redirect "gallery") ∧
  committed r.2 = Database [Card.mk 3 "Other" None] [Image.mk 3 "c.jpg" 3] ∧
  uploads r.2 = list_to_set ["b.jpg"; "c.jpg"].
Proof. vm_compute. repeat split; reflexivity. Qed.

(** Deleting a card whose own file is already gone goes through all the
    same. *)
Example delete_card_tolerates_missing_file :
  let r := handle Werkzeug.secure_filename PyInt.int (DeleteCardR 1) (card_form [])
             (set_uploads (list_to_set ["b.jpg"; "c.jpg"]) nested_world) in
  r.1 = Some (Redirect "gallery") ∧
  committed r.2 = Database [Card.mk 3 "Other" None] [Image.mk 3 "c.jpg" 3] ∧
  uploads r.2 = list_to_set ["b.jpg"; "c.jpg"].
Proof. vm_compute. repeat split; reflexivity. Qed.

(** In a store where a nested card's image row names the same file as a
    row of the card itself, deleting the card removes that file. *)
Example delete_card_shared_file_name :
  uploads (handle Werkzeug.secure_filename PyInt.int (DeleteCardR 1) (card_form [])
             shared_name_world).2
  = ∅.
Proof. vm_compute. reflexivity. Qed.

(** The worked worlds are reachable ones. *)
Example upload_folder_trip_reachable :
  reachable Werkzeug.secure_filename PyInt.int
    (handle Werkzeug.secure_filename PyInt.int UploadFolderR
       (folder_request [trip_a; trip_b]) admin_world).2.
Proof.
  apply (reachable_request _ _ admin_world UploadFolderR
           (folder_request [trip_a; trip_b]) no_faults).
  - apply reachable_start.
  - discriminate.
Qed.

(** * Further properties of the routes *)

Section Coverage.

Variable secure_filename : string → string.
Variable key_of_text : string → option Z.

Set Default Proof Using "Type".

(** ** Logging in and out *)

Lemma GALLERY_PASSWORDS_lookup (p level : string) :
  GALLERY_PASSWORDS !! p = Some level ↔
  (p = "123" ∧ level = "public") ∨ (p = "admin123" ∧ level = "admin").
Proof.
  unfold GALLERY_PASSWORDS.
  rewrite lookup_insert_Some, lookup_insert_Some, lookup_empty.
  split.
  - intros [[<- <-]|[_ [[<- <-]|[_ ?]]]]; [by left|by right|done].
  - intros [[-> ->]|[-> ->]]; [by left|]. right. split; [done|]. by left.
Qed.

Lemma run_login_granted (req : request) (w : world) (p level : string) :
  form_get req "password" = Some p →
  GALLERY_PASSWORDS !! p = Some level →
  gallery_login true req w =
  (Return (Redirect "gallery"),
   set_flashed (flashed w ++ [("Logged in with " +:+ level +:+ " access.", "success")])
     (set_access (Some level) w)).
Proof.
  intros Hp Hl. unfold gallery_login. cbv zeta. rewrite Hp. simpl. rewrite Hl.
  assert (truthy (Some level) = true) as ->.
  { apply GALLERY_PASSWORDS_lookup in Hl as [[_ ->]|[_ ->]]; reflexivity. }
  reflexivity.
Qed.

Lemma run_login_refused (req : request) (w : world) :
  form_get req "password" ≠ Some "123" →
  form_get req "password" ≠ Some "admin123" →
  gallery_login true req w =
  (Return (RenderTemplate "gallery_login.html"),
   set_flashed (flashed w ++ [("Incorrect password.", "error")]) w).
Proof.
  intros H1 H2. unfold gallery_login. cbv zeta.
  assert (form_get req "password" ≫= (λ p, GALLERY_PASSWORDS !! p) = None) as ->;
    [|reflexivity].
  destruct (form_get req "password") as [p|]; [|done]. simpl.
  destruct (GALLERY_PASSWORDS !! p) as [level|] eqn:Hl; [|done].
  apply GALLERY_PASSWORDS_lookup in Hl as [[-> _]|[-> _]]; done.
Qed.

(** X1.  A POST to [gallery_login] grants a level exactly for the two
    configured passwords: ["123"] stores [public], ["admin123"] stores
    [admin], each with its message and a redirect to the gallery.  Any other
    password, or none, flashes the error and renders the login page again,
    and leaves the session as it was: a failed login does not take away a
    level the session already holds.  A GET only renders the page. *)
Theorem gallery_login_accepts_two_passwords (req : request) (w : world) :
  (form_get req "password" = Some "123" →
   gallery_login true req w =
   (Return (Redirect "gallery"),
    set_flashed (flashed w ++ [("Logged in with public access.", "success")])
      (set_access (Some "public") w))) ∧
  (form_get req "password" = Some "admin123" →
   gallery_login true req w =
   (Return (Redirect "gallery"),
    set_flashed (flashed w ++ [("Logged in with admin access.", "success")])
      (set_access (Some "admin") w))) ∧
  (form_get req "password" ≠ Some "123" →
   form_get req "password" ≠ Some "admin123" →
   gallery_login true req w =
   (Return (RenderTemplate "gallery_login.html"),
    set_flashed (flashed w ++ [("Incorrect password.", "error")]) w)) ∧
  gallery_login false req w = (Return (RenderTemplate "gallery_login.html"), w).
Proof.
  split; [|split; [|split]].
  - intros Hp. by apply (run_login_granted req w "123" "public").
  - intros Hp. by apply (run_login_granted req w "admin123" "admin").
  - apply run_login_refused.
  - reflexivity.
Qed.

Lemma admin_route_denied (r : route) (req : request) (w : world) :
  admin_route r = true →
  gallery_access w ≠ Some "admin" →
  view secure_filename key_of_text r req w =
  (Return (Redirect "gallery"), set_flashed (flashed w ++ [permission_denied]) w).
Proof.
  intros Hr Hna.
  destruct r; try discriminate Hr; simpl;
    [unfold add_card|unfold edit_card|unfold upload_image
    |unfold upload_folder|unfold delete_card|unfold delete_image];
    by apply admin_only_denied.
Qed.

Lemma teardown_of_clean (w : world) : clean w → teardown w = w.
Proof. intros [Hp Ht]. destruct w. simpl in *. by subst. Qed.

(** X2.  [gallery_logout] drops the access level, whatever it was and also
    when there was none, and touches nothing else.  Afterwards [gallery]
    redirects to the login page and every admin-only route is refused. *)
Theorem gallery_logout_ends_access (r : route) (req req' : request) (w : world) :
  clean w →
  let w1 := set_access None w in
  handle secure_filename key_of_text GalleryLogout req w = (Some (Redirect "home"), w1) ∧
  handle secure_filename key_of_text Gallery req' w1
    = (Some (Redirect "gallery_login"), w1) ∧
  (admin_route r = true →
   handle secure_filename key_of_text r req' w1
   = (Some (Redirect "gallery"),
      set_flashed (flashed w ++ [("You do not have permission to do that.", "error")])
        w1)).
Proof.
  intros Hclean. cbv zeta.
  assert (clean (set_access None w)) as Hclean1 by (destruct Hclean; by split).
  split; [|split].
  - unfold handle. simpl. f_equal. by apply teardown_of_clean.
  - unfold handle. simpl. f_equal. by apply teardown_of_clean.
  - intros Hr. unfold handle. rewrite admin_route_denied by done.
    f_equal. apply teardown_of_clean. destruct Hclean1. by split.
Qed.

(** X3.  A session that is not admin becomes admin by one request only:
    a POST to [gallery_login] whose password is ["admin123"].  No other
    route, and no other password, raises the level to [admin]. *)
Theorem admin_level_only_by_admin_password (r : route) (req : request) (w : world) :
  gallery_access w ≠ Some "admin" →
  gallery_access (handle secure_filename key_of_text r req w).2 = Some "admin" →
  r = GalleryLogin true ∧ form_get req "password" = Some "admin123".
Proof.
  intros Hna.
  destruct (admin_route r) eqn:Hr.
  - unfold handle. rewrite admin_route_denied by done.
    simpl. intros Ha. by destruct Hna.
  - destruct r as [[]| | | | | | | |]; try discriminate Hr.
    + destruct (decide (form_get req "password" = Some "admin123")) as [Hp|Hp];
        [done|].
      destruct (decide (form_get req "password" = Some "123")) as [Hp'|Hp'].
      * unfold handle.
        change (view secure_filename key_of_text (GalleryLogin true) req w)
          with (gallery_login true req w).
        rewrite (run_login_granted req w "123" "public") by done. by simpl.
      * unfold handle.
        change (view secure_filename key_of_text (GalleryLogin true) req w)
          with (gallery_login true req w).
        rewrite run_login_refused by done.
        simpl. intros Ha. by destruct Hna.
    + unfold handle. simpl. intros Ha. by destruct Hna.
    + unfold handle, view, gallery, get_world. rewrite run_bind. cbv beta iota.
      destruct (negb _); simpl; intros Ha; by destruct Hna.
    + unfold handle. by simpl.
Qed.

(** ** [allowed_file] *)

Lemma allowed_file_split (base ext : string) :
  Py.contains "." ext = false →
  allowed_file (base +:+ "." +:+ ext)
  = bool_decide (Py.lower ext ∈ ALLOWED_EXTENSIONS).
Proof.
  intros Hno. unfold allowed_file, Py.rsplit1.
  change ("." +:+ ext) with (String "." ext).
  rewrite rpartition_last by done. simpl.
  destruct (Py.contains "." (base +:+ String "." ext)) eqn:Hc; [done|].
  apply rpartition_none in Hc. by rewrite rpartition_last in Hc.
Qed.

(** X4.  [allowed_file] looks at nothing but the text after the last dot:
    a name passes exactly when it has a dot and that text, in lower case,
    is one of [png], [jpg], [jpeg], [gif], [webp].  So a name without a dot
    is refused, and two names whose extensions differ only in case fare the
    same, whatever stands before the dot. *)
Theorem allowed_file_by_extension (s : string) :
  (allowed_file s = true ↔
   ∃ base ext, s = base +:+ "." +:+ ext ∧
               Py.contains "." ext = false ∧
               Py.lower ext ∈ ["png"; "jpg"; "jpeg"; "gif"; "webp"]) ∧
  (Py.contains "." s = false → allowed_file s = false) ∧
  (∀ base base' ext ext',
     Py.contains "." ext = false → Py.contains "." ext' = false →
     Py.lower ext = Py.lower ext' →
     allowed_file (base +:+ "." +:+ ext) = allowed_file (base' +:+ "." +:+ ext')).
Proof.
  split; [|split].
  - rewrite allowed_file_extension. unfold ALLOWED_EXTENSIONS.
    split; intros (base & ext & Hs & Hno & Hext); exists base, ext;
      (split; [done|]; split; [done|]).
    + by apply elem_of_list_to_set in Hext.
    + by apply elem_of_list_to_set.
  - intros Hno. unfold allowed_file. by rewrite Hno.
  - intros base base' ext ext' Hno Hno' Hl.
    rewrite !allowed_file_split by done. by rewrite Hl.
Qed.

(** ** [delete_image] *)

(** X5.  [delete_image] of an existing image, run by an admin: the rows
    with that key leave the image table, the file the row names leaves the
    upload directory, and the success message is flashed.  This also goes
    through when the file is not there any more.  The cards, the other
    image rows and the other files stay. *)
Theorem delete_image_removes_row_and_file (image_id : Z) (i : Image.t) (w : world) :
  gallery_access w = Some "admin" →
  clean w →
  commit_error (engine w) = None →
  find_image image_id (images (committed w)) = Some i →
  ∃ w',
    delete_image image_id w = (Return (Redirect "gallery"), w') ∧
    cards (committed w') = cards (committed w) ∧
    images (committed w')
      = filter (λ j, Image.id j ≠ image_id) (images (committed w)) ∧
    (i ∉ images (committed w')) ∧
    uploads w' = uploads w ∖ {[Image.filename i]} ∧
    flashed w' = (flashed w ++ [("Image deleted.", "success")])%list.
Proof.
  clear secure_filename key_of_text.
  intros Ha [Hp Ht] Hcommit Hfind.
  assert (Image.id i = image_id) as Hid.
  { unfold find_image in Hfind. apply find_some in Hfind as [_ Hid].
    by apply bool_decide_eq_true in Hid. }
  unfold delete_image. rewrite admin_only_granted by done.
  unfold Image_query_get_or_404, get_world. rewrite !run_bind. cbv beta iota.
  rewrite Ht, Hfind. cbv beta iota delta [mret M_ret]. rewrite run_bind.
  destruct (run_remove_quietly (Image.filename i) w)
    as (w1 & -> & _ & Hc1 & Ht1 & Hp1 & He1 & Hf1 & Hu1).
  cbv beta iota.
  erewrite record_commit_ok; [|by rewrite Hp1|by rewrite He1|reflexivity].
  rewrite run_bind, run_flash. cbv beta iota delta [mret M_ret].
  eexists. split; [reflexivity|]. simpl.
  rewrite Ht1, Ht, Hid, Hf1, Hu1. split; [done|]. split; [done|].
  split.
  { intros Hin. apply list_elem_of_filter in Hin as [Hne _]. done. }
  split; [|done]. simpl. set_solver.
Qed.

(** ** Requests without a target *)

Lemma run_key_not_found {A} (key : Z) (w : world) :
  ∃ e, @key_not_found A key w = (Raise e, w) ∧
       match class_of e with HTTPNotFound => 404 | _ => 500 end
       = if sqlite_int key then 404 else 500.
Proof.
  unfold key_not_found, raise. destruct (sqlite_int key); eexists; by split.
Qed.

(** X6.  [edit_card], [delete_card] and [delete_image] on a key that no row
    has change nothing: nothing is renamed, no row and no file is removed,
    and nothing is flashed.  The answer is 404 when the key fits the integer
    column of the store; a key that does not fit cannot be bound by the
    lookup, and the answer is a server error. *)
Theorem unknown_key_is_not_found (id : Z) (req : request) (w : world) :
  gallery_access w = Some "admin" →
  clean w →
  let status := if sqlite_int id then 404 else 500 in
  (find_card id (cards (committed w)) = None →
   handle secure_filename key_of_text (EditCardR id) req w
     = (Some (Abort status), w) ∧
   handle secure_filename key_of_text (DeleteCardR id) req w
     = (Some (Abort status), w)) ∧
  (find_image id (images (committed w)) = None →
   handle secure_filename key_of_text (DeleteImageR id) req w
     = (Some (Abort status), w)).
Proof.
  intros Ha Hclean. pose proof Hclean as [Hp Ht]. cbv zeta.
  split.
  - intros Hfind.
    destruct (run_key_not_found (A := Card.t) id w) as (e & Hrun & Hstatus).
    split.
    + unfold handle, view, edit_card. rewrite admin_only_granted by done.
      unfold Card_query_get_or_404, get_world. rewrite !run_bind. cbv beta iota.
      rewrite Ht, Hfind, Hrun, Hstatus. f_equal. by apply teardown_of_clean.
    + unfold handle, view, delete_card. rewrite admin_only_granted by done.
      unfold Card_query_get_or_404, get_world. rewrite !run_bind. cbv beta iota.
      rewrite Ht, Hfind, Hrun, Hstatus. f_equal. by apply teardown_of_clean.
  - intros Hfind.
    destruct (run_key_not_found (A := Image.t) id w) as (e & Hrun & Hstatus).
    unfold handle, view, delete_image. rewrite admin_only_granted by done.
    unfold Image_query_get_or_404, get_world. rewrite !run_bind. cbv beta iota.
    rewrite Ht, Hfind, Hrun, Hstatus. f_equal. by apply teardown_of_clean.
Qed.

(** X7.  An upload with nowhere to go writes nothing.  [upload_image] whose
    [card_id] finds no card flashes "Card not found." before it looks at
    any file, so even allowed files are not stored; [upload_folder] with an
    empty file list flashes "No folder or files selected." and creates no
    card.  Both redirect to the gallery. *)
Theorem upload_without_target_stores_nothing (req : request) (w : world) :
  gallery_access w = Some "admin" →
  clean w →
  ((form_get req "card_id" ≫= key_of_text)
     ≫= (λ k, find_card k (cards (committed w))) = None →
   handle secure_filename key_of_text UploadImageR req w
   = (Some (Redirect "gallery"),
      set_flashed (flashed w ++ [("Card not found.", "error")]) w)) ∧
  (files_getlist req "folder_files" = [] →
   handle secure_filename key_of_text UploadFolderR req w
   = (Some (Redirect "gallery"),
      set_flashed (flashed w ++ [("No folder or files selected.", "error")]) w)).
Proof.
  intros Ha Hclean. pose proof Hclean as [Hp Ht].
  assert (∀ msgs, teardown (set_flashed msgs w) = set_flashed msgs w) as Htd.
  { intros msgs. apply teardown_of_clean. by split. }
  split.
  - intros Hcard. unfold handle, view, upload_image.
    rewrite admin_only_granted by done.
    unfold Card_query_get, get_world. rewrite !run_bind. cbv beta iota.
    cbv beta iota delta [mret M_ret]. rewrite Ht, Hcard.
    rewrite run_bind, run_flash. cbv beta iota. by rewrite Htd.
  - intros Hfiles. unfold handle, view, upload_folder.
    rewrite admin_only_granted by done. rewrite Hfiles.
    rewrite run_bind, run_flash. cbv beta iota delta [mret M_ret]. by rewrite Htd.
Qed.

(** ** [upload_folder], the whole batch *)

(** X8.  When nothing fails, [upload_folder] stores every file of the batch
    whose name passes [allowed_file], each under the name [save_file] picks
    in its turn, and commits one image row per stored file, all belonging
    to the card it has just created.  The other files are passed over in
    silence: the only message flashed is the final one, which counts the
    stored files. *)
Theorem upload_folder_stores_allowed_files (req : request) (first : FileStorage)
    (rest : list FileStorage) (w : world) :
  gallery_access w = Some "admin" →
  clean w →
  files_getlist req "folder_files" = first :: rest →
  engine w = no_faults →
  (∀ f, f ∈ accepted (first :: rest) → save_error f = None) →
  let k := next_id (Card.id <$> cards (committed w)) in
  let names := stored_names (uploads w)
                 ((λ f, secure_filename (filename f)) <$> accepted (first :: rest)) in
  ∃ w' new,
    upload_folder secure_filename req w = (Return (Redirect "gallery"), w') ∧
    images (committed w') = (images (committed w) ++ new)%list ∧
    (λ i, (Image.filename i, Image.card_id i)) <$> new = (λ n, (n, k)) <$> names ∧
    uploads w' = list_to_set names ∪ uploads w ∧
    NoDup names ∧
    (∀ n, n ∈ names → n ∉ uploads w) ∧
    flashed w' = (flashed w ++
      [("Folder " +:+ dq +:+ folder_card_name (filename first) +:+ dq
        +:+ " created with " +:+ Py.str_nat (length (accepted (first :: rest)))
        +:+ " images.", "success")])%list.
Proof.
  clear key_of_text.
  intros Ha Hclean Hfiles Hengine Hok. cbv zeta.
  destruct (upload_folder_try_ok secure_filename first rest w Hclean Hengine Hok)
    as (w1 & Htry & _ & Hc & _ & _ & Hu & Hf).
  destruct (insert_images_app (images (committed w))
              (stored_names (uploads w)
                 ((λ f, secure_filename (filename f)) <$> accepted (first :: rest)))
              (next_id (Card.id <$> cards (committed w)))) as (new & Hins & Hnew).
  destruct (stored_names_fresh (uploads w)
              ((λ f, secure_filename (filename f)) <$> accepted (first :: rest)))
    as [Hnd Hfresh].
  exists w1, new. split; [by eapply run_upload_folder_return|].
  split; [by rewrite Hc, <-Hins|]. by repeat split.
Qed.

(** ** What holds in every reachable world *)

(** X9.  In every world the application reaches from an empty store, as
    long as no request to [delete_card] or [delete_image] has ended in a
    server error, each image row names a file that is in the upload
    directory, and no two image rows name the same file.  The other routes
    keep this whatever fails in them. *)
Theorem reachable_rows_have_their_files (w : world) :
  reachable secure_filename key_of_text w →
  ∀ i, i ∈ images (committed w) →
       Image.filename i ∈ uploads w ∧
       ∀ j, j ∈ images (committed w) → Image.filename j = Image.filename i → j = i.
Proof.
  intros Hreach i Hi.
  apply reachable_files_consistent in Hreach as [_ [Hnd Hin]].
  split; [by apply Hin|].
  intros j Hj Hname. by eapply NoDup_fmap_inj_on.
Qed.

(** ** Every request is answered *)

Lemma record_commit_answers {A} (op : pending_op) (k : M A) (w w' : world)
    (o : outcome A) :
  (∀ w2 o2 w2', k w2 = (o2, w2') → o2 ≠ OutOfFuel) →
  (session_record op;; session_commit;; k) w = (o, w') →
  o ≠ OutOfFuel.
Proof.
  intros Hk. rewrite run_bind, run_session_record. cbv beta iota. rewrite run_bind.
  destruct (session_commit (set_pending (pending w ++ [op]) w)) as [o1 w1] eqn:Hcommit.
  apply session_commit_any in Hcommit as (_ & _ & [(e & -> & _)|(ks & -> & _)]).
  - by intros [= <- <-].
  - apply Hk.
Qed.

Lemma flash_redirect_answers (msg cat target : string) (w w' : world)
    (o : outcome response) :
  (flash msg cat;; mret (Redirect target)) w = (o, w') → o ≠ OutOfFuel.
Proof. rewrite run_bind, run_flash. by intros [= <- <-]. Qed.

Lemma delete_image_answers (image_id : Z) (w w' : world) (o : outcome response) :
  delete_image image_id w = (o, w') → o ≠ OutOfFuel.
Proof.
  intros Hrun. unfold delete_image in Hrun.
  apply admin_only_cases in Hrun as [[-> ->]|[_ Hrun]]; [done|].
  unfold Image_query_get_or_404, get_world in Hrun. rewrite !run_bind in Hrun.
  cbv beta iota in Hrun.
  destruct (find_image image_id (images (txn w))) as [i|];
    cbv beta iota delta [mret M_ret raise key_not_found] in Hrun;
    [|destruct (sqlite_int _); by simplify_eq/=].
  rewrite run_bind in Hrun.
  destruct (run_remove_quietly (Image.filename i) w) as (w1 & Hrm & _).
  rewrite Hrm in Hrun. cbv beta iota in Hrun.
  eapply record_commit_answers; [|exact Hrun].
  intros w2 o2 w2'. apply flash_redirect_answers.
Qed.

Lemma delete_card_answers (card_id : Z) (w w' : world) (o : outcome response) :
  delete_card card_id w = (o, w') → o ≠ OutOfFuel.
Proof.
  intros Hrun. unfold delete_card in Hrun.
  apply admin_only_cases in Hrun as [[-> ->]|[_ Hrun]]; [done|].
  unfold Card_query_get_or_404, Card_images, get_world in Hrun.
  rewrite !run_bind in Hrun. cbv beta iota in Hrun.
  destruct (find_card card_id (cards (txn w))) as [c|];
    cbv beta iota delta [mret M_ret raise key_not_found] in Hrun;
    [|destruct (sqlite_int _); by simplify_eq/=].
  rewrite !run_bind in Hrun. cbv beta iota delta [mret M_ret] in Hrun.
  destruct (run_remove_loop
              (filter (λ i, Image.card_id i = Card.id c) (images (txn w))) w)
    as (w1 & Hrm & _).
  rewrite Hrm in Hrun. cbv beta iota in Hrun.
  eapply record_commit_answers; [|exact Hrun].
  intros w2 o2 w2'. apply flash_redirect_answers.
Qed.

Lemma upload_image_answers (req : request) (w w' : world) (o : outcome response) :
  upload_image secure_filename key_of_text req w = (o, w') → o ≠ OutOfFuel.
Proof.
  intros Hrun. unfold upload_image in Hrun.
  apply admin_only_cases in Hrun as [[-> ->]|[_ Hrun]]; [done|].
  unfold Card_query_get, get_world in Hrun. rewrite !run_bind in Hrun.
  cbv beta iota delta [mret M_ret] in Hrun.
  match type of Hrun with context [match ?x with Some _ => _ | None => _ end] =>
    destruct x as [card|] end.
  2: { by eapply flash_redirect_answers. }
  rewrite run_bind in Hrun.
  destruct (for_each (files_getlist req "image") 0%nat
              (upload_image_step secure_filename card) w) as [o1 w1] eqn:Hloop.
  apply image_loop_any in Hloop as [Ho1 _].
  destruct o1 as [n|e|]; [| |done].
  2: { by injection Hrun as <- <-. }
  rewrite run_bind in Hrun. destruct (Nat.ltb 0 n).
  - rewrite run_bind in Hrun.
    destruct (session_commit w1) as [o2 w2] eqn:Hcommit.
    apply session_commit_any in Hcommit as (_ & _ & [(e & -> & _)|(ks & -> & _)]).
    + by injection Hrun as <- <-.
    + rewrite run_flash in Hrun. by injection Hrun as <- <-.
  - rewrite run_flash in Hrun. by injection Hrun as <- <-.
Qed.

Lemma upload_folder_answers (req : request) (w w' : world) (o : outcome response) :
  clean w →
  upload_folder secure_filename req w = (o, w') → o ≠ OutOfFuel.
Proof.
  intros Hclean Hrun. unfold upload_folder in Hrun.
  apply admin_only_cases in Hrun as [[-> ->]|[_ Hrun]]; [done|].
  destruct (files_getlist req "folder_files") as [|first rest].
  { by eapply flash_redirect_answers. }
  rewrite run_bind in Hrun. unfold try_except in Hrun.
  destruct (upload_folder_try secure_filename (first :: rest) w) as [o1 w1] eqn:Htry.
  apply upload_folder_try_any in Htry as (_ & _ & _ & Hcases); [|done].
  destruct o1 as [[]|e|]; [| |done].
  - by injection Hrun as <- <-.
  - cbv beta iota delta [upload_folder_except session_rollback modify flash
                         mbind M_bind mret M_ret class_of except_Exception] in Hrun.
    by injection Hrun as <- <-.
Qed.

(** X10.  Every request is answered, whatever the route, the form, the
    files, the rows of the store, the content of the upload directory and
    the faults of the storage engine: the only loop of the application, in
    [save_file], ends, so that each route returns a response or ends in an
    error page, and the session it leaves is ready for the next request. *)
Theorem every_request_is_answered (r : route) (req : request) (w : world) :
  clean w →
  ∃ resp w', handle secure_filename key_of_text r req w = (Some resp, w') ∧
             clean w'.
Proof.
  intros Hclean.
  assert (∀ o w', view secure_filename key_of_text r req w = (o, w') →
                  o ≠ OutOfFuel) as Hview.
  { intros o w' Hrun. destruct (admin_route r) eqn:Hr.
    - destruct r; try discriminate Hr; simpl in Hrun.
      + by apply add_card_any in Hrun as (Ho & _).
      + by apply edit_card_any in Hrun as (Ho & _).
      + by eapply upload_image_answers.
      + by eapply upload_folder_answers.
      + by eapply delete_card_answers.
      + by eapply delete_image_answers.
    - by apply gallery_routes_any in Hrun as (Ho & _). }
  unfold handle.
  destruct (view secure_filename key_of_text r req w) as [o w'] eqn:Hrun.
  specialize (Hview o w' eq_refl).
  destruct o as [resp|e|]; [| |done]; eexists _, _; (split; [reflexivity|]);
    apply teardown_clean.
Qed.

(** ** Only the deleting routes remove anything *)

Lemma upload_image_grows (req : request) (w w' : world) (o : outcome response) :
  clean w →
  upload_image secure_filename key_of_text req w = (o, w') →
  uploads w ⊆ uploads w' ∧
  cards (committed w') = cards (committed w) ∧
  ∃ new, images (committed w') = (images (committed w) ++ new)%list.
Proof.
  intros [Hp Ht] Hrun. unfold upload_image in Hrun.
  apply admin_only_cases in Hrun as [[-> ->]|[_ Hrun]].
  { split; [done|]. split; [done|]. exists []. by rewrite app_nil_r. }
  unfold Card_query_get, get_world in Hrun. rewrite !run_bind in Hrun.
  cbv beta iota delta [mret M_ret] in Hrun.
  match type of Hrun with context [match ?x with Some _ => _ | None => _ end] =>
    destruct x as [card|] end.
  2: { rewrite run_bind, run_flash in Hrun. injection Hrun as <- <-.
       split; [done|]. split; [done|]. exists []. by rewrite app_nil_r. }
  rewrite run_bind in Hrun.
  destruct (for_each (files_getlist req "image") 0%nat
              (upload_image_step secure_filename card) w) as [o1 w1] eqn:Hloop.
  apply image_loop_any in Hloop
    as [Ho1 (originals & msgs & Ha1 & Hc1 & Ht1 & He1 & Hp1 & Hu1 & Hf1)].
  assert (uploads w ⊆ uploads w1) as Hsub by (rewrite Hu1; set_solver).
  destruct o1 as [n|e|]; [| |done].
  2: { injection Hrun as <- <-. split; [done|]. rewrite Hc1. split; [done|].
       exists []. by rewrite app_nil_r. }
  rewrite run_bind in Hrun. destruct (Nat.ltb 0 n).
  - rewrite run_bind in Hrun.
    destruct (session_commit w1) as [o2 w2] eqn:Hcommit.
    apply session_commit_any in Hcommit as (_ & Hu2 & [(e & -> & Hc2)|(ks & -> & Hops)]).
    + injection Hrun as <- <-. rewrite Hu2, Hc2, Hc1. split; [done|]. split; [done|].
      exists []. by rewrite app_nil_r.
    + rewrite run_flash in Hrun. injection Hrun as <- <-. simpl. rewrite Hu2.
      split; [done|].
      rewrite Hp1, Hp, Ht1, Ht in Hops. simpl in Hops.
      destruct (apply_ops_add_images (committed w) []
                  (stored_names (uploads w) originals) (Card.id card)) as [ks' Hops'].
      rewrite Hops' in Hops. injection Hops as Hcm _. rewrite <-Hcm. simpl.
      split; [done|].
      destruct (insert_images_app (images (committed w))
                  (stored_names (uploads w) originals) (Card.id card))
        as (new & -> & _).
      by exists new.
  - rewrite run_flash in Hrun. injection Hrun as <- <-. simpl. rewrite Hc1.
    split; [done|]. split; [done|]. exists []. by rewrite app_nil_r.
Qed.

Lemma upload_folder_grows (req : request) (w w' : world) (o : outcome response) :
  clean w →
  upload_folder secure_filename req w = (o, w') →
  uploads w ⊆ uploads w' ∧
  (∃ new, cards (committed w') = (cards (committed w) ++ new)%list) ∧
  ∃ new, images (committed w') = (images (committed w) ++ new)%list.
Proof.
  intros Hclean Hrun. unfold upload_folder in Hrun.
  apply admin_only_cases in Hrun as [[-> ->]|[_ Hrun]].
  { split; [done|]. split; exists []; by rewrite app_nil_r. }
  destruct (files_getlist req "folder_files") as [|first rest].
  { rewrite run_bind, run_flash in Hrun. injection Hrun as <- <-.
    split; [done|]. split; exists []; by rewrite app_nil_r. }
  rewrite run_bind in Hrun. unfold try_except in Hrun.
  destruct (upload_folder_try secure_filename (first :: rest) w) as [o1 w1] eqn:Htry.
  apply upload_folder_try_any in Htry as (Hsub & _ & _ & Hcases); [|done].
  destruct o1 as [[]|e|]; [| |done].
  - destruct Hcases as (originals & Hc & Hu).
    injection Hrun as <- <-. split; [done|]. rewrite Hc. simpl.
    split; [by eexists|].
    destruct (insert_images_app (images (committed w))
                (stored_names (uploads w) originals)
                (next_id (Card.id <$> cards (committed w)))) as (new & -> & _).
    by exists new.
  - destruct Hcases as [Hc _].
    cbv beta iota delta [upload_folder_except session_rollback modify flash
                         mbind M_bind mret M_ret class_of except_Exception] in Hrun.
    injection Hrun as <- <-. simpl. rewrite Hc.
    split; [done|]. split; exists []; by rewrite app_nil_r.
Qed.

(** X11.  No route other than [delete_card] and [delete_image] ever removes
    a file or an image row, whatever the request and whatever fails in it:
    after the request every file of the upload directory is still there,
    and the old image rows are still the first rows of the image table. *)
Theorem only_deleting_routes_remove (r : route) (req : request) (w : world) :
  clean w →
  deleting r = false →
  uploads w ⊆ uploads (handle secure_filename key_of_text r req w).2 ∧
  ∃ new, images (committed (handle secure_filename key_of_text r req w).2)
         = (images (committed w) ++ new)%list.
Proof.
  intros Hclean Hdel.
  assert (∀ o w', view secure_filename key_of_text r req w = (o, w') →
                  uploads w ⊆ uploads w' ∧
                  ∃ new, images (committed w') = (images (committed w) ++ new)%list)
    as Hview.
  { intros o w' Hrun. destruct (admin_route r) eqn:Hr.
    - destruct r; try discriminate Hr; try discriminate Hdel; simpl in Hrun.
      + apply add_card_any in Hrun as (_ & Hi & Hu); [|done].
        rewrite Hu, Hi. split; [done|]. exists []. by rewrite app_nil_r.
      + apply edit_card_any in Hrun as (_ & Hi & Hu); [|done].
        rewrite Hu, Hi. split; [done|]. exists []. by rewrite app_nil_r.
      + apply upload_image_grows in Hrun as (Hu & _ & Hi); done.
      + apply upload_folder_grows in Hrun as (Hu & _ & Hi); done.
    - apply gallery_routes_any in Hrun as (_ & Hc & Hu); [|done].
      rewrite Hu, Hc. split; [done|]. exists []. by rewrite app_nil_r. }
  unfold handle.
  destruct (view secure_filename key_of_text r req w) as [o w'] eqn:Hrun.
  destruct (Hview o w' eq_refl) as [Hu Hi].
  destruct o; simpl; done.
Qed.

(** ** Cards the gallery cannot show *)



(** X13.  [upload_folder] takes the card name from the first path without
    looking at it: when the path starts with a slash, the text before the
    first slash is empty, and a top-level card with the empty name is
    committed. *)
Theorem upload_folder_leading_slash_empty_name (req : request) (first : FileStorage)
    (rest : list FileStorage) (tail : string) (w : world) :
  gallery_access w = Some "admin" →
  clean w →
  files_getlist req "folder_files" = first :: rest →
  filename first = "/" +:+ tail →
  engine w = no_faults →
  (∀ f, f ∈ accepted (first :: rest) → save_error f = None) →
  ∃ w', upload_folder secure_filename req w = (Return (Redirect "gallery"), w') ∧
        cards (committed w')
          = (cards (committed w)
             ++ [Card.mk (next_id (Card.id <$> cards (committed w))) "" None])%list.
Proof.
  intros Ha Hclean Hfiles Hname Hengine Hok.
  destruct (upload_folder_try_ok secure_filename first rest w Hclean Hengine Hok)
    as (w1 & Htry & _ & Hc & _).
  exists w1. split; [by eapply run_upload_folder_return|].
  rewrite Hc, Hname. simpl.
  change ("/" +:+ tail) with ("" +:+ "/" +:+ tail).
  by rewrite folder_card_name_folder.
Qed.

(** ** Failures that leave files and rows apart *)

Lemma for_each_app {A B} (xs ys : list A) (acc : B) (body : B → A → M B) (w : world) :
  for_each (xs ++ ys) acc body w =
  (for_each xs acc body ≫= λ acc', for_each ys acc' body) w.
Proof.
  revert acc w. induction xs as [|x xs IH]; intros acc w; [done|].
  rewrite <-app_comm_cons, for_each_cons, !run_bind, for_each_cons, run_bind.
  destruct (body acc x w) as [[acc'| |] w1]; [|done..].
  by rewrite IH, run_bind.
Qed.

(** X14.  [upload_image] has no handler around its loop.  When the write of
    an allowed file fails in the middle of a batch, the request ends in a
    server error and commits no image row, not even for the files it had
    already stored; those files stay in the upload directory. *)
Theorem upload_image_failed_write_leaves_files (req : request) (card : Card.t)
    (before after : list FileStorage) (bad : FileStorage) (e : string) (w : world) :
  gallery_access w = Some "admin" →
  clean w →
  (form_get req "card_id" ≫= key_of_text) ≫= (λ k, find_card k (cards (committed w)))
    = Some card →
  files_getlist req "image" = (before ++ bad :: after)%list →
  (∀ f, f ∈ accepted before → save_error f = None) →
  allowed_file (filename bad) = true →
  save_error bad = Some e →
  let names := stored_names (uploads w)
                 ((λ f, secure_filename (filename f)) <$> accepted before) in
  ∃ w', handle secure_filename key_of_text UploadImageR req w = (Some (Abort 500), w') ∧
        committed w' = committed w ∧
        uploads w' = list_to_set names ∪ uploads w ∧
        length names = length (accepted before) ∧
        flashed w' = (flashed w ++ rejection_warnings before)%list.
Proof.
  intros Ha [Hp Ht] Hcard Hfiles Hok Hbad Hfail. cbv zeta.
  unfold handle, view, upload_image. rewrite admin_only_granted by done.
  unfold Card_query_get, get_world. rewrite !run_bind. cbv beta iota.
  cbv beta iota delta [mret M_ret]. rewrite Ht, Hcard.
  rewrite run_bind, Hfiles, for_each_app, run_bind.
  destruct (image_loop_ok secure_filename card before 0 w Hok)
    as (w1 & -> & Ha1 & Hc1 & Ht1 & He1 & Hp1 & Hu1 & Hf1).
  cbv beta iota. rewrite for_each_cons, run_bind.
  unfold upload_image_step at 1. rewrite image_guard, Hbad, run_bind.
  rewrite (run_save_file_fail secure_filename bad w1 e) by done.
  eexists. split; [reflexivity|]. simpl.
  rewrite Hc1, Hu1, Hf1. split; [done|]. split; [done|]. split; [|done].
  by rewrite stored_names_length, length_fmap.
Qed.

Lemma run_delete_card_files (card_id : Z) (c : Card.t) (w : world) :
  gallery_access w = Some "admin" →
  clean w →
  find_card card_id (cards (committed w)) = Some c →
  ∃ w1, delete_card card_id w =
        (session_record (DeleteCard card_id);; session_commit;;
         flash ("Card " +:+ dq +:+ Card.name c +:+ dq
                +:+ " and all its contents deleted.") "success";;
         mret (Redirect "gallery")) w1 ∧
        only_removed
          (Image.filename
             <$> filter (λ i, Image.card_id i = card_id) (images (committed w)))
          w w1.
Proof.
  intros Ha [Hp Ht] Hfind.
  destruct (find_card_id _ _ _ Hfind) as [Hid _].
  unfold delete_card. rewrite admin_only_granted by done.
  unfold Card_query_get_or_404, Card_images, get_world.
  rewrite !run_bind. cbv beta iota. rewrite Ht, Hfind.
  cbv beta iota delta [mret M_ret]. rewrite !run_bind.
  cbv beta iota delta [mret M_ret]. rewrite Ht, Hid.
  destruct (run_remove_loop
              (filter (λ i, Image.card_id i = card_id) (images (committed w))) w)
    as (w1 & -> & Hrm).
  exists w1. split; [reflexivity|done].
Qed.

(** X15.  Both deleting routes remove files before they commit.  When that
    commit fails, the request ends in a server error with the rows still in
    the store and their files gone: [delete_card] has removed the files of
    the card's own images, [delete_image] the file of the image. *)
Theorem delete_failed_commit_loses_files (id : Z) (req : request) (e : string)
    (w : world) :
  gallery_access w = Some "admin" →
  clean w →
  commit_error (engine w) = Some e →
  (∀ c, find_card id (cards (committed w)) = Some c →
     ∃ w', handle secure_filename key_of_text (DeleteCardR id) req w
             = (Some (Abort 500), w') ∧
           committed w' = committed w ∧
           uploads w' = uploads w ∖ list_to_set
             (Image.filename
                <$> filter (λ i, Image.card_id i = id) (images (committed w)))) ∧
  (∀ i, find_image id (images (committed w)) = Some i →
     ∃ w', handle secure_filename key_of_text (DeleteImageR id) req w
             = (Some (Abort 500), w') ∧
           committed w' = committed w ∧
           uploads w' = uploads w ∖ {[Image.filename i]}).
Proof.
  intros Ha Hclean Hcommit. pose proof Hclean as [Hp Ht]. split.
  - intros c Hfind.
    destruct (run_delete_card_files id c w Ha Hclean Hfind)
      as (w1 & Hrun & _ & Hc1 & Ht1 & Hp1 & He1 & Hf1 & Hu1).
    unfold handle, view. rewrite Hrun.
    rewrite run_bind, run_session_record. cbv beta iota.
    rewrite run_bind, (run_commit_fault _ e) by (simpl; by rewrite He1).
    eexists. split; [reflexivity|]. simpl. by rewrite Hc1, Hu1.
  - intros i Hfind.
    unfold handle, view, delete_image. rewrite admin_only_granted by done.
    unfold Image_query_get_or_404, get_world. rewrite !run_bind. cbv beta iota.
    rewrite Ht, Hfind. cbv beta iota delta [mret M_ret]. rewrite run_bind.
    destruct (run_remove_quietly (Image.filename i) w)
      as (w1 & -> & _ & Hc1 & Ht1 & Hp1 & He1 & Hf1 & Hu1).
    cbv beta iota.
    rewrite run_bind, run_session_record. cbv beta iota.
    rewrite run_bind, (run_commit_fault _ e) by (simpl; by rewrite He1).
    eexists. split; [reflexivity|]. simpl. rewrite Hc1, Hu1.
    split; [done|]. simpl. set_solver.
Qed.

(** ** Uploading a folder and deleting it again *)

Lemma next_id_above (ids : list Z) (x : Z) : x ∈ ids → x < next_id ids.
Proof.
  unfold next_id. induction ids as [|y ids IH]; [by intros ?%elem_of_nil|].
  intros [->|Hx]%elem_of_cons; simpl; [lia|]. specialize (IH Hx). lia.
Qed.

Lemma find_card_new (cs : list Card.t) (c : Card.t) :
  (∀ x, x ∈ cs → Card.id x ≠ Card.id c) →
  find_card (Card.id c) (cs ++ [c]) = Some c.
Proof.
  unfold find_card. induction cs as [|x cs IH]; intros Hne; simpl.
  - by rewrite bool_decide_eq_true_2.
  - rewrite bool_decide_eq_false_2 by (apply Hne; by left).
    apply IH. intros y Hy. apply Hne. by right.
Qed.

Lemma filter_all {A} (P : A → Prop) `{!∀ x, Decision (P x)} (l : list A) :
  (∀ x, x ∈ l → P x) → filter P l = l.
Proof.
  induction l as [|x l IH]; intros Hall; [done|].
  rewrite filter_cons_True by (apply Hall; by left).
  f_equal. apply IH. intros y Hy. apply Hall. by right.
Qed.

Lemma filter_none {A} (P : A → Prop) `{!∀ x, Decision (P x)} (l : list A) :
  (∀ x, x ∈ l → ¬ P x) → filter P l = [].
Proof.
  induction l as [|x l IH]; intros Hall; [done|].
  rewrite filter_cons_False by (apply Hall; by left).
  apply IH. intros y Hy. apply Hall. by right.
Qed.

(** A card without children takes no other card with it. *)
Lemma doomed_leaf (cs : list Card.t) (k : Z) :
  cs ≠ [] →
  (∀ c, c ∈ cs → Card.parent_id c ≠ Some k) →
  doomed cs k = [k].
Proof.
  intros Hne Hleaf. unfold doomed.
  destruct cs as [|c0 cs']; [done|]. simpl length. rewrite cascade_unfold.
  assert (cascade_front (c0 :: cs') [k] = []) as ->; [|done].
  unfold cascade_front. apply filter_none. intros c Hc [Hpar _].
  apply list_elem_of_fmap in Hpar as (p & Hp & Hin).
  apply list_elem_of_singleton in Hin as ->. by apply (Hleaf c).
Qed.

(** X16.  Uploading a folder and then deleting the card it created brings
    the store and the upload directory back to where they were: the card
    and the image rows of the batch are gone again, and so is every file
    the batch wrote, since all of them belong to the card itself.  (No row
    of the store may already refer to the key the new card gets.) *)
Theorem upload_folder_then_delete_card_restores (req : request) (first : FileStorage)
    (rest : list FileStorage) (w : world) :
  gallery_access w = Some "admin" →
  clean w →
  files_getlist req "folder_files" = first :: rest →
  engine w = no_faults →
  (∀ f, f ∈ accepted (first :: rest) → save_error f = None) →
  let k := next_id (Card.id <$> cards (committed w)) in
  (∀ c, c ∈ cards (committed w) → Card.parent_id c ≠ Some k) →
  (∀ i, i ∈ images (committed w) → Image.card_id i ≠ k) →
  ∃ w1 w2,
    upload_folder secure_filename req w = (Return (Redirect "gallery"), w1) ∧
    delete_card k w1 = (Return (Redirect "gallery"), w2) ∧
    committed w2 = committed w ∧
    uploads w2 = uploads w ∧
    clean w2.
Proof.
  clear key_of_text.
  intros Ha Hclean Hfiles Hengine Hok k Hnochild Hnoimage.
  destruct (upload_folder_try_ok secure_filename first rest w Hclean Hengine Hok)
    as (w1 & Htry & Ha1 & Hc1 & Ht1 & Hp1 & Hu1 & _).
  pose proof (upload_folder_try_any secure_filename _ _ _ _ _ Hclean Htry)
    as (_ & _ & He1 & _).
  fold k in Hc1.
  set (names := stored_names (uploads w)
                  ((λ f, secure_filename (filename f)) <$> accepted (first :: rest)))
    in *.
  set (new_card := Card.mk k (folder_card_name (filename first)) None) in *.
  destruct (insert_images_app (images (committed w)) names k) as (new & Hins & Hnew).
  destruct (stored_names_fresh (uploads w)
              ((λ f, secure_filename (filename f)) <$> accepted (first :: rest)))
    as [_ Hfresh]. fold names in Hfresh.
  assert (∀ i, i ∈ new → Image.card_id i = k) as Hnewcard.
  { intros i Hi.
    assert ((Image.filename i, Image.card_id i) ∈ (λ n, (n, k)) <$> names) as Hin.
    { rewrite <-Hnew. by apply (list_elem_of_fmap_2 (λ i, (Image.filename i, Image.card_id i))). }
    apply list_elem_of_fmap in Hin as (n & [= _ ->] & _). done. }
  assert (Image.filename <$> new = names) as Hnewnames.
  { assert (Image.filename <$> new = fst <$> ((λ n, (n, k)) <$> names)) as ->.
    { rewrite <-Hnew, <-list_fmap_compose. done. }
    rewrite <-list_fmap_compose. apply list_fmap_id. }
  assert (∀ x, x ∈ cards (committed w) → Card.id x ≠ k) as Hfreshkey.
  { intros x Hx Heq.
    pose proof (next_id_above (Card.id <$> cards (committed w)) (Card.id x)
                  (list_elem_of_fmap_2 _ _ _ Hx)) as Hlt.
    fold k in Hlt. lia. }
  assert (find_card k (cards (committed w1)) = Some new_card) as Hfind.
  { rewrite Hc1. simpl. apply (find_card_new _ new_card). done. }
  assert (clean w1) as Hclean1 by (by split).
  destruct (run_delete_card_files k new_card w1) as (w1' & Hrun & Hrm); try done.
  { by rewrite Ha1. }
  destruct Hrm as (Ha2 & Hc2 & Ht2 & Hp2 & He2 & Hf2 & Hu2).
  assert (own_ancestor (cards (txn w1')) k = false) as Hown.
  { rewrite Ht2, Ht1. by apply (own_ancestor_false _ _ new_card). }
  exists w1. eexists.
  split; [by eapply run_upload_folder_return|].
  rewrite Hrun.
  erewrite record_commit_ok;
    [|by rewrite Hp2|by rewrite He2, He1, Hengine
     |apply (apply_op_delete_card _ _ Hown)].
  rewrite run_bind, run_flash. cbv beta iota delta [mret M_ret].
  split; [reflexivity|]. simpl.
  rewrite Ht2, Ht1, Hc1, Hu2, Hu1, Hc1. simpl.
  assert (doomed (cards (committed w) ++ [new_card]) k = [k]) as Hdoomed.
  { apply doomed_leaf.
    - by destruct (cards (committed w)).
    - intros c [Hc| ->%list_elem_of_singleton]%elem_of_app; [by apply Hnochild|done]. }
  split; [|split; [|by split]].
  - rewrite Hdoomed, Hins, !filter_app.
    rewrite (filter_all _ (cards (committed w))),
            (filter_all _ (images (committed w))), (filter_none _ new).
    + rewrite filter_cons_False, filter_nil, !app_nil_r; [by destruct (committed w)|].
      intros Hn. apply Hn. simpl. by left.
    + intros i Hi Hn. apply Hn. rewrite (Hnewcard i Hi). by left.
    + intros i Hi Hin. apply list_elem_of_singleton in Hin. by apply (Hnoimage i).
    + intros c Hc Hin. apply list_elem_of_singleton in Hin. by apply (Hfreshkey c).
  - rewrite Hins, filter_app.
    rewrite (filter_none _ (images (committed w))), (filter_all _ new).
    + simpl. rewrite Hnewnames. apply set_eq. intros n. split.
      * intros [[Hn|Hn]%elem_of_union Hnot]%elem_of_difference; done.
      * intros Hn. apply elem_of_difference. split; [apply elem_of_union; by right|].
        intros Hin. apply elem_of_list_to_set in Hin. by apply (Hfresh n).
    + done.
    + intros i Hi. by apply Hnoimage.
Qed.

(** ** What a login allows *)

(** X17.  After a login with the public password the gallery page is
    rendered, but every admin-only route is still refused: it flashes the
    permission message and does nothing else.  After a login with the admin
    password the gallery page is rendered and the guard of the admin-only
    routes lets the route run. *)
Theorem login_level_decides_admin_routes (r : route) (req req' : request) (w : world) :
  clean w →
  admin_route r = true →
  (form_get req "password" = Some "123" →
   ∃ w1, handle secure_filename key_of_text (GalleryLogin true) req w
           = (Some (Redirect "gallery"), w1) ∧
         handle secure_filename key_of_text Gallery req' w1
           = (Some (RenderTemplate "gallery.html"), w1) ∧
         handle secure_filename key_of_text r req' w1
           = (Some (Redirect "gallery"),
              set_flashed
                (flashed w1 ++ [("You do not have permission to do that.", "error")])
                w1)) ∧
  (form_get req "password" = Some "admin123" →
   ∃ w1, handle secure_filename key_of_text (GalleryLogin true) req w
           = (Some (Redirect "gallery"), w1) ∧
         handle secure_filename key_of_text Gallery req' w1
           = (Some (RenderTemplate "gallery.html"), w1) ∧
         ∀ v : M response, admin_only v w1 = v w1).
Proof.
  intros Hclean Hr. split.
  - intros Hp. eexists. split.
    { unfold handle.
      change (view secure_filename key_of_text (GalleryLogin true) req w)
        with (gallery_login true req w).
      rewrite (run_login_granted req w "123" "public") by done.
      rewrite teardown_of_clean; [reflexivity|]. destruct Hclean. by split. }
    split.
    { unfold handle. simpl. f_equal. apply teardown_of_clean.
      destruct Hclean. by split. }
    unfold handle. rewrite admin_route_denied by done.
    f_equal. apply teardown_of_clean. destruct Hclean. by split.
  - intros Hp. eexists. split.
    { unfold handle.
      change (view secure_filename key_of_text (GalleryLogin true) req w)
        with (gallery_login true req w).
      rewrite (run_login_granted req w "admin123" "admin") by done.
      rewrite teardown_of_clean; [reflexivity|]. destruct Hclean. by split. }
    split.
    { unfold handle. simpl. f_equal. apply teardown_of_clean.
      destruct Hclean. by split. }
    intros v. by apply admin_only_granted.
Qed.

(** ** What the gallery lists *)




End Coverage.

(** * The further properties on the worked inputs *)

Lemma gallery_login_accepts_two_passwords_witness :
  form_get (card_form [("password", "admin123")]) "password" = Some "admin123" ∧
  gallery_login true (card_form [("password", "admin123")]) anonymous_world =
  (Return (Redirect "gallery"),
   set_flashed
     (flashed anonymous_world ++ [("Logged in with admin access.", "success")])
     (set_access (Some "admin") anonymous_world)).
Proof.
  split; [vm_compute; reflexivity|].
  destruct (gallery_login_accepts_two_passwords
              (card_form [("password", "admin123")]) anonymous_world)
    as (_ & Hadmin & _).
  apply Hadmin. vm_compute. reflexivity.
Defined.

Lemma gallery_logout_ends_access_witness :
  clean admin_world ∧
  admin_route AddCardR = true ∧
  handle Werkzeug.secure_filename PyInt.int GalleryLogout (card_form []) admin_world
    = (Some (Redirect "home"), set_access None admin_world) ∧
  handle Werkzeug.secure_filename PyInt.int Gallery
    (card_form [("card_name", "Album")]) (set_access None admin_world)
    = (Some (Redirect "gallery_login"), set_access None admin_world) ∧
  handle Werkzeug.secure_filename PyInt.int AddCardR
    (card_form [("card_name", "Album")]) (set_access None admin_world)
    = (Some (Redirect "gallery"),
       set_flashed
         (flashed admin_world ++ [("You do not have permission to do that.", "error")])
         (set_access None admin_world)).
Proof.
  split; [by split|]. split; [reflexivity|].
  pose proof (gallery_logout_ends_access Werkzeug.secure_filename PyInt.int AddCardR
                (card_form []) (card_form [("card_name", "Album")]) admin_world)
    as Hlogout.
  cbv zeta in Hlogout.
  destruct Hlogout as (Hout & Hpage & Hrefused); [by split|].
  split; [exact Hout|]. split; [exact Hpage|]. apply Hrefused. reflexivity.
Defined.

Lemma admin_level_only_by_admin_password_witness :
  gallery_access public_world ≠ Some "admin" ∧
  gallery_access
    (handle Werkzeug.secure_filename PyInt.int (GalleryLogin true)
       (card_form [("password", "admin123")]) public_world).2 = Some "admin" ∧
  GalleryLogin true = GalleryLogin true ∧
  form_get (card_form [("password", "admin123")]) "password" = Some "admin123".
Proof.
  split; [discriminate|]. split; [vm_compute; reflexivity|].
  apply (admin_level_only_by_admin_password Werkzeug.secure_filename PyInt.int
           (GalleryLogin true) (card_form [("password", "admin123")]) public_world);
    [discriminate|vm_compute; reflexivity].
Defined.

Lemma allowed_file_by_extension_witness :
  allowed_file "holiday.photo.JPG" = true ∧
  ∃ base ext, "holiday.photo.JPG" = base +:+ "." +:+ ext ∧
              Py.contains "." ext = false ∧
              Py.lower ext ∈ ["png"; "jpg"; "jpeg"; "gif"; "webp"].
Proof.
  split; [reflexivity|].
  destruct (allowed_file_by_extension "holiday.photo.JPG") as ([Hsplit _] & _).
  apply Hsplit. reflexivity.
Defined.

Lemma delete_image_removes_row_and_file_witness :
  gallery_access nested_world = Some "admin" ∧
  clean nested_world ∧
  commit_error (engine nested_world) = None ∧
  find_image 2 (images (committed nested_world)) = Some (Image.mk 2 "b.jpg" 2) ∧
  ∃ w',
    delete_image 2 nested_world = (Return (Redirect "gallery"), w') ∧
    cards (committed w') = cards (committed nested_world) ∧
    images (committed w')
      = filter (λ j, Image.id j ≠ 2) (images (committed nested_world)) ∧
    (Image.mk 2 "b.jpg" 2 ∉ images (committed w')) ∧
    uploads w' = uploads nested_world ∖ {[Image.filename (Image.mk 2 "b.jpg" 2)]} ∧
    flashed w' = (flashed nested_world ++ [("Image deleted.", "success")])%list.
Proof.
  split; [reflexivity|]. split; [by split|]. split; [reflexivity|].
  split; [reflexivity|].
  apply (delete_image_removes_row_and_file 2 (Image.mk 2 "b.jpg" 2) nested_world);
    [reflexivity|by split|reflexivity|reflexivity].
Defined.

Lemma unknown_key_is_not_found_witness :
  gallery_access nested_world = Some "admin" ∧
  clean nested_world ∧
  find_card 9 (cards (committed nested_world)) = None ∧
  find_image 9 (images (committed nested_world)) = None ∧
  handle Werkzeug.secure_filename PyInt.int (EditCardR 9)
    (card_form [("card_name", "Album")]) nested_world
    = (Some (Abort 404), nested_world) ∧
  handle Werkzeug.secure_filename PyInt.int (DeleteCardR 9)
    (card_form [("card_name", "Album")]) nested_world
    = (Some (Abort 404), nested_world) ∧
  handle Werkzeug.secure_filename PyInt.int (DeleteImageR 9)
    (card_form [("card_name", "Album")]) nested_world
    = (Some (Abort 404), nested_world).
Proof.
  split; [reflexivity|]. split; [by split|]. split; [reflexivity|].
  split; [reflexivity|].
  destruct (unknown_key_is_not_found Werkzeug.secure_filename PyInt.int 9
              (card_form [("card_name", "Album")]) nested_world)
    as (Hcard & Himage); [reflexivity|by split|].
  destruct (Hcard eq_refl) as (Hedit & Hdelete).
  split; [exact Hedit|]. split; [exact Hdelete|]. exact (Himage eq_refl).
Defined.

(** A key that does not fit the integer column is answered by a server
    error, not by 404. *)
Example edit_card_key_too_large :
  handle Werkzeug.secure_filename PyInt.int (EditCardR (2 ^ 63))
    (card_form [("card_name", "Album")]) nested_world
  = (Some (Abort 500), nested_world).
Proof. vm_compute. reflexivity. Qed.

(** A [parent_id] with a separator character in front of the digits is not
    the text of an integer: [add_card] ends in a server error. *)
Example add_card_separator_before_digits :
  handle Werkzeug.secure_filename PyInt.int AddCardR
    (card_form [("card_name", "Album"); ("parent_id", String (ascii_of_nat 28) "7")])
    admin_world
  = (Some (Abort 500), admin_world).
Proof. vm_compute. reflexivity. Qed.

Lemma upload_without_target_stores_nothing_witness :
  gallery_access nested_world = Some "admin" ∧
  clean nested_world ∧
  (form_get (image_request "9" [trip_a]) "card_id" ≫= PyInt.int)
    ≫= (λ k, find_card k (cards (committed nested_world))) = None ∧
  files_getlist (image_request "9" [trip_a]) "folder_files" = [] ∧
  handle Werkzeug.secure_filename PyInt.int UploadImageR
    (image_request "9" [trip_a]) nested_world
    = (Some (Redirect "gallery"),
       set_flashed (flashed nested_world ++ [("Card not found.", "error")])
         nested_world) ∧
  handle Werkzeug.secure_filename PyInt.int UploadFolderR
    (image_request "9" [trip_a]) nested_world
    = (Some (Redirect "gallery"),
       set_flashed (flashed nested_world ++ [("No folder or files selected.", "error")])
         nested_world).
Proof.
  split; [reflexivity|]. split; [by split|]. split; [vm_compute; reflexivity|].
  split; [vm_compute; reflexivity|].
  destruct (upload_without_target_stores_nothing Werkzeug.secure_filename PyInt.int
              (image_request "9" [trip_a]) nested_world)
    as (Himage & Hfolder); [reflexivity|by split|].
  split; [apply Himage|apply Hfolder]; vm_compute; reflexivity.
Defined.

Lemma upload_folder_stores_allowed_files_witness :
  gallery_access nested_world = Some "admin" ∧
  clean nested_world ∧
  files_getlist (folder_request [trip_a; upload "Trip/notes.txt"; trip_b])
    "folder_files" = trip_a :: [upload "Trip/notes.txt"; trip_b] ∧
  engine nested_world = no_faults ∧
  (∀ f, f ∈ accepted (trip_a :: [upload "Trip/notes.txt"; trip_b]) →
        save_error f = None) ∧
  ∃ w' new,
    upload_folder Werkzeug.secure_filename
      (folder_request [trip_a; upload "Trip/notes.txt"; trip_b]) nested_world
      = (Return (Redirect "gallery"), w') ∧
    images (committed w') = (images (committed nested_world) ++ new)%list ∧
    (λ i, (Image.filename i, Image.card_id i)) <$> new
      = (λ n, (n, next_id (Card.id <$> cards (committed nested_world))))
          <$> stored_names (uploads nested_world)
                ((λ f, Werkzeug.secure_filename (filename f))
                   <$> accepted (trip_a :: [upload "Trip/notes.txt"; trip_b])) ∧
    uploads w'
      = list_to_set
          (stored_names (uploads nested_world)
             ((λ f, Werkzeug.secure_filename (filename f))
                <$> accepted (trip_a :: [upload "Trip/notes.txt"; trip_b])))
        ∪ uploads nested_world ∧
    NoDup (stored_names (uploads nested_world)
             ((λ f, Werkzeug.secure_filename (filename f))
                <$> accepted (trip_a :: [upload "Trip/notes.txt"; trip_b]))) ∧
    (∀ n, n ∈ stored_names (uploads nested_world)
                ((λ f, Werkzeug.secure_filename (filename f))
                   <$> accepted (trip_a :: [upload "Trip/notes.txt"; trip_b])) →
          n ∉ uploads nested_world) ∧
    flashed w' = (flashed nested_world ++
      [("Folder " +:+ dq +:+ folder_card_name (filename trip_a) +:+ dq
        +:+ " created with "
        +:+ Py.str_nat (length (accepted (trip_a :: [upload "Trip/notes.txt"; trip_b])))
        +:+ " images.", "success")])%list.
Proof.
  assert (accepted (trip_a :: [upload "Trip/notes.txt"; trip_b]) = [trip_a; trip_b])
    as Hacc by (vm_compute; reflexivity).
  assert (∀ f, f ∈ accepted (trip_a :: [upload "Trip/notes.txt"; trip_b]) →
               save_error f = None) as Hok.
  { intros f Hf. rewrite Hacc in Hf. in_list Hf. }
  split; [reflexivity|]. split; [by split|]. split; [vm_compute; reflexivity|].
  split; [reflexivity|]. split; [exact Hok|].
  apply (upload_folder_stores_allowed_files Werkzeug.secure_filename
           (folder_request [trip_a; upload "Trip/notes.txt"; trip_b])
           trip_a [upload "Trip/notes.txt"; trip_b] nested_world);
    [reflexivity|by split|vm_compute; reflexivity|reflexivity|exact Hok].
Defined.

Lemma reachable_rows_have_their_files_witness :
  reachable Werkzeug.secure_filename PyInt.int
    (handle Werkzeug.secure_filename PyInt.int UploadFolderR
       (folder_request [trip_a; trip_b]) (set_engine no_faults admin_world)).2 ∧
  ∀ i,
    i ∈ images (committed
                  (handle Werkzeug.secure_filename PyInt.int UploadFolderR
                     (folder_request [trip_a; trip_b])
                     (set_engine no_faults admin_world)).2) →
    Image.filename i
      ∈ uploads (handle Werkzeug.secure_filename PyInt.int UploadFolderR
                   (folder_request [trip_a; trip_b])
                   (set_engine no_faults admin_world)).2 ∧
    ∀ j,
      j ∈ images (committed
                    (handle Werkzeug.secure_filename PyInt.int UploadFolderR
                       (folder_request [trip_a; trip_b])
                       (set_engine no_faults admin_world)).2) →
      Image.filename j = Image.filename i → j = i.
Proof.
  assert (reachable Werkzeug.secure_filename PyInt.int
            (handle Werkzeug.secure_filename PyInt.int UploadFolderR
               (folder_request [trip_a; trip_b])
               (set_engine no_faults admin_world)).2) as Hreach.
  { apply reachable_request; [apply reachable_start|discriminate]. }
  split; [exact Hreach|].
  exact (reachable_rows_have_their_files Werkzeug.secure_filename PyInt.int _ Hreach).
Defined.

Lemma every_request_is_answered_witness :
  clean nested_world_commit_fails ∧
  ∃ resp w',
    handle Werkzeug.secure_filename PyInt.int UploadFolderR
      (folder_request [trip_a; trip_b_unwritable]) nested_world_commit_fails
    = (Some resp, w') ∧ clean w'.
Proof.
  split; [by split|].
  apply (every_request_is_answered Werkzeug.secure_filename PyInt.int UploadFolderR
           (folder_request [trip_a; trip_b_unwritable]) nested_world_commit_fails).
  by split.
Defined.

Lemma only_deleting_routes_remove_witness :
  clean nested_world ∧
  deleting UploadFolderR = false ∧
  uploads nested_world
    ⊆ uploads (handle Werkzeug.secure_filename PyInt.int UploadFolderR
                 (folder_request [trip_a; trip_b]) nested_world).2 ∧
  ∃ new,
    images (committed (handle Werkzeug.secure_filename PyInt.int UploadFolderR
                         (folder_request [trip_a; trip_b]) nested_world).2)
    = (images (committed nested_world) ++ new)%list.
Proof.
  split; [by split|]. split; [reflexivity|].
  apply (only_deleting_routes_remove Werkzeug.secure_filename PyInt.int UploadFolderR
           (folder_request [trip_a; trip_b]) nested_world);
    [by split|reflexivity].
Defined.


(** The other case of X12: with the key the new card gets as [parent_id],
    the card is its own child. *)
Example add_card_own_key_is_own_child :
  Card.mk 1 "Album" (Some 1)
    ∈ Card_children (committed self_parent_world) (Card.mk 1 "Album" (Some 1)).
Proof. vm_compute. set_solver. Qed.

Lemma upload_folder_leading_slash_empty_name_witness :
  gallery_access admin_world = Some "admin" ∧
  clean admin_world ∧
  files_getlist (folder_request [upload "/a.jpg"]) "folder_files"
    = upload "/a.jpg" :: [] ∧
  filename (upload "/a.jpg") = "/" +:+ "a.jpg" ∧
  engine admin_world = no_faults ∧
  (∀ f, f ∈ accepted (upload "/a.jpg" :: []) → save_error f = None) ∧
  ∃ w',
    upload_folder Werkzeug.secure_filename (folder_request [upload "/a.jpg"])
      admin_world = (Return (Redirect "gallery"), w') ∧
    cards (committed w')
      = (cards (committed admin_world)
         ++ [Card.mk (next_id (Card.id <$> cards (committed admin_world))) "" None])%list.
Proof.
  assert (∀ f, f ∈ accepted (upload "/a.jpg" :: []) → save_error f = None) as Hok.
  { intros f Hf. apply list_elem_of_filter in Hf as [_ Hf]. in_list Hf. }
  split; [reflexivity|]. split; [by split|]. split; [vm_compute; reflexivity|].
  split; [reflexivity|]. split; [reflexivity|]. split; [exact Hok|].
  apply (upload_folder_leading_slash_empty_name Werkzeug.secure_filename
           (folder_request [upload "/a.jpg"]) (upload "/a.jpg") [] "a.jpg" admin_world);
    [reflexivity|by split|vm_compute; reflexivity|reflexivity|reflexivity|exact Hok].
Defined.

Lemma upload_image_failed_write_leaves_files_witness :
  gallery_access nested_world = Some "admin" ∧
  clean nested_world ∧
  (form_get (image_request "1" [upload "x.exe"; trip_a; trip_b_unwritable; trip_b])
     "card_id" ≫= PyInt.int)
    ≫= (λ k, find_card k (cards (committed nested_world)))
    = Some (Card.mk 1 "Trip" None) ∧
  files_getlist (image_request "1" [upload "x.exe"; trip_a; trip_b_unwritable; trip_b])
    "image" = ([upload "x.exe"; trip_a] ++ trip_b_unwritable :: [trip_b])%list ∧
  (∀ f, f ∈ accepted [upload "x.exe"; trip_a] → save_error f = None) ∧
  allowed_file (filename trip_b_unwritable) = true ∧
  save_error trip_b_unwritable = Some "No space left on device" ∧
  ∃ w',
    handle Werkzeug.secure_filename PyInt.int UploadImageR
      (image_request "1" [upload "x.exe"; trip_a; trip_b_unwritable; trip_b])
      nested_world = (Some (Abort 500), w') ∧
    committed w' = committed nested_world ∧
    uploads w'
      = list_to_set
          (stored_names (uploads nested_world)
             ((λ f, Werkzeug.secure_filename (filename f))
                <$> accepted [upload "x.exe"; trip_a]))
        ∪ uploads nested_world ∧
    length (stored_names (uploads nested_world)
              ((λ f, Werkzeug.secure_filename (filename f))
                 <$> accepted [upload "x.exe"; trip_a]))
      = length (accepted [upload "x.exe"; trip_a]) ∧
    flashed w'
      = (flashed nested_world ++ rejection_warnings [upload "x.exe"; trip_a])%list.
Proof.
  assert (∀ f, f ∈ accepted [upload "x.exe"; trip_a] → save_error f = None) as Hok.
  { intros f Hf. apply list_elem_of_filter in Hf as [_ Hf]. in_list Hf. }
  split; [reflexivity|]. split; [by split|]. split; [vm_compute; reflexivity|].
  split; [vm_compute; reflexivity|]. split; [exact Hok|]. split; [reflexivity|].
  split; [reflexivity|].
  apply (upload_image_failed_write_leaves_files Werkzeug.secure_filename PyInt.int
           (image_request "1" [upload "x.exe"; trip_a; trip_b_unwritable; trip_b])
           (Card.mk 1 "Trip" None) [upload "x.exe"; trip_a] [trip_b]
           trip_b_unwritable "No space left on device" nested_world);
    [reflexivity|by split|vm_compute; reflexivity|vm_compute; reflexivity
    |exact Hok|reflexivity|reflexivity].
Defined.

Lemma delete_failed_commit_loses_files_witness :
  gallery_access nested_world_commit_fails = Some "admin" ∧
  clean nested_world_commit_fails ∧
  commit_error (engine nested_world_commit_fails) = Some "disk I/O error" ∧
  find_card 1 (cards (committed nested_world_commit_fails))
    = Some (Card.mk 1 "Trip" None) ∧
  find_image 1 (images (committed nested_world_commit_fails))
    = Some (Image.mk 1 "a.jpg" 1) ∧
  (∃ w', handle Werkzeug.secure_filename PyInt.int (DeleteCardR 1) (card_form [])
           nested_world_commit_fails = (Some (Abort 500), w') ∧
         committed w' = committed nested_world_commit_fails ∧
         uploads w' = uploads nested_world_commit_fails ∖ list_to_set
           (Image.filename
              <$> filter (λ i, Image.card_id i = 1)
                    (images (committed nested_world_commit_fails)))) ∧
  (∃ w', handle Werkzeug.secure_filename PyInt.int (DeleteImageR 1) (card_form [])
           nested_world_commit_fails = (Some (Abort 500), w') ∧
         committed w' = committed nested_world_commit_fails ∧
         uploads w' = uploads nested_world_commit_fails
                        ∖ {[Image.filename (Image.mk 1 "a.jpg" 1)]}).
Proof.
  split; [reflexivity|]. split; [by split|]. split; [reflexivity|].
  split; [reflexivity|]. split; [reflexivity|].
  destruct (delete_failed_commit_loses_files Werkzeug.secure_filename PyInt.int 1
              (card_form []) "disk I/O error" nested_world_commit_fails)
    as (Hcard & Himage); [reflexivity|by split|reflexivity|].
  split; [exact (Hcard (Card.mk 1 "Trip" None) eq_refl)
         |exact (Himage (Image.mk 1 "a.jpg" 1) eq_refl)].
Defined.

Lemma upload_folder_then_delete_card_restores_witness :
  gallery_access nested_world = Some "admin" ∧
  clean nested_world ∧
  files_getlist (folder_request [trip_a; trip_b]) "folder_files" = trip_a :: [trip_b] ∧
  engine nested_world = no_faults ∧
  (∀ f, f ∈ accepted (trip_a :: [trip_b]) → save_error f = None) ∧
  (∀ c, c ∈ cards (committed nested_world) →
        Card.parent_id c ≠ Some (next_id (Card.id <$> cards (committed nested_world)))) ∧
  (∀ i, i ∈ images (committed nested_world) →
        Image.card_id i ≠ next_id (Card.id <$> cards (committed nested_world))) ∧
  ∃ w1 w2,
    upload_folder Werkzeug.secure_filename (folder_request [trip_a; trip_b])
      nested_world = (Return (Redirect "gallery"), w1) ∧
    delete_card (next_id (Card.id <$> cards (committed nested_world))) w1
      = (Return (Redirect "gallery"), w2) ∧
    committed w2 = committed nested_world ∧
    uploads w2 = uploads nested_world ∧
    clean w2.
Proof.
  assert (∀ f, f ∈ accepted (trip_a :: [trip_b]) → save_error f = None) as Hok.
  { intros f Hf. apply list_elem_of_filter in Hf as [_ Hf]. in_list Hf. }
  assert (∀ c, c ∈ cards (committed nested_world) →
               Card.parent_id c
               ≠ Some (next_id (Card.id <$> cards (committed nested_world)))) as Hcards.
  { intros c Hc. simpl in Hc. in_list Hc; discriminate. }
  assert (∀ i, i ∈ images (committed nested_world) →
               Image.card_id i
               ≠ next_id (Card.id <$> cards (committed nested_world))) as Himages.
  { intros i Hi. simpl in Hi. in_list Hi; discriminate. }
  split; [reflexivity|]. split; [by split|]. split; [vm_compute; reflexivity|].
  split; [reflexivity|]. split; [exact Hok|]. split; [exact Hcards|].
  split; [exact Himages|].
  apply (upload_folder_then_delete_card_restores Werkzeug.secure_filename
           (folder_request [trip_a; trip_b]) trip_a [trip_b] nested_world);
    [reflexivity|by split|vm_compute; reflexivity|reflexivity|exact Hok
    |exact Hcards|exact Himages].
Defined.

Lemma login_level_decides_admin_routes_witness :
  clean anonymous_world ∧
  admin_route (DeleteCardR 1) = true ∧
  form_get (card_form [("password", "123")]) "password" = Some "123" ∧
  ∃ w1,
    handle Werkzeug.secure_filename PyInt.int (GalleryLogin true)
      (card_form [("password", "123")]) anonymous_world
      = (Some (Redirect "gallery"), w1) ∧
    handle Werkzeug.secure_filename PyInt.int Gallery (card_form []) w1
      = (Some (RenderTemplate "gallery.html"), w1) ∧
    handle Werkzeug.secure_filename PyInt.int (DeleteCardR 1) (card_form []) w1
      = (Some (Redirect "gallery"),
         set_flashed
           (flashed w1 ++ [("You do not have permission to do that.", "error")]) w1).
Proof.
  split; [by split|]. split; [reflexivity|]. split; [vm_compute; reflexivity|].
  destruct (login_level_decides_admin_routes Werkzeug.secure_filename PyInt.int
              (DeleteCardR 1) (card_form [("password", "123")]) (card_form [])
              anonymous_world)
    as (Hpublic & _); [by split|reflexivity|].
  apply Hpublic. vm_compute. reflexivity.
Defined.

